(** * bikeshare.py: a shallow embedding and its verified properties

    The development follows the layout of [bikeshare.py]: the module
    constants, the Python string primitives the program relies on, the
    prefix resolver ([match_start_string], [unique_selection]), the
    reporting helpers ([display_most_common], [display_duration]), the
    filter dialogue ([get_filters]), the loader ([load_data]) and the
    session loop ([main_loop]).

    Conventions.
    - A Python [str] is a Rocq [string]; a character is its code point,
      so the model covers the strings whose code points are below 256.
    - Console input is a finite list of [input_event]s: what [input]
      did at each successive prompt (returned a line, or was interrupted).
      A function that prompts returns [None] when the list is used up
      while it is still waiting for an answer.
    - Console output is a list of [event]s, one per [print] that matters
      to the properties below. *)

From Stdlib Require Import ZArith List String Ascii Bool Lia QArith Qround.
From Stdlib Require Import Numbers.DecimalString.
From Stdlib Require Sorting.Sorted.
Import ListNotations.

Local Open Scope string_scope.
Local Open Scope Z_scope.

(** ** Python string primitives *)

Module PyStr.

Definition code (c : ascii) : N := N_of_ascii c.

(** [str.isspace] on one character, for code points below 256:
    U+0009..U+000D, U+001C..U+0020, U+0085 and U+00A0. *)
Definition is_space (c : ascii) : bool :=
  let n := code c in
  ((9 <=? n) && (n <=? 13) || (28 <=? n) && (n <=? 32)
   || (n =? 133) || (n =? 160))%N.

(** [str.lower] on one character, for code points below 256:
    A..Z, and U+00C0..U+00DE except the multiplication sign U+00D7. *)
Definition lower_char (c : ascii) : ascii :=
  let n := code c in
  if ((65 <=? n) && (n <=? 90)
      || (192 <=? n) && (n <=? 222) && negb (n =? 215))%N
  then ascii_of_N (n + 32) else c.

Fixpoint lower (s : string) : string :=
  match s with
  | EmptyString => EmptyString
  | String c s' => String (lower_char c) (lower s')
  end.

(** Removal of the leading, resp. trailing, characters that satisfy [p]. *)
Fixpoint lstrip_by (p : ascii -> bool) (s : string) : string :=
  match s with
  | EmptyString => EmptyString
  | String c s' => if p c then lstrip_by p s' else s
  end.

Fixpoint rstrip_by (p : ascii -> bool) (s : string) : string :=
  match s with
  | EmptyString => EmptyString
  | String c s' =>
      match rstrip_by p s' with
      | EmptyString => if p c then EmptyString else String c EmptyString
      | r => String c r
      end
  end.

(** [s.lstrip()] and [s.rstrip()]: whitespace is removed. *)
Definition lstrip : string -> string := lstrip_by is_space.
Definition rstrip : string -> string := rstrip_by is_space.

Fixpoint mem_char (c : ascii) (chars : string) : bool :=
  match chars with
  | EmptyString => false
  | String d chars' => Ascii.eqb c d || mem_char c chars'
  end.

(** [s.strip(chars)]: the characters of [chars] are removed at both ends. *)
Definition strip_chars (chars s : string) : string :=
  rstrip_by (fun c => mem_char c chars) (lstrip_by (fun c => mem_char c chars) s).

(** [s[:n]] for [n >= 0]. *)
Definition take (n : nat) (s : string) : string := substring 0 n s.

(** [sep.join(items)]. *)
Fixpoint join (sep : string) (items : list string) : string :=
  match items with
  | [] => EmptyString
  | [x] => x
  | x :: rest => x ++ sep ++ join sep rest
  end.

(** [str(n)] for an [int]. *)
Definition str_int (n : Z) : string := NilZero.string_of_int (Z.to_int n).

(** *** [repr] of a string *)

Definition hex_digit (n : N) : ascii :=
  (if n <? 10 then ascii_of_N (48 + n) else ascii_of_N (87 + n))%N.

(** [str.isprintable] on one character, for code points below 256. *)
Definition is_printable (c : ascii) : bool :=
  let n := code c in
  ((32 <=? n) && (n <? 127) || (161 <=? n) && negb (n =? 173))%N.

Definition backslash : ascii := ascii_of_N 92.
Definition squote : ascii := ascii_of_N 39.
Definition dquote : ascii := ascii_of_N 34.

(** One character of the body of [repr(s)], [quote] being the delimiter. *)
Definition repr_char (quote c : ascii) : string :=
  let n := code c in
  if Ascii.eqb c quote || Ascii.eqb c backslash
  then String backslash (String c EmptyString)
  else if (n =? 9)%N then String backslash "t"
  else if (n =? 10)%N then String backslash "n"
  else if (n =? 13)%N then String backslash "r"
  else if is_printable c then String c EmptyString
  else String backslash
         (String "x" (String (hex_digit (n / 16)) (String (hex_digit (n mod 16)) EmptyString))).

Fixpoint repr_body (quote : ascii) (s : string) : string :=
  match s with
  | EmptyString => EmptyString
  | String c s' => repr_char quote c ++ repr_body quote s'
  end.

(** The delimiter is the double quote when [s] has a single quote and no
    double quote, the single quote otherwise. *)
Definition repr_quote (s : string) : ascii :=
  if mem_char squote s && negb (mem_char dquote s) then dquote else squote.

(** [repr(s)]. *)
Definition repr (s : string) : string :=
  let q := repr_quote s in
  String q (repr_body q s ++ String q EmptyString).

(** [str(items)] for a list of strings. *)
Definition str_list (items : list string) : string :=
  "[" ++ join ", " (map repr items) ++ "]".

End PyStr.

(** ** Module constants *)

Definition nl : string := String (ascii_of_N 10) EmptyString.
Definition tab : string := String (ascii_of_N 9) EmptyString.

(** The dictionary of supported files, in insertion order. *)
Definition CITY_DATA : list (string * string) :=
  [ ("Chicago", "chicago.csv");
    ("New York City", "new_york_city.csv");
    ("Washington", "washington.csv");
    ("Add new city files here!", "newcityfile.csv");
    ("Test Data", "testdata.csv") ].

(** The tuple of month names; the entries July to December are commented
    out in the source. *)
Definition MONTHS : list string :=
  ["Dummy"; "January"; "February"; "March"; "April"; "May"; "June"].

Definition WEEKDAYS : list string :=
  ["Sunday"; "Monday"; "Tuesday"; "Wednesday"; "Thursday"; "Friday"; "Saturday"].

Definition QUIT_RECOGNIZED : string :=
  "You requested to quit. The program has ended.".

Definition SIGNOFF : string :=
  nl ++ "Thanks for using this bikeshare data explorer! " ++ nl.

(** ** Python sequence primitives *)

(** [t[i]] on a tuple or list: a negative index counts from the end, and
    an index outside [-len, len) raises [IndexError] ([None] here). *)
Definition py_index {A : Type} (t : list A) (i : Z) : option A :=
  let len := Z.of_nat (List.length t) in
  if (0 <=? i) && (i <? len) then nth_error t (Z.to_nat i)
  else if (- len <=? i) && (i <? 0) then nth_error t (Z.to_nat (i + len))
  else None.

(** [t[i:j]] for [0 <= i] and [0 <= j]: bounds beyond the end are clipped. *)
Definition py_slice {A : Type} (t : list A) (i j : Z) : list A :=
  firstn (Z.to_nat (j - i)) (skipn (Z.to_nat i) t).

(** [d[k]] on a dictionary kept as an association list. *)
Fixpoint dict_get (d : list (string * string)) (k : string) : option string :=
  match d with
  | [] => None
  | (k', v) :: d' => if String.eqb k k' then Some v else dict_get d' k
  end.

(** ** The data frame *)

(** What the [.dt] accessor gives for a parsed start time. *)
Record timestamp := mkTimestamp {
  ts_month : Z;
  ts_weekday_name : string;
  ts_hour : Z
}.

(** A row as [pd.read_csv] and [pd.to_datetime] deliver it.  A missing
    gender or birth year is [None] (NaN). *)
Record trip := mkTrip {
  Start_Time : timestamp;
  Start_Station : string;
  End_Station : string;
  Trip_Duration : Q;
  User_Type : string;
  Gender : option string;
  Birth_Year : option Q
}.

(** A file: its rows and whether the optional columns are present. *)
Record csv_file := mkCsv {
  csv_rows : list trip;
  csv_has_gender : bool;
  csv_has_birth_year : bool
}.

(** A row of the frame [load_data] returns: the trip and the four derived
    columns. *)
Record row := mkRow {
  row_trip : trip;
  Month : string;
  Day_of_Week : string;
  Hour : Z;
  Path : string
}.

Record DataFrame := mkFrame {
  df_rows : list row;
  df_has_gender : bool;
  df_has_birth_year : bool
}.

(** ** Console interaction *)

(** What one call of [input] did. *)
Inductive input_event :=
| Line (text : string)
| KeyboardInterrupt.

Inductive event :=
| Out (text : string)                        (* print(text) *)
| OutRows (rows : list row)                  (* print(df[i:j]) *)
| OutElapsed                                 (* print('This took ... seconds.') *)
| CallLoadData (city month day : string).    (* entry into load_data *)

(** The exceptions of the model.  [ReadError] stands for the exception
    [pd.read_csv] raises, FileNotFoundError for an absent file. *)
Inductive exc := IndexError | KeyError | NameError | ValueError | ReadError.

(** The result of running a piece of the program on the pending input:
    it returned, or it waits at a prompt with the input used up, or it
    raised. *)
Inductive outcome (A : Type) :=
| Returned (a : A) (rest : list input_event) (out : list event)
| Blocked (out : list event)
| Raised (e : exc) (out : list event).

Arguments Returned {A} a rest out.
Arguments Blocked {A} out.
Arguments Raised {A} e out.

Definition io (A : Type) := list input_event -> outcome A.

Definition ret {A : Type} (a : A) : io A := fun inputs => Returned a inputs [].

(** [emit out o]: the events [out] happened before those of [o]. *)
Definition emit {A : Type} (out : list event) (o : outcome A) : outcome A :=
  match o with
  | Returned a rest out' => Returned a rest (out ++ out')
  | Blocked out' => Blocked (out ++ out')
  | Raised e out' => Raised e (out ++ out')
  end.

Definition bind {A B : Type} (m : io A) (k : A -> io B) : io B :=
  fun inputs =>
    match m inputs with
    | Returned a rest out => emit out (k a rest)
    | Blocked out => Blocked out
    | Raised e out => Raised e out
    end.

Definition print (text : string) : io unit :=
  fun inputs => Returned tt inputs [Out text].

Definition raise {A : Type} (e : exc) : io A := fun _ => Raised e [].

Declare Scope io_scope.
Delimit Scope io_scope with io.
Notation "x <- m ;; k" := (bind m (fun x => k))
  (at level 61, m at next level, right associativity) : io_scope.
Notation "' pat <- m ;; k" := (bind m (fun x => match x with pat => k end))
  (at level 61, pat pattern, m at next level, right associativity) : io_scope.
Notation "m ;;; k" := (bind m (fun _ => k))
  (at level 61, right associativity) : io_scope.

(** [clean_input]: the line typed, or "Quit" on a KeyboardInterrupt. *)
Definition clean_input (e : input_event) : string :=
  match e with
  | Line text => text
  | KeyboardInterrupt => "Quit"
  end.

(** ** The prefix resolver *)

Definition match_start_string (list_to_search : list string) (substring : string)
  : list string :=
  let clean_substring := PyStr.lower (PyStr.rstrip (PyStr.lstrip substring)) in
  filter (fun item =>
            String.eqb clean_substring
              (PyStr.lower (PyStr.take (String.length clean_substring) item)))
         list_to_search.

(** The value returned after the loop: [str(matched).strip("'[]")]. *)
Definition matched_to_string (matched : list string) : string :=
  PyStr.strip_chars "'[]" (PyStr.str_list matched).

Definition no_match_report (selection : string) (option_list : list string)
  : list event :=
  Out (nl ++ "There was no match for " ++ String PyStr.dquote selection
       ++ String PyStr.dquote ". Please try again. Here are the options: ")
  :: map (fun option => Out (tab ++ option)) option_list.

Definition ambiguous_report (selection : string) (matched : list string)
  : list event :=
  Out (nl ++ "There was more than one match to " ++ String PyStr.dquote selection
       ++ String PyStr.dquote ":")
  :: map (fun m => Out (tab ++ m)) matched
  ++ [Out ("Please be more specific or " ++ String PyStr.dquote "quit"
           ++ String PyStr.dquote ".")].

(** [unique_selection]: one pass of the [while True] per pending input. *)
Fixpoint unique_selection (option_list : list string) (inputs : list input_event)
  : outcome string :=
  match inputs with
  | [] => Blocked []
  | e :: rest =>
      let selection := clean_input e in
      let matched := match_start_string option_list selection in
      match matched with
      | [] => emit (no_match_report selection option_list)
                   (unique_selection option_list rest)
      | [_] => Returned (matched_to_string matched) rest []
      | _ => emit (ambiguous_report selection matched)
                  (unique_selection option_list rest)
      end
  end.

(** ** get_filters *)

Definition get_filters (available_cities : list string) (all_flag : bool)
  : io (string * string * string) :=
  (city <- unique_selection (available_cities ++ ["Quit"]) ;;
   print ("You selected:  " ++ city) ;;;
   if String.eqb city "Quit" then ret (city, "Quit", "Quit")
   else if all_flag then ret (city, "All", "All")
   else
     month <- unique_selection (py_slice MONTHS 1 13 ++ ["All"; "Quit"]) ;;
     print ("You selected:  " ++ month) ;;;
     if String.eqb month "Quit" then ret (city, month, "Quit")
     else
       day <- unique_selection (WEEKDAYS ++ ["All"; "Quit"]) ;;
       print ("You selected:  " ++ day) ;;;
       ret (city, month, day))%io.

(** ** Columns and the modal values *)

(** A value of a column: an integer (hour, year of birth) or a string. *)
Inductive cell :=
| CInt (n : Z)
| CStr (s : string).

Definition cell_eqb (a b : cell) : bool :=
  match a, b with
  | CInt m, CInt n => Z.eqb m n
  | CStr s, CStr t => String.eqb s t
  | _, _ => false
  end.

(** The order used to sort a column of one type. *)
Definition cell_leb (a b : cell) : bool :=
  match a, b with
  | CInt m, CInt n => Z.leb m n
  | CStr s, CStr t => String.leb s t
  | CInt _, CStr _ => true
  | CStr _, CInt _ => false
  end.

(** [str(s)] for a value of a column. *)
Definition str_cell (a : cell) : string :=
  match a with
  | CInt n => PyStr.str_int n
  | CStr s => s
  end.

(** The number of rows of [col] holding [v]. *)
Definition frequency (v : cell) (col : list cell) : nat :=
  List.length (filter (cell_eqb v) col).

Definition max_frequency (col : list cell) : nat :=
  fold_right Nat.max 0%nat (map (fun v => frequency v col) col).

(** The distinct values of a column, each at its first occurrence. *)
Fixpoint distinct (col : list cell) : list cell :=
  match col with
  | [] => []
  | v :: col' => v :: filter (fun w => negb (cell_eqb v w)) (distinct col')
  end.

Fixpoint insert_sorted (v : cell) (sorted : list cell) : list cell :=
  match sorted with
  | [] => [v]
  | w :: sorted' => if cell_leb v w then v :: sorted else w :: insert_sorted v sorted'
  end.

Definition sort_cells (col : list cell) : list cell :=
  fold_right insert_sorted [] col.

(** pandas' [Series.mode()] on a column without missing values: the
    values that appear most often, in sorted order. *)
Definition mode (col : list cell) : list cell :=
  sort_cells (filter (fun v => Nat.eqb (frequency v col) (max_frequency col))
                     (distinct col)).

Definition col_Month (df : DataFrame) : list cell :=
  map (fun r => CStr (Month r)) (df_rows df).
Definition col_Day_of_Week (df : DataFrame) : list cell :=
  map (fun r => CStr (Day_of_Week r)) (df_rows df).
Definition col_Hour (df : DataFrame) : list cell :=
  map (fun r => CInt (Hour r)) (df_rows df).
Definition col_Start_Station (df : DataFrame) : list cell :=
  map (fun r => CStr (Start_Station (row_trip r))) (df_rows df).
Definition col_End_Station (df : DataFrame) : list cell :=
  map (fun r => CStr (End_Station (row_trip r))) (df_rows df).
Definition col_Path (df : DataFrame) : list cell :=
  map (fun r => CStr (Path r)) (df_rows df).

(** [int(x)] for a float [x]: truncation towards zero. *)
Definition py_int (x : Q) : Z := Z.quot (Qnum x) (Zpos (Qden x)).

(** [[int(b_year) for b_year in df['Birth Year'] if not np.isnan(b_year).any()]] *)
Definition birth_years (df : DataFrame) : list Z :=
  flat_map (fun r => match Birth_Year (row_trip r) with
                     | Some y => [py_int y]
                     | None => []
                     end) (df_rows df).

(** ** display_most_common *)

Definition display_most_common (description : string) (column : list cell)
    (show_in_rows : bool) : io unit :=
  let most_common := mode column in
  (if show_in_rows then
     print description ;;;
     print (tab ++ PyStr.join (nl ++ tab) (map str_cell most_common)) ;;;
     print EmptyString      (* print('\n', end=''): one line break, as print('') *)
   else
     print (description ++ PyStr.join ", " (map str_cell most_common)))%io.

(** ** display_duration *)

(** [round(x)] for a float [x]: to the nearest integer, a tie going to the
    even one. *)
Definition py_round (x : Q) : Z :=
  let f := Qfloor x in
  match Qcompare (x - inject_Z f) (1 # 2) with
  | Lt => f
  | Gt => f + 1
  | Eq => if Z.even f then f else f + 1
  end.

(** [divmod(a, b)] *)
Definition divmod (a b : Z) : Z * Z := (a / b, a mod b).

(** The day, hour, minute and second counts of [display_duration]. *)
Definition duration_list (total_seconds : Q) : list Z :=
  let '(minutes, seconds) := divmod (py_round total_seconds) 60 in
  let '(hours, minutes) := divmod minutes 60 in
  let '(days, hours) := divmod hours 24 in
  [days; hours; minutes; seconds].

(** A format string, cut at its replacement fields: literal text, a plain
    field [{i}], or the fixed-point field [{4:.{prec}f}]. *)
Inductive piece :=
| Text (s : string)
| Field (i : nat)
| FieldFixed (i : nat).

Definition duration_args : list (list piece) :=
  [ [Field 0; Text " days, "];
    [Field 1; Text " hours, "];
    [Field 2; Text " minutes, "];
    [Field 3; Text " seconds "] ].

Definition duration_names : list string := ["days"; "hours"; "minutes"; "seconds"].

Definition duration_unit_in_seconds : list Z := [24 * 60 * 60; 60 * 60; 60; 1].

(** [enumerate(l)] *)
Definition enumerate {A : Type} (l : list A) : list (nat * A) :=
  combine (seq 0 (List.length l)) l.

(** [min] of the indices of the positive counts, 3 standing for the others. *)
Definition top_unit_index (counts : list Z) : nat :=
  fold_right Nat.min 3%nat
    (map (fun '(index, value) => if 0 <? value then index else 3%nat)
         (enumerate counts)).

(** The pieces of [print_string]. *)
Definition print_string (counts : list Z) : list piece :=
  List.concat (map (fun '(index, value) =>
                 if 0 <? value then nth index duration_args [] else [])
              (enumerate counts))
  ++ [Text "(= "; FieldFixed 4; Text " "; Field 5; Text ")"].

(** An argument of [str.format]. *)
Inductive format_arg :=
| AInt (n : Z)
| AStr (s : string)
| AFloat (numerator : Q) (denominator : Z).

Section Reporting.

(** The text of [float(x) / u] in fixed-point notation with [prec] decimals;
    binary floating point is outside the model. *)
Variable format_quotient : Q -> Z -> nat -> string.

Definition format_field (prec : nat) (a : format_arg) : string :=
  match a with
  | AInt n => PyStr.str_int n
  | AStr s => s
  | AFloat x u => format_quotient x u prec
  end.

(** [template.format( *args, prec=prec)] *)
Definition format (template : list piece) (args : list format_arg) (prec : nat)
  : string :=
  String.concat EmptyString
    (map (fun p =>
                 match p with
                 | Text s => s
                 | Field i | FieldFixed i => format_field prec (nth i args (AStr EmptyString))
                 end) template).

(** The line [display_duration] prints. *)
Definition duration_line (description : string) (total_seconds : Q) : string :=
  let counts := duration_list total_seconds in
  let top := top_unit_index counts in
  let top_calc := AFloat total_seconds (nth top duration_unit_in_seconds 1) in
  let top_name := nth top duration_names EmptyString in
  description ++ " "
  ++ format (print_string counts)
       (map AInt counts ++ [top_calc; AStr top_name]) 2.

Definition display_duration (description : string) (total_seconds : Q) : io unit :=
  print (duration_line description total_seconds).

End Reporting.

(** ** The statistics blocks, the loader and the session loop *)

Fixpoint repeat_string (s : string) (n : nat) : string :=
  match n with
  | O => EmptyString
  | S n' => s ++ repeat_string s n'
  end.

(** The pandas aggregations of [trip_duration_stats]. *)
Inductive aggregation := Sum | Minimum | Mean | Median | Quantile90 | Maximum.

(** The command line arguments. *)
Record Args := mkArgs {
  timeoff : bool;
  all : bool;
  debug : bool;
  pagesize : Z
}.

(** The value of [previous_city]: the one-element tuple it starts as, or
    the string assigned at a restart.  [city == previous_city] compares a
    string with it. *)
Inductive previous :=
| Tuple1 (s : string)
| Str (s : string).

Definition city_eq (city : string) (previous_city : previous) : bool :=
  match previous_city with
  | Tuple1 _ => false
  | Str s => String.eqb city s
  end.

(** How one pass of the session loop ends: [break], or the end of the body
    with the values the next pass sees. *)
Inductive control :=
| Break
| Again (city : string) (df : DataFrame).

(** ** display_categories *)

(** [s.ljust(width)] and [s.rjust(width)]: spaces are added up to [width]. *)
Definition ljust (s : string) (width : nat) : string :=
  s ++ repeat_string " " (width - String.length s).

Definition rjust (s : string) (width : nat) : string :=
  repeat_string " " (width - String.length s) ++ s.

(** [max(l)] for a list: [None] stands for the ValueError on an empty one. *)
Definition py_max (l : list nat) : option nat :=
  match l with
  | [] => None
  | x :: l' => Some (fold_right Nat.max x l')
  end.

(** The lines [display_categories] prints for a dictionary of categories
    and results, kept in its order; [None] when it raises. *)
Definition display_categories (results_dict : list (string * cell))
    (category_header result_header : string) : option (list string) :=
  let pad := 5%nat in
  match py_max (map (fun '(c, _) => String.length c) results_dict),
        py_max (map (fun '(_, r) => String.length (str_cell r)) results_dict) with
  | Some widest_category, Some widest_result =>
      let max_category_width := Nat.max (String.length category_header) widest_category in
      let max_result_width := Nat.max (String.length result_header) widest_result in
      Some ((ljust category_header max_category_width ++ repeat_string " " pad
             ++ rjust result_header max_result_width)
            :: (repeat_string "-" max_category_width ++ repeat_string "-" pad
                ++ repeat_string "-" max_result_width)
            :: map (fun '(category, result) =>
                      ljust category max_category_width ++ repeat_string " " pad
                      ++ rjust (str_cell result) max_result_width)
                   results_dict
            ++ [EmptyString])
  | _, _ => None
  end.

(** ** value_counts *)

(** The values of a column that are not missing. *)
Definition present (col : list (option string)) : list string :=
  flat_map (fun v => match v with
                     | Some s => [s]
                     | None => []
                     end) col.

Definition occurrences (s : string) (l : list string) : nat :=
  List.length (filter (String.eqb s) l).

(** The distinct strings of a list, each at its first occurrence. *)
Fixpoint distinct_strings (l : list string) : list string :=
  match l with
  | [] => []
  | s :: l' => s :: filter (fun t => negb (String.eqb s t)) (distinct_strings l')
  end.

Fixpoint insert_by_count (x : string * nat) (sorted : list (string * nat))
  : list (string * nat) :=
  match sorted with
  | [] => [x]
  | y :: sorted' =>
      if (snd y <=? snd x)%nat then x :: sorted else y :: insert_by_count x sorted'
  end.

(** pandas' [Series.value_counts()]: the count of every value that is not
    missing, in descending order of count.  pandas leaves the order of
    values of equal count open; they are kept here in the order of their
    first occurrence. *)
Definition value_counts (col : list (option string)) : list (string * nat) :=
  fold_right insert_by_count []
    (map (fun s => (s, occurrences s (present col))) (distinct_strings (present col))).

Section Session.

Variable format_quotient : Q -> Z -> nat -> string.

(** [df['Trip Duration'].sum()], [.min()], [.mean()], [.median()],
    [.quantile(0.9)] and [.max()] on a column that is not empty: floating
    point aggregations, outside the model. *)
Variable aggregate : aggregation -> list Q -> Q.

(** The aggregations on any column: the sum of an empty column is 0, the
    others are NaN ([None]) there. *)
Definition aggregated (agg : aggregation) (durations : list Q) : option Q :=
  match durations, agg with
  | [], Sum => Some 0%Q
  | [], _ => None
  | _, _ => Some (aggregate agg durations)
  end.

Definition print_lines (lines : list string) : io unit :=
  fun inputs => Returned tt inputs (map Out lines).

(** [display_categories] as a piece of the program: its lines are printed,
    or the ValueError of [max] on an empty list is raised before any line. *)
Definition print_categories (results_dict : list (string * cell))
    (category_header result_header : string) : io unit :=
  match display_categories results_dict category_header result_header with
  | Some lines => print_lines lines
  | None => raise ValueError
  end.

(** [display_counts_shares] for the column [df[column_name]]. *)
Definition display_counts_shares (column : list (option string)) (title : string)
    (precision : nat) : io unit :=
  let category_counts := value_counts column in
  let total_categories := Z.of_nat (List.length (present column)) in
  let category_shares :=
    map (fun '(k, v) =>
           (k, CStr (format_quotient (inject_Z (100 * Z.of_nat v)) total_categories
                       precision ++ "%")))
        category_counts in
  (print_categories (map (fun '(k, v) => (k, CInt (Z.of_nat v))) category_counts)
     title "Count" ;;;
   print_categories category_shares title "Share(%)")%io.

(** [pd.read_csv(name)] followed by [pd.to_datetime] on the start times;
    [None] when [pd.read_csv] raises. *)
Variable read_csv : string -> option csv_file.

(** [glob.glob("*.csv")] *)
Variable file_list : list string.

Definition elapsed (timing_off_flag : bool) : io unit :=
  fun inputs => Returned tt inputs (if timing_off_flag then [] else [OutElapsed]).

Definition time_stats (df : DataFrame) (timing_off_flag : bool) (month day : string)
  : io unit :=
  (print (nl ++ "Calculating The Most Frequent Times of Travel..." ++ nl) ;;;
   (if String.eqb month "All"
    then display_most_common "The most common month(s):" (col_Month df) false
    else ret tt) ;;;
   (if String.eqb day "All"
    then display_most_common "The most common day(s):  " (col_Day_of_Week df) false
    else ret tt) ;;;
   display_most_common "The most common hour(s): " (col_Hour df) false ;;;
   print " (hour(s) in 24h format)" ;;;
   print EmptyString ;;;
   elapsed timing_off_flag ;;;
   print (repeat_string "-" 40))%io.

Definition station_stats (df : DataFrame) (timing_off_flag : bool) : io unit :=
  (print (nl ++ "Calculating The Most Popular Stations and Trip..." ++ nl) ;;;
   let show_in_rows := true in
   display_most_common "The most common start stations(s):"
     (col_Start_Station df) show_in_rows ;;;
   display_most_common "The most common end stations(s):"
     (col_End_Station df) show_in_rows ;;;
   display_most_common "The most common start => end combination(s):"
     (col_Path df) show_in_rows ;;;
   print EmptyString ;;;
   elapsed timing_off_flag ;;;
   print (repeat_string "-" 40))%io.

Definition trip_duration_stats (df : DataFrame) (timing_off_flag : bool) : io unit :=
  let durations := map (fun r => Trip_Duration (row_trip r)) (df_rows df) in
  let show description agg :=
    match aggregated agg durations with
    | Some total_seconds =>
        display_duration format_quotient (description ++ nl) total_seconds
    | None => raise ValueError      (* round(nan) *)
    end in
  (print (nl ++ "Calculating Trip Duration..." ++ nl) ;;;
   show "Total duration of all trips:" Sum ;;;
   show "Shortest trip duration:" Minimum ;;;
   show "Mean trip duration:" Mean ;;;
   show "Half of the trips took less than:" Median ;;;
   show "90% of the trips took less than:" Quantile90 ;;;
   show "Longest trip duration:" Maximum ;;;
   print EmptyString ;;;
   elapsed timing_off_flag ;;;
   print (repeat_string "-" 40))%io.

Definition list_min (l : list Z) (default : Z) : Z := fold_right Z.min default l.
Definition list_max (l : list Z) (default : Z) : Z := fold_right Z.max default l.

Definition user_stats (df : DataFrame) (timing_off_flag : bool) : io unit :=
  (print (nl ++ "Calculating User Stats..." ++ nl) ;;;
   display_counts_shares
     (map (fun r => Some (User_Type (row_trip r))) (df_rows df))
     "Subscriber Type" 4%nat ;;;
   (if df_has_gender df
    then display_counts_shares
           (map (fun r => Gender (row_trip r)) (df_rows df)) "Gender" 2%nat
    else print "No data about gender for this city.") ;;;
   (if df_has_birth_year df
    then
      match birth_years df with
      | [] => raise KeyError        (* the frame built from [] has no column 0 *)
      | y :: ys =>
          print ("Earliest year of birth:  " ++ PyStr.str_int (list_min ys y)) ;;;
          print ("Latest year of birth:    " ++ PyStr.str_int (list_max ys y)) ;;;
          display_most_common "The most common year(s): "
            (map CInt (birth_years df)) false
      end
    else print "No data about birth year for this city.") ;;;
   print EmptyString ;;;
   elapsed timing_off_flag ;;;
   print (repeat_string "=" 60))%io.

(** [[MONTHS[int(m)] for m in df['Start Time'].dt.month]]: [None] when
    one lookup raises. *)
Fixpoint month_names (months : list Z) : option (list string) :=
  match months with
  | [] => Some []
  | m :: months' =>
      match py_index MONTHS m with
      | None => None
      | Some name =>
          match month_names months' with
          | None => None
          | Some names => Some (name :: names)
          end
      end
  end.

Definition derive_row (t : trip) (month_name : string) : row :=
  {| row_trip := t;
     Month := month_name;
     Day_of_Week := ts_weekday_name (Start_Time t);
     Hour := ts_hour (Start_Time t);
     Path := Start_Station t ++ " => " ++ End_Station t |}.

Definition load_data (city month day : string) : io DataFrame :=
  fun inputs =>
    emit [CallLoadData city month day;
          Out (nl ++ "Loading data for city = " ++ city ++ ", month = " ++ month
               ++ ", day = " ++ day ++ "...")]
      match dict_get CITY_DATA city with
      | None => Raised KeyError []
      | Some file =>
          match read_csv file with
          | None => Raised ReadError []
          | Some f =>
              match month_names (map (fun t => ts_month (Start_Time t)) (csv_rows f)) with
              | None => Raised IndexError []
              | Some names =>
                  let rows := map (fun '(t, name) => derive_row t name)
                                  (combine (csv_rows f) names) in
                  let rows :=
                    if negb (String.eqb month "All")
                    then filter (fun r => String.eqb (Month r) month) rows else rows in
                  let rows :=
                    if negb (String.eqb day "All")
                    then filter (fun r => String.eqb (Day_of_Week r) day) rows else rows in
                  Returned {| df_rows := rows;
                              df_has_gender := csv_has_gender f;
                              df_has_birth_year := csv_has_birth_year f |} inputs []
              end
          end
      end.

(** The paging loop of the raw view: [i] is the index of the next row. *)
Fixpoint raw_pages (page : Z) (df : DataFrame) (df_row_count i : Z)
    (inputs : list input_event) : outcome unit :=
  if i <? df_row_count then
    let shown := [OutRows (py_slice (df_rows df) i (i + Z.abs page))] in
    match inputs with
    | [] => Blocked shown
    | e :: rest =>
        let next_page := clean_input e in
        if String.eqb (PyStr.lower next_page) "q"
        then Returned tt rest shown
        else emit shown (raw_pages page df df_row_count (i + Z.abs page) rest)
    end
  else Returned tt inputs [].

(** A prompt outside [unique_selection]. *)
Definition prompt : io string :=
  fun inputs =>
    match inputs with
    | [] => Blocked []
    | e :: rest => Returned (clean_input e) rest []
    end.

(** [{city_name: city_file for ... in CITY_DATA.items() if city_file in file_list}] *)
Definition file_dict : list (string * string) :=
  filter (fun '(_, city_file) => existsb (String.eqb city_file) file_list) CITY_DATA.

(** The loading step of a pass: [load_data] is called, or the frame at
    hand is kept.  [df] is [None] while the variable is unbound. *)
Definition load_step (args : Args) (previous_city : previous)
    (df : option DataFrame) (city month day : string) : io DataFrame :=
  if negb (city_eq city previous_city && all args)
  then load_data city month day
  else match df with
       | Some loaded => ret loaded
       | None => raise NameError
       end.

(** The rest of a pass: the view chosen is shown and the restart is asked. *)
Definition after_load (args : Args) (city month day : string) (df : DataFrame)
  : io control :=
  (let df_row_count := Z.of_nat (List.length (df_rows df)) in
   go_on <-
     (if negb (df_row_count =? 0) then
        what_to_display <- unique_selection ["Raw Data"; "Statistics"; "Quit"] ;;
        print ("You selected:  " ++ what_to_display) ;;;
        if String.eqb what_to_display "Quit" then
          print QUIT_RECOGNIZED ;;; ret false
        else if String.eqb what_to_display "Statistics" then
          print (nl ++ repeat_string "=" 60) ;;;
          time_stats df (timeoff args) month day ;;;
          station_stats df (timeoff args) ;;;
          trip_duration_stats df (timeoff args) ;;;
          user_stats df (timeoff args) ;;;
          ret true
        else
          print (nl ++ "To change the number of rows per page, use option -p." ++ nl) ;;;
          raw_pages (pagesize args) df df_row_count 0 ;;;
          ret true
      else
        print "There was no data with this selection." ;;; ret true) ;;
   if go_on : bool then
     restart <- prompt ;;
     if negb (String.eqb (PyStr.lower restart) "y") then ret Break
     else ret (Again city df)
   else ret Break)%io.

(** One pass of the body of the session loop. *)
Definition main_body (args : Args) (previous_city : previous) (df : option DataFrame)
  : io control :=
  ('(city, month, day) <- get_filters (map fst file_dict) (all args) ;;
   if String.eqb "Quit" city || String.eqb "Quit" month || String.eqb "Quit" day
   then print "You requested to quit. The program has ended." ;;; ret Break
   else
     df <- load_step args previous_city df city month day ;;
     after_load args city month day df)%io.

(** The [while True] of the session, at most [fuel] passes. *)
Fixpoint main_while (fuel : nat) (args : Args) (previous_city : previous)
    (df : option DataFrame) : io unit :=
  match fuel with
  | O => fun _ => Blocked []
  | S fuel' =>
      (c <- main_body args previous_city df ;;
       match c with
       | Break => ret tt
       | Again city loaded => main_while fuel' args (Str city) (Some loaded)
       end)%io
  end.

(** The welcome block and the reminder of the usage. *)
Definition welcome (args : Args) : io unit :=
  (print (nl ++ "Welcome to the bikeshare explorer!" ++ nl ++ nl
          ++ "Let's explore some US bikeshare data!") ;;;
   print (nl ++ "To select data, just type enough letters to make your selection unique.") ;;;
   print (tab ++ "For example: c for Chicago, th for Thursday, etc.") ;;;
   print (tab ++ "To view all the possible filter options, just hit Enter.") ;;;
   print "To quit the program, enter q at the next prompt." ;;;
   (if timeoff args
    then print "At your request, timings of statistics calculations have been switched off."
    else print "To switch off timings of statistics calculations use option -t") ;;;
   (if all args
    then print "At your request, optional filtering has been switched off."
    else print "To always use all data (no month or day filters) use option -a"))%io.

(** [main_loop]: every pass reads at least one input, so one pass more
    than there are inputs is enough. *)
Definition main_loop (args : Args) : io unit :=
  fun inputs =>
    (welcome args ;;;
     (if negb (List.length file_dict =? 0)%nat
      then main_while (S (List.length inputs)) args (Tuple1 "No previous city") None
      else print "No data files were found in the working directory. Please check!") ;;;
     print SIGNOFF)%io inputs.

End Session.

(** ** Sample data for the worked examples *)

Definition sample_trip (month : Z) (start stop : string) : trip :=
  {| Start_Time := {| ts_month := month; ts_weekday_name := "Monday"; ts_hour := 8 |};
     Start_Station := start;
     End_Station := stop;
     Trip_Duration := 60;
     User_Type := "Subscriber";
     Gender := None;
     Birth_Year := None |}.

(** A directory with two files: three trips of January and February in
    chicago.csv, one trip of March in washington.csv. *)
Definition sample_read_csv (name : string) : option csv_file :=
  if String.eqb name "chicago.csv"
  then Some (mkCsv [sample_trip 1 "A" "B"; sample_trip 1 "A" "C"; sample_trip 2 "B" "C"]
                   false false)
  else Some (mkCsv [sample_trip 3 "D" "E"] false false).

Definition sample_files : list string := ["chicago.csv"; "washington.csv"].

(** A file holding one trip of July. *)
Definition july_read_csv (name : string) : option csv_file :=
  Some (mkCsv [sample_trip 7 "A" "B"] false false).

Definition sample_format (x : Q) (u : Z) (prec : nat) : string := "1.00".
Definition sample_aggregate (a : aggregation) (l : list Q) : Q := 60.

Definition sample_frame : DataFrame :=
  {| df_rows := [derive_row (sample_trip 1 "A" "B") "January";
                 derive_row (sample_trip 1 "A" "C") "January";
                 derive_row (sample_trip 2 "B" "C") "February"];
     df_has_gender := false;
     df_has_birth_year := false |}.

Definition sample_args (all_flag : bool) : Args :=
  {| timeoff := true; all := all_flag; debug := false; pagesize := 2 |}.

Definition sample_main_loop (all_flag : bool) : io unit :=
  main_loop sample_format sample_aggregate sample_read_csv
    sample_files (sample_args all_flag).

Definition sample_main_body (all_flag : bool) : previous -> option DataFrame -> io control :=
  main_body sample_format sample_aggregate sample_read_csv
    sample_files (sample_args all_flag).

(** ** The rendering of a duration, in the words of its description *)

(** A unit is shown, with its count, when the count is positive. *)
Definition shown_unit (value : Z) (suffix : string) : string :=
  if 0 <? value then PyStr.str_int value ++ suffix else EmptyString.

(** The unit of the exact value: the highest one with a positive count,
    the second when there is none. *)
Definition top_unit (days hours minutes seconds : Z) : Z * string :=
  if 0 <? days then (86400, "days")
  else if 0 <? hours then (3600, "hours")
  else if 0 <? minutes then (60, "minutes")
  else (1, "seconds").

(** ** Options that survive the conversion of the match to a string *)

Definition strippable (c : ascii) : bool := PyStr.mem_char c "'[]".

Definition plain_char (c : ascii) : bool :=
  PyStr.is_printable c && negb (Ascii.eqb c PyStr.squote)
  && negb (Ascii.eqb c PyStr.backslash).

Fixpoint all_chars (p : ascii -> bool) (s : string) : bool :=
  match s with
  | EmptyString => true
  | String c s' => p c && all_chars p s'
  end.

Definition first_char_kept (s : string) : bool :=
  match s with
  | EmptyString => true
  | String c _ => negb (strippable c)
  end.

Fixpoint last_char_kept (s : string) : bool :=
  match s with
  | EmptyString => true
  | String c EmptyString => negb (strippable c)
  | String _ s' => last_char_kept s'
  end.

(** An option made of printable characters, without quote or backslash,
    that neither starts nor ends with a bracket. *)
Definition plain (s : string) : bool :=
  all_chars plain_char s && first_char_kept s && last_char_kept s.

(** Every list of options the program itself passes to [unique_selection]. *)
Definition program_options : list string :=
  map fst CITY_DATA ++ ["Quit"]
  ++ py_slice MONTHS 1 13 ++ ["All"; "Quit"]
  ++ WEEKDAYS ++ ["All"; "Quit"]
  ++ ["Raw Data"; "Statistics"; "Quit"].

(** ** The vocabulary of the session properties *)

(** The events of an outcome, and the number of calls of [load_data]
    among some events. *)
Definition events_of {A : Type} (o : outcome A) : list event :=
  match o with
  | Returned _ _ out => out
  | Blocked out => out
  | Raised _ out => out
  end.

Definition is_load (e : event) : bool :=
  match e with
  | CallLoadData _ _ _ => true
  | _ => false
  end.

Definition loads (out : list event) : nat := List.length (filter is_load out).

(** The answers that end the raw view. *)
Definition answers_q (e : input_event) : bool :=
  String.eqb (PyStr.lower (clean_input e)) "q".

(** A piece of the program that never calls [load_data]. *)
Definition silent {A : Type} (m : io A) : Prop :=
  forall inputs, loads (events_of (m inputs)) = 0%nat.

(** The frame kept over a restart is the one [load_data] gives for the
    previous city without filters, as long as the all flag is set. *)
Definition frame_at_hand (read_csv : string -> option csv_file) (args : Args)
    (previous_city : previous) (df : option DataFrame) : Prop :=
  match previous_city with
  | Tuple1 _ => True
  | Str c =>
      all args = true ->
      exists loaded out,
        df = Some loaded
        /\ forall inputs, load_data read_csv c "All" "All" inputs
                          = Returned loaded inputs out
  end.

(** A piece of the program that hands back no more input than it got,
    resp. that reads at least one answer before it returns. *)
Definition monotone {A : Type} (m : io A) : Prop :=
  forall inputs a rest out,
    m inputs = Returned a rest out -> (List.length rest <= List.length inputs)%nat.

Definition reading {A : Type} (m : io A) : Prop :=
  forall inputs a rest out,
    m inputs = Returned a rest out -> (List.length rest < List.length inputs)%nat.

(** ** The vocabulary of the further properties *)

(** An answer that resolves: exactly one option matches it. *)
Definition resolves (option_list : list string) (e : input_event) : bool :=
  match match_start_string option_list (clean_input e) with
  | [_] => true
  | _ => false
  end.

(** The input as [match_start_string] compares it. *)
Definition clean_substring (substring : string) : string :=
  PyStr.lower (PyStr.rstrip (PyStr.lstrip substring)).

(** A row passes the filters of [load_data]. *)
Definition row_matches (month day : string) (r : row) : bool :=
  (String.eqb month "All" || String.eqb (Month r) month)
  && (String.eqb day "All" || String.eqb (Day_of_Week r) day).

(** The rows printed by the raw view, page after page. *)
Definition rows_shown (out : list event) : list row :=
  flat_map (fun e => match e with
                     | OutRows rows => rows
                     | _ => []
                     end) out.

(** The number of pages of [page] rows, in absolute value, that [n] rows
    take. *)
Definition page_count (n page : Z) : nat :=
  Z.to_nat ((n + Z.abs page - 1) / Z.abs page).

(** Rows with a gender and a year of birth, either of which may be missing. *)
Definition sample_person (gender : option string) (year : option Q) : row :=
  derive_row
    {| Start_Time := mkTimestamp 1 "Monday" 8;
       Start_Station := "A";
       End_Station := "B";
       Trip_Duration := 60;
       User_Type := "Subscriber";
       Gender := gender;
       Birth_Year := year |} "January".

Definition sample_frame_years : DataFrame :=
  {| df_rows := [sample_person (Some "Male") (Some 1992%Q);
                 sample_person None (Some (3971 # 2));
                 sample_person (Some "Female") None;
                 sample_person (Some "Male") (Some 1992%Q);
                 sample_person None (Some 2001%Q)];
     df_has_gender := true;
     df_has_birth_year := true |}.

(** A frame whose gender column holds no value at all. *)
Definition sample_frame_no_gender : DataFrame :=
  {| df_rows := [sample_person None (Some 1992%Q); sample_person None None];
     df_has_gender := true;
     df_has_birth_year := false |}.

(** * Properties *)

(** ** Worked examples of the string primitives *)

Example repr_plain : PyStr.repr "Chicago" = "'Chicago'".
Proof. reflexivity. Qed.

Example repr_apostrophe :
  PyStr.repr "Martha's Vineyard"
  = String PyStr.dquote ("Martha's Vineyard" ++ String PyStr.dquote EmptyString).
Proof. reflexivity. Qed.

Example str_list_two :
  PyStr.str_list ["New York City"; "Quit"] = "['New York City', 'Quit']".
Proof. reflexivity. Qed.

Example strip_spaces :
  PyStr.rstrip (PyStr.lstrip "  New York City ") = "New York City".
Proof. reflexivity. Qed.

Example str_int_ex : PyStr.str_int 120 = "120" /\ PyStr.str_int 0 = "0".
Proof. split; reflexivity. Qed.

Example match_prefix_ex :
  match_start_string ["Chicago"; "New York City"; "Washington"; "Quit"] " new "
  = ["New York City"].
Proof. reflexivity. Qed.

(** ** The month vocabulary (C1) *)

Lemma MONTHS_length : List.length MONTHS = 7%nat.
Proof. reflexivity. Qed.

Lemma py_index_MONTHS_low (m : Z) :
  1 <= m <= 6 -> exists name, py_index MONTHS m = Some name /\ name <> "Dummy".
Proof.
  intros Hm.
  assert (Hcases : m = 1 \/ m = 2 \/ m = 3 \/ m = 4 \/ m = 5 \/ m = 6) by lia.
  destruct Hcases as [-> | [-> | [-> | [-> | [-> | ->]]]]];
    eexists; (split; [reflexivity | discriminate]).
Qed.

Lemma py_index_MONTHS_high (m : Z) : 7 <= m -> py_index MONTHS m = None.
Proof.
  intros Hm. unfold py_index. rewrite MONTHS_length.
  replace (m <? Z.of_nat 7) with false by (symmetry; apply Z.ltb_ge; lia).
  replace (m <? 0) with false by (symmetry; apply Z.ltb_ge; lia).
  now rewrite !andb_false_r.
Qed.

Lemma month_names_low (months : list Z) :
  Forall (fun m => 1 <= m <= 6) months ->
  exists names, month_names months = Some names
                /\ List.length names = List.length months.
Proof.
  induction 1 as [| m months Hm _ [names [Hnames Hlen]]].
  - now exists [].
  - destruct (py_index_MONTHS_low m Hm) as [name [Hname _]].
    exists (name :: names). cbn [month_names].
    rewrite Hname, Hnames. cbn. now rewrite Hlen.
Qed.

(** C1, as stated, fails: the lookup for July is out of range, and loading
    a file that holds a trip of July raises IndexError. *)
Lemma months_lookup_july_out_of_range :
  1 <= 7 <= 12 /\ py_index MONTHS 7 = None
  /\ exists out,
       load_data july_read_csv "Chicago" "All" "All" [] = Raised IndexError out.
Proof.
  split; [lia | split; [reflexivity |]].
  eexists. reflexivity.
Qed.

(** ** The duration breakdown (C4, C5) *)

Lemma duration_list_shape (q : Q) :
  let r := py_round q in
  duration_list q = [r / 60 / 60 / 24; (r / 60 / 60) mod 24; (r / 60) mod 60; r mod 60].
Proof. reflexivity. Qed.

Example py_round_ties :
  py_round (1 # 2) = 0 /\ py_round (3 # 2) = 2 /\ py_round (5 # 2) = 2
  /\ py_round (7 # 3) = 2 /\ py_round 60 = 60.
Proof. repeat split; reflexivity. Qed.

Lemma py_round_nonneg (x : Q) : (0 <= x)%Q -> 0 <= py_round x.
Proof.
  intros Hx. unfold py_round.
  assert (Hf : 0 <= Qfloor x).
  { change 0 with (Qfloor 0). now apply Qfloor_resp_le. }
  destruct (Qcompare (x - inject_Z (Qfloor x)) (1 # 2)); [| lia | lia].
  destruct (Z.even (Qfloor x)); lia.
Qed.

(** C4: for a duration that is not negative, the day, hour, minute and
    second counts of display_duration, each weighted by the seconds of its
    unit, add up to the rounded duration. *)
Theorem duration_roundtrip (total_seconds : Q) :
  (0 <= total_seconds)%Q ->
  exists days hours minutes seconds,
    duration_list total_seconds = [days; hours; minutes; seconds]
    /\ days * 86400 + hours * 3600 + minutes * 60 + seconds = py_round total_seconds
    /\ duration_unit_in_seconds = [86400; 3600; 60; 1]
    /\ 0 <= days /\ 0 <= hours < 24 /\ 0 <= minutes < 60 /\ 0 <= seconds < 60.
Proof.
  intros Hpos.
  pose proof (py_round_nonneg total_seconds Hpos) as Hr.
  rewrite duration_list_shape. cbv zeta.
  do 4 eexists. split; [reflexivity | split; [| split; [reflexivity |]]];
    revert Hr; generalize (py_round total_seconds); intros r Hr;
    Z.div_mod_to_equations; lia.
Qed.

Lemma duration_roundtrip_witness :
  exists days hours minutes seconds,
    duration_list (181 # 2) = [days; hours; minutes; seconds]
    /\ days * 86400 + hours * 3600 + minutes * 60 + seconds = py_round (181 # 2)
    /\ duration_unit_in_seconds = [86400; 3600; 60; 1]
    /\ 0 <= days /\ 0 <= hours < 24 /\ 0 <= minutes < 60 /\ 0 <= seconds < 60.
Proof.
  apply (duration_roundtrip (181 # 2)). discriminate.
Defined.

Lemma append_empty_r (s : string) : s ++ EmptyString = s.
Proof. induction s as [| c s IH]; cbn; [reflexivity | now rewrite IH]. Qed.

Lemma append_assoc (a b c : string) : (a ++ b) ++ c = a ++ (b ++ c).
Proof. induction a as [| x a IH]; cbn; [reflexivity | now rewrite IH]. Qed.

(** C5, as stated, fails: sixty seconds are rendered with the minutes only;
    the format string holds no seconds field and the line printed has no
    seconds component. *)
Lemma sixty_seconds_without_seconds_component :
  duration_list 60 = [0; 0; 1; 0]
  /\ print_string (duration_list 60)
     = [Field 2; Text " minutes, "; Text "(= "; FieldFixed 4; Text " "; Field 5; Text ")"]
  /\ duration_line sample_format "Shortest:" 60
     = "Shortest: 1 minutes, (= 1.00 minutes)".
Proof. repeat split; reflexivity. Qed.

(** C5, amended: the line of display_duration shows, from days down to
    seconds, exactly the units whose count is positive, each with its
    count, and then the exact value in the highest unit shown, in seconds
    when no unit is shown; in particular sixty seconds are rendered as
    1 minutes and the exact value in minutes, without a seconds component,
    and zero seconds as the exact value in seconds alone. *)
Theorem duration_rendering (format_quotient : Q -> Z -> nat -> string)
    (description : string) (total_seconds : Q) :
  exists days hours minutes seconds,
    duration_list total_seconds = [days; hours; minutes; seconds]
    /\ duration_line format_quotient description total_seconds
       = description ++ " "
         ++ shown_unit days " days, " ++ shown_unit hours " hours, "
         ++ shown_unit minutes " minutes, " ++ shown_unit seconds " seconds "
         ++ "(= "
         ++ format_quotient total_seconds
              (fst (top_unit days hours minutes seconds)) 2%nat
         ++ " " ++ snd (top_unit days hours minutes seconds) ++ ")"
    /\ duration_line format_quotient description 60%Q
       = description ++ " 1 minutes, (= " ++ format_quotient 60%Q 60 2%nat ++ " minutes)"
    /\ duration_line format_quotient description 0%Q
       = description ++ " (= " ++ format_quotient 0%Q 1 2%nat ++ " seconds)".
Proof.
  do 4 eexists.
  split; [apply duration_list_shape | split; [| split; reflexivity]].
  unfold duration_line. rewrite duration_list_shape. cbv zeta.
  generalize (py_round total_seconds). intros r.
  unfold shown_unit, top_unit, print_string, top_unit_index, enumerate.
  cbn [List.length seq combine map fold_right].
  destruct (0 <? r / 60 / 60 / 24), (0 <? (r / 60 / 60) mod 24),
    (0 <? (r / 60) mod 60), (0 <? r mod 60);
    cbn -[Z.div Z.modulo PyStr.str_int];
    rewrite ?append_empty_r, ?append_assoc; reflexivity.
Qed.

(** ** The modal values (C6) *)

Lemma cell_eqb_eq (a b : cell) : cell_eqb a b = true <-> a = b.
Proof.
  destruct a as [m | s], b as [n | t]; cbn; split; intros H;
    try discriminate; try (injection H as ->).
  - apply Z.eqb_eq in H. now subst.
  - apply Z.eqb_refl.
  - apply String.eqb_eq in H. now subst.
  - apply String.eqb_refl.
Qed.

Lemma cell_eqb_refl (a : cell) : cell_eqb a a = true.
Proof. now apply cell_eqb_eq. Qed.

Lemma frequency_bounded (v : cell) (col l : list cell) :
  In v l ->
  (frequency v col <= fold_right Nat.max 0 (map (fun w => frequency w col) l))%nat.
Proof.
  induction l as [| w l IH]; intros Hin; [contradiction |].
  cbn [map fold_right]. destruct Hin as [-> | Hin].
  - apply Nat.le_max_l.
  - etransitivity; [apply IH, Hin | apply Nat.le_max_r].
Qed.

Lemma frequency_le_max (v : cell) (col : list cell) :
  In v col -> (frequency v col <= max_frequency col)%nat.
Proof. apply frequency_bounded. Qed.

Lemma max_attained (col l : list cell) :
  l <> [] ->
  exists v, In v l
            /\ frequency v col = fold_right Nat.max 0%nat (map (fun w => frequency w col) l).
Proof.
  induction l as [| w l IH]; intros Hne; [contradiction |].
  destruct l as [| w' l'].
  - exists w. split; [now left |]. cbn. now rewrite Nat.max_0_r.
  - destruct IH as [v [Hin Hv]]; [discriminate |].
    cbn [map fold_right] in *.
    destruct (Nat.max_spec (frequency w col)
                (Nat.max (frequency w' col)
                   (fold_right Nat.max 0%nat (map (fun w => frequency w col) l'))))
      as [[_ Hmax] | [_ Hmax]]; rewrite Hmax.
    + exists v. split; [now right | exact Hv].
    + exists w. split; [now left | reflexivity].
Qed.

Lemma In_distinct (v : cell) (col : list cell) : In v (distinct col) <-> In v col.
Proof.
  induction col as [| w col IH]; cbn [distinct]; [reflexivity |].
  split.
  - intros [-> | Hin]; [now left |].
    apply filter_In in Hin. right. now apply IH.
  - intros [-> | Hin]; [now left |].
    destruct (cell_eqb w v) eqn:E.
    + left. now apply cell_eqb_eq.
    + right. apply filter_In. split; [now apply IH | now rewrite E].
Qed.

Lemma In_insert_sorted (v w : cell) (l : list cell) :
  In v (insert_sorted w l) <-> v = w \/ In v l.
Proof.
  induction l as [| x l IH]; cbn [insert_sorted].
  - cbn. intuition.
  - destruct (cell_leb w x); cbn [In]; [intuition |].
    rewrite IH. intuition.
Qed.

Lemma In_sort_cells (v : cell) (l : list cell) : In v (sort_cells l) <-> In v l.
Proof.
  induction l as [| x l IH]; cbn [sort_cells fold_right]; [reflexivity |].
  fold (sort_cells l). rewrite In_insert_sorted, IH. cbn. intuition.
Qed.

(** The modal values are the values of the column of maximal frequency. *)
Lemma mode_spec (v : cell) (col : list cell) :
  In v (mode col) <-> In v col /\ frequency v col = max_frequency col.
Proof.
  unfold mode. rewrite In_sort_cells, filter_In, In_distinct, Nat.eqb_eq.
  reflexivity.
Qed.

Lemma mode_nonempty (col : list cell) : col <> [] -> mode col <> [].
Proof.
  intros Hne. destruct (max_attained col col Hne) as [v [Hin Hv]].
  assert (Hmode : In v (mode col)) by (apply mode_spec; split; assumption).
  intros Hnil. now rewrite Hnil in Hmode.
Qed.

Example mode_scenario_A :
  mode (col_Month sample_frame) = [CStr "January"].
Proof. reflexivity. Qed.

Example mode_ties :
  mode [CInt 17; CInt 8; CInt 17; CInt 8; CInt 9] = [CInt 8; CInt 17].
Proof. reflexivity. Qed.

(** The columns the statistics blocks pass to [display_most_common]. *)
Lemma time_stats_reports (df : DataFrame) (inputs : list input_event) :
  time_stats df true "All" "All" inputs
  = Returned tt inputs
      [Out (nl ++ "Calculating The Most Frequent Times of Travel..." ++ nl);
       Out ("The most common month(s):"
            ++ PyStr.join ", " (map str_cell (mode (col_Month df))));
       Out ("The most common day(s):  "
            ++ PyStr.join ", " (map str_cell (mode (col_Day_of_Week df))));
       Out ("The most common hour(s): "
            ++ PyStr.join ", " (map str_cell (mode (col_Hour df))));
       Out " (hour(s) in 24h format)";
       Out EmptyString;
       Out (repeat_string "-" 40)].
Proof. reflexivity. Qed.

Lemma station_stats_reports (df : DataFrame) (inputs : list input_event) :
  station_stats df true inputs
  = Returned tt inputs
      [Out (nl ++ "Calculating The Most Popular Stations and Trip..." ++ nl);
       Out "The most common start stations(s):";
       Out (tab ++ PyStr.join (nl ++ tab) (map str_cell (mode (col_Start_Station df))));
       Out EmptyString;
       Out "The most common end stations(s):";
       Out (tab ++ PyStr.join (nl ++ tab) (map str_cell (mode (col_End_Station df))));
       Out EmptyString;
       Out "The most common start => end combination(s):";
       Out (tab ++ PyStr.join (nl ++ tab) (map str_cell (mode (col_Path df))));
       Out EmptyString;
       Out EmptyString;
       Out (repeat_string "-" 40)].
Proof. reflexivity. Qed.

(** C6: every value of a column whose frequency is the maximal one is
    among the values display_most_common reports for that column, in the
    line form and in the row form alike; the columns passed are those of
    month, day of week, hour, start station, end station, path and year of
    birth. *)
Theorem most_common_reports_every_tie (description : string) (column : list cell)
    (v : cell) (inputs : list input_event) :
  In v column ->
  frequency v column = max_frequency column ->
  In v (mode column)
  /\ In (str_cell v) (map str_cell (mode column))
  /\ display_most_common description column false inputs
     = Returned tt inputs
         [Out (description ++ PyStr.join ", " (map str_cell (mode column)))]
  /\ display_most_common description column true inputs
     = Returned tt inputs
         [Out description;
          Out (tab ++ PyStr.join (nl ++ tab) (map str_cell (mode column)));
          Out EmptyString].
Proof.
  intros Hin Hmax.
  assert (Hmode : In v (mode column)) by (apply mode_spec; split; assumption).
  split; [exact Hmode | split; [now apply in_map | split; reflexivity]].
Qed.

Lemma most_common_reports_every_tie_witness :
  In (CInt 8) (mode [CInt 17; CInt 8; CInt 17; CInt 8; CInt 9])
  /\ In (CInt 17) (mode [CInt 17; CInt 8; CInt 17; CInt 8; CInt 9]).
Proof.
  split.
  - apply (most_common_reports_every_tie "The most common hour(s): "
             [CInt 17; CInt 8; CInt 17; CInt 8; CInt 9] (CInt 8) []).
    + cbn. tauto.
    + reflexivity.
  - right. left. reflexivity.
Defined.

(** ** Reasoning about [io] *)

Lemma emit_Returned {A : Type} (out : list event) (o : outcome A) a rest out' :
  emit out o = Returned a rest out' ->
  exists out2, o = Returned a rest out2 /\ out' = (out ++ out2)%list.
Proof.
  destruct o as [a0 r0 o0 | o0 | e o0]; cbn; intros H; try discriminate.
  injection H as -> -> <-. now exists o0.
Qed.

Lemma bind_Returned {A B : Type} (m : io A) (k : A -> io B) inputs b rest out :
  bind m k inputs = Returned b rest out ->
  exists a rest1 out1 out2,
    m inputs = Returned a rest1 out1
    /\ k a rest1 = Returned b rest out2
    /\ out = (out1 ++ out2)%list.
Proof.
  unfold bind. destruct (m inputs) as [a r1 o1 | o1 | e o1]; intros H; try discriminate.
  apply emit_Returned in H as [out2 [Hk ->]].
  now exists a, r1, o1, out2.
Qed.

Lemma print_Returned (text : string) inputs (u : unit) rest out :
  print text inputs = Returned u rest out -> rest = inputs /\ out = [Out text].
Proof. unfold print. intros H. injection H as _ <- <-. now split. Qed.

Lemma ret_Returned {A : Type} (a b : A) inputs rest out :
  ret a inputs = Returned b rest out -> b = a /\ rest = inputs /\ out = [].
Proof. unfold ret. intros H. injection H as <- <- <-. repeat split. Qed.

Lemma emit_app {A : Type} (out1 out2 : list event) (o : outcome A) :
  emit out1 (emit out2 o) = emit (out1 ++ out2)%list o.
Proof. destruct o; cbn; now rewrite app_assoc. Qed.

Lemma emit_nil {A : Type} (o : outcome A) : emit [] o = o.
Proof. now destruct o. Qed.

Lemma events_of_emit {A : Type} (out : list event) (o : outcome A) :
  events_of (emit out o) = (out ++ events_of o)%list.
Proof. now destruct o. Qed.

(** Inversion of a run that returned, one [bind], [print] or [ret] at a time. *)
Ltac io_inv H :=
  repeat match type of H with
    | bind _ _ _ = Returned _ _ _ =>
        let a := fresh "a" in let r := fresh "rest" in
        let o1 := fresh "out" in let o2 := fresh "out" in
        let H1 := fresh "Hrun" in let E := fresh "Eout" in
        apply bind_Returned in H as (a & r & o1 & o2 & H1 & H & E);
        try (apply print_Returned in H1 as [-> ->])
    | ret _ _ = Returned _ _ _ =>
        apply ret_Returned in H
    end.

(** ** The filter dialogue (C7) *)

Example get_filters_quit_at_city :
  get_filters ["Chicago"; "Washington"] false [Line "q"; Line "jan"]
  = Returned ("Quit", "Quit", "Quit") [Line "jan"] [Out "You selected:  Quit"].
Proof. reflexivity. Qed.

Example get_filters_quit_at_month :
  get_filters ["Chicago"; "Washington"] false [Line "c"; KeyboardInterrupt; Line "mo"]
  = Returned ("Chicago", "Quit", "Quit") [Line "mo"]
      [Out "You selected:  Chicago"; Out "You selected:  Quit"].
Proof. reflexivity. Qed.

Example get_filters_all_three :
  get_filters ["Chicago"; "Washington"] false [Line "w"; Line "mar"; Line "all"]
  = Returned ("Washington", "March", "All") []
      [Out "You selected:  Washington"; Out "You selected:  March";
       Out "You selected:  All"].
Proof. reflexivity. Qed.

Example get_filters_all_flag :
  get_filters ["Chicago"; "Washington"] true [Line "w"; Line "mar"]
  = Returned ("Washington", "All", "All") [Line "mar"]
      [Out "You selected:  Washington"].
Proof. reflexivity. Qed.

(** C7: when get_filters returns "Quit" for the city, it returns "Quit" for
    the month and the day too, and nothing was asked after the city; when
    it returns "Quit" for the month, it returns "Quit" for the day. *)
Theorem get_filters_quit_invariant (available_cities : list string) (all_flag : bool)
    (inputs rest : list input_event) (city month day : string) (out : list event) :
  get_filters available_cities all_flag inputs = Returned (city, month, day) rest out ->
  (city = "Quit" ->
     month = "Quit" /\ day = "Quit"
     /\ exists out', unique_selection (available_cities ++ ["Quit"]) inputs
                     = Returned "Quit" rest out')
  /\ (month = "Quit" -> day = "Quit").
Proof.
  unfold get_filters. intros H. io_inv H.
  destruct (String.eqb a "Quit") eqn:Ecity.
  - apply String.eqb_eq in Ecity. subst a. io_inv H.
    destruct H as (Heq & -> & ->). injection Heq as -> -> ->.
    split; [| reflexivity].
    intros _. repeat split. now exists out0.
  - apply String.eqb_neq in Ecity.
    destruct all_flag.
    + io_inv H. destruct H as (Heq & -> & ->). injection Heq as -> -> ->.
      split; [intros Hq; contradiction | discriminate].
    + io_inv H. destruct (String.eqb a1 "Quit") eqn:Emonth.
      * io_inv H. destruct H as (Heq & -> & ->). injection Heq as -> -> ->.
        split; [intros Hq; contradiction | reflexivity].
      * apply String.eqb_neq in Emonth. io_inv H.
        destruct H as (Heq & -> & ->). injection Heq as -> -> ->.
        split; intros Hq; contradiction.
Qed.

Lemma get_filters_quit_invariant_witness :
  ("Quit" = "Quit" ->
     "Quit" = "Quit" /\ "Quit" = "Quit"
     /\ exists out', unique_selection (["Chicago"; "Washington"] ++ ["Quit"])
                       [Line "q"; Line "jan"]
                     = Returned "Quit" [Line "jan"] out')
  /\ ("Quit" = "Quit" -> "Quit" = "Quit").
Proof.
  apply (get_filters_quit_invariant ["Chicago"; "Washington"] false
           [Line "q"; Line "jan"] [Line "jan"] "Quit" "Quit" "Quit"
           [Out "You selected:  Quit"]).
  reflexivity.
Defined.

(** ** The prefix resolver (C2, C8) *)

Lemma lower_empty : PyStr.lower EmptyString = EmptyString.
Proof. reflexivity. Qed.

Lemma take_zero (s : string) : PyStr.take 0 s = EmptyString.
Proof. now destruct s. Qed.

(** An input that trims to the empty string matches every option. *)
Lemma match_start_string_blank (option_list : list string) (s : string) :
  PyStr.rstrip (PyStr.lstrip s) = EmptyString ->
  match_start_string option_list s = option_list.
Proof.
  intros Hblank. unfold match_start_string. rewrite Hblank. cbn.
  induction option_list as [| item items IH]; cbn; [reflexivity |].
  rewrite take_zero. cbn. now rewrite IH.
Qed.

Lemma lstrip_spaces (s : string) :
  all_chars PyStr.is_space s = true -> PyStr.lstrip s = EmptyString.
Proof.
  unfold PyStr.lstrip.
  induction s as [| c s IH]; cbn; [reflexivity |].
  intros H. apply andb_true_iff in H as [Hc Hs]. rewrite Hc. now apply IH.
Qed.

Lemma whitespace_trims_to_empty (s : string) :
  all_chars PyStr.is_space s = true ->
  PyStr.rstrip (PyStr.lstrip s) = EmptyString.
Proof. intros H. now rewrite lstrip_spaces. Qed.

(** The three ways one pass of [unique_selection] can go. *)
Lemma unique_selection_no_match option_list e rest :
  match_start_string option_list (clean_input e) = [] ->
  unique_selection option_list (e :: rest)
  = emit (no_match_report (clean_input e) option_list)
         (unique_selection option_list rest).
Proof. intros H. cbn [unique_selection]. now rewrite H. Qed.

Lemma unique_selection_one_match option_list e rest x :
  match_start_string option_list (clean_input e) = [x] ->
  unique_selection option_list (e :: rest)
  = Returned (matched_to_string [x]) rest [].
Proof. intros H. cbn [unique_selection]. now rewrite H. Qed.

Lemma unique_selection_ambiguous option_list e rest x y more :
  match_start_string option_list (clean_input e) = x :: y :: more ->
  unique_selection option_list (e :: rest)
  = emit (ambiguous_report (clean_input e) (x :: y :: more))
         (unique_selection option_list rest).
Proof. intros H. cbn [unique_selection]. now rewrite H. Qed.

(** With more than one option, a blank answer is ambiguous: all the options
    are listed and the question is asked again. *)
Lemma blank_is_ambiguous option_list e rest :
  PyStr.rstrip (PyStr.lstrip (clean_input e)) = EmptyString ->
  (1 < List.length option_list)%nat ->
  unique_selection option_list (e :: rest)
  = emit (ambiguous_report (clean_input e) option_list)
         (unique_selection option_list rest).
Proof.
  intros Hblank Hlen.
  destruct option_list as [| x [| y more]]; cbn in Hlen; try lia.
  apply unique_selection_ambiguous. now apply match_start_string_blank.
Qed.

(** With one option, a blank answer selects it, and the value returned is
    the conversion of the match to a string. *)
Lemma blank_selects_sole_option x e rest :
  PyStr.rstrip (PyStr.lstrip (clean_input e)) = EmptyString ->
  unique_selection [x] (e :: rest) = Returned (matched_to_string [x]) rest [].
Proof.
  intros Hblank. apply unique_selection_one_match.
  now apply match_start_string_blank.
Qed.

(** *** The conversion of the match to a string *)

Lemma repr_char_plain (c : ascii) :
  plain_char c = true -> PyStr.repr_char PyStr.squote c = String c EmptyString.
Proof.
  destruct c as [[] [] [] [] [] [] [] []]; intros H;
    solve [reflexivity | discriminate H].
Qed.

Lemma repr_body_plain (s : string) :
  all_chars plain_char s = true -> PyStr.repr_body PyStr.squote s = s.
Proof.
  induction s as [| c s IH]; cbn [all_chars PyStr.repr_body]; [reflexivity |].
  intros H. apply andb_true_iff in H as [Hc Hs].
  rewrite (repr_char_plain c Hc), (IH Hs). reflexivity.
Qed.

Lemma no_squote_plain (s : string) :
  all_chars plain_char s = true -> PyStr.mem_char PyStr.squote s = false.
Proof.
  induction s as [| c s IH]; cbn [all_chars PyStr.mem_char]; [reflexivity |].
  intros H. apply andb_true_iff in H as [Hc Hs]. rewrite (IH Hs), orb_false_r.
  unfold plain_char in Hc.
  apply andb_true_iff in Hc as [Hc _]. apply andb_true_iff in Hc as [_ Hc].
  apply negb_true_iff in Hc. now rewrite Ascii.eqb_sym.
Qed.

Lemma repr_plain_string (s : string) :
  all_chars plain_char s = true ->
  PyStr.repr s = String PyStr.squote (s ++ String PyStr.squote EmptyString).
Proof.
  intros H. unfold PyStr.repr, PyStr.repr_quote.
  rewrite (no_squote_plain s H). cbn [andb]. now rewrite repr_body_plain.
Qed.

Lemma rstrip_by_all (p : ascii -> bool) (t : string) :
  all_chars p t = true -> PyStr.rstrip_by p t = EmptyString.
Proof.
  induction t as [| c t IH]; cbn [all_chars PyStr.rstrip_by]; [reflexivity |].
  intros H. apply andb_true_iff in H as [Hc Ht]. now rewrite (IH Ht), Hc.
Qed.

Lemma rstrip_by_app (s t : string) :
  last_char_kept s = true -> all_chars strippable t = true ->
  PyStr.rstrip_by strippable (s ++ t) = s.
Proof.
  intros Hs Ht. induction s as [| c s IH]; [now apply rstrip_by_all |].
  cbn [append PyStr.rstrip_by].
  destruct s as [| d s'].
  - cbn [append]. rewrite (rstrip_by_all _ t Ht).
    cbn [last_char_kept] in Hs. apply negb_true_iff in Hs. now rewrite Hs.
  - rewrite IH by exact Hs. reflexivity.
Qed.

(** A plain option is returned as it is. *)
Lemma matched_to_string_plain (x : string) :
  plain x = true -> matched_to_string [x] = x.
Proof.
  unfold plain. intros H.
  apply andb_true_iff in H as [H Hlast]. apply andb_true_iff in H as [Hall Hfirst].
  unfold matched_to_string, PyStr.str_list. cbn [map PyStr.join].
  rewrite (repr_plain_string x Hall).
  unfold PyStr.strip_chars. fold strippable.
  change (PyStr.lstrip_by strippable
            ("[" ++ String PyStr.squote (x ++ String PyStr.squote EmptyString) ++ "]"))
    with (PyStr.lstrip_by strippable ((x ++ String PyStr.squote EmptyString) ++ "]")).
  rewrite append_assoc.
  destruct x as [| c x'].
  - reflexivity.
  - cbn [append PyStr.lstrip_by]. cbn [first_char_kept] in Hfirst.
    apply negb_true_iff in Hfirst. rewrite Hfirst.
    exact (rstrip_by_app (String c x') (String PyStr.squote "]") Hlast eq_refl).
Qed.

(** Every option the program itself offers is plain. *)
Lemma program_options_plain : forallb plain program_options = true.
Proof. reflexivity. Qed.

(** For a plain option, the unique prefix match is returned character for
    character. *)
Lemma unique_selection_plain option_list e rest x :
  match_start_string option_list (clean_input e) = [x] ->
  plain x = true ->
  unique_selection option_list (e :: rest) = Returned x rest [].
Proof.
  intros Hmatch Hplain.
  rewrite (unique_selection_one_match _ _ _ _ Hmatch).
  now rewrite matched_to_string_plain.
Qed.

(** Matching keeps the case of the options and only returns options. *)
Lemma match_start_string_incl option_list s x :
  In x (match_start_string option_list s) -> In x option_list.
Proof. unfold match_start_string. intros H. now apply filter_In in H. Qed.

(** C2: the code departs from the claim.  With the options Martha's
    Vineyard and Quit, the answer m matches the first option alone, and
    unique_selection returns it wrapped in double quotes; with the option
    [Test] Data, the answer [ matches it alone, and unique_selection returns
    it without its first character. *)
Theorem unique_selection_alters_entry :
  match_start_string ["Martha's Vineyard"; "Quit"] "m" = ["Martha's Vineyard"]
  /\ unique_selection ["Martha's Vineyard"; "Quit"] [Line "m"]
     = Returned (String PyStr.dquote
                   ("Martha's Vineyard" ++ String PyStr.dquote EmptyString)) [] []
  /\ match_start_string ["[Test] Data"; "Quit"] "[" = ["[Test] Data"]
  /\ unique_selection ["[Test] Data"; "Quit"] [Line "["]
     = Returned "Test] Data" [] [].
Proof. repeat split; reflexivity. Qed.

(** C8: the code departs from the claim for a list of one option that is
    not plain.  The empty answer matches the one option Martha's Vineyard,
    and unique_selection returns it wrapped in double quotes, not the option
    itself; so does an answer of spaces. *)
Theorem blank_answer_alters_sole_entry :
  match_start_string ["Martha's Vineyard"] EmptyString = ["Martha's Vineyard"]
  /\ unique_selection ["Martha's Vineyard"] [Line EmptyString]
     = Returned (String PyStr.dquote
                   ("Martha's Vineyard" ++ String PyStr.dquote EmptyString)) [] []
  /\ unique_selection ["Martha's Vineyard"] [Line "   "]
     = Returned (String PyStr.dquote
                   ("Martha's Vineyard" ++ String PyStr.dquote EmptyString)) [] [].
Proof. repeat split; reflexivity. Qed.

(** ** The raw view (C9, C10) *)

Lemma raw_pages_past_end page df n i inputs :
  n <= i -> raw_pages page df n i inputs = Returned tt inputs [].
Proof.
  intros H. destruct inputs; cbn [raw_pages];
    replace (i <? n) with false by (symmetry; apply Z.ltb_ge; lia); reflexivity.
Qed.

Lemma raw_pages_step page df n i e rest :
  i < n ->
  raw_pages page df n i (e :: rest)
  = if answers_q e
    then Returned tt rest [OutRows (py_slice (df_rows df) i (i + Z.abs page))]
    else emit [OutRows (py_slice (df_rows df) i (i + Z.abs page))]
              (raw_pages page df n (i + Z.abs page) rest).
Proof.
  intros H. cbn [raw_pages].
  replace (i <? n) with true by (symmetry; apply Z.ltb_lt; lia). reflexivity.
Qed.

Lemma raw_pages_waits page df n i :
  i < n ->
  raw_pages page df n i []
  = Blocked [OutRows (py_slice (df_rows df) i (i + Z.abs page))].
Proof.
  intros H. cbn [raw_pages].
  replace (i <? n) with true by (symmetry; apply Z.ltb_lt; lia). reflexivity.
Qed.

(** The answers q and Q stop the raw view. *)
Lemma raw_pages_q_stops page df n i rest :
  i < n ->
  raw_pages page df n i (Line "q" :: rest)
  = Returned tt rest [OutRows (py_slice (df_rows df) i (i + Z.abs page))]
  /\ raw_pages page df n i (Line "Q" :: rest)
     = Returned tt rest [OutRows (py_slice (df_rows df) i (i + Z.abs page))].
Proof. intros H. now rewrite !raw_pages_step by exact H. Qed.

(** An interrupt at a page boundary is read as the answer Quit, which is
    not q, and the next page follows. *)
Lemma raw_pages_interrupt_continues page df n i rest :
  i < n ->
  raw_pages page df n i (KeyboardInterrupt :: rest)
  = emit [OutRows (py_slice (df_rows df) i (i + Z.abs page))]
         (raw_pages page df n (i + Z.abs page) rest).
Proof. intros H. now rewrite raw_pages_step by exact H. Qed.

(** C9: the code departs from the claim.  Over the three rows of the sample
    frame and pages of two rows, an interrupt at the first page boundary is
    followed by the second page, where the answer q ends the view. *)
Theorem interrupt_does_not_stop_raw_view :
  clean_input KeyboardInterrupt = "Quit"
  /\ raw_pages 2 sample_frame 3 0 [KeyboardInterrupt]
     = Blocked [OutRows (py_slice (df_rows sample_frame) 0 2);
                OutRows (py_slice (df_rows sample_frame) 2 4)]
  /\ raw_pages 2 sample_frame 3 0 [KeyboardInterrupt; Line "y"]
     = Returned tt []
         [OutRows (py_slice (df_rows sample_frame) 0 2);
          OutRows (py_slice (df_rows sample_frame) 2 4)]
  /\ raw_pages 2 sample_frame 3 0 [Line "q"; Line "y"]
     = Returned tt [Line "y"] [OutRows (py_slice (df_rows sample_frame) 0 2)].
Proof. repeat split; reflexivity. Qed.

Lemma raw_pages_zero_blocked df n i inputs :
  i < n ->
  forallb (fun e => negb (answers_q e)) inputs = true ->
  raw_pages 0 df n i inputs
  = Blocked (repeat (OutRows (py_slice (df_rows df) i i)) (S (List.length inputs))).
Proof.
  intros Hi. induction inputs as [| e rest IH]; intros Hq.
  - rewrite raw_pages_waits by exact Hi. cbn. now rewrite Z.add_0_r.
  - cbn [forallb] in Hq. apply andb_true_iff in Hq as [He Hrest].
    apply negb_true_iff in He.
    rewrite raw_pages_step by exact Hi. rewrite He.
    cbn [Z.abs]. rewrite Z.add_0_r, (IH Hrest). reflexivity.
Qed.

Lemma raw_pages_zero_returns df n i inputs u rest out :
  i < n ->
  raw_pages 0 df n i inputs = Returned u rest out ->
  exists before e,
    inputs = (before ++ e :: rest)%list
    /\ forallb (fun e => negb (answers_q e)) before = true
    /\ answers_q e = true.
Proof.
  intros Hi. revert out. induction inputs as [| e inputs IH]; intros out H.
  - rewrite raw_pages_waits in H by exact Hi. discriminate.
  - rewrite raw_pages_step in H by exact Hi.
    destruct (answers_q e) eqn:He.
    + injection H as _ <- _. now exists [], e.
    + cbn [Z.abs] in H. rewrite Z.add_0_r in H.
      apply emit_Returned in H as [out2 [H _]].
      destruct (IH _ H) as (before & e' & -> & Hbefore & He').
      exists (e :: before), e'. cbn [forallb]. rewrite He. now repeat split.
Qed.

(** C10: with a page size of 0 and a frame that is not empty, the row index
    stays at 0: every page shown is the empty slice from 0 to 0, the loop
    is still waiting after any answers none of which is q, and it returns
    only at an answer q. *)
Theorem page_size_zero_stops_only_at_q (df : DataFrame) (df_row_count : Z)
    (inputs : list input_event) :
  0 < df_row_count ->
  py_slice (df_rows df) 0 (0 + Z.abs 0) = []
  /\ (forallb (fun e => negb (answers_q e)) inputs = true ->
      raw_pages 0 df df_row_count 0 inputs
      = Blocked (repeat (OutRows []) (S (List.length inputs))))
  /\ (forall u rest out,
        raw_pages 0 df df_row_count 0 inputs = Returned u rest out ->
        exists before e,
          inputs = (before ++ e :: rest)%list
          /\ forallb (fun e => negb (answers_q e)) before = true
          /\ answers_q e = true).
Proof.
  intros Hn. split; [reflexivity | split].
  - intros Hq. now rewrite raw_pages_zero_blocked.
  - intros u rest out H. eapply raw_pages_zero_returns; eassumption.
Qed.

Lemma page_size_zero_stops_only_at_q_witness :
  raw_pages 0 sample_frame 3 0 [Line "y"; KeyboardInterrupt; Line "quit"]
  = Blocked (repeat (OutRows []) 4).
Proof.
  apply (page_size_zero_stops_only_at_q sample_frame 3
           [Line "y"; KeyboardInterrupt; Line "quit"]).
  - lia.
  - reflexivity.
Defined.

(** For a page size other than 0 the loop ends by itself: as many answers
    as there are rows left are enough, whatever they are. *)
Lemma raw_pages_terminates page df n inputs :
  page <> 0 ->
  forall i, (Z.to_nat (n - i) <= List.length inputs)%nat ->
  exists rest out, raw_pages page df n i inputs = Returned tt rest out.
Proof.
  intros Hpage. induction inputs as [| e inputs IH]; intros i Hlen.
  - cbn [List.length] in Hlen. exists [], []. apply raw_pages_past_end. lia.
  - destruct (Z_lt_ge_dec i n) as [Hi | Hi].
    + rewrite raw_pages_step by exact Hi.
      destruct (answers_q e); [now eexists _, _ |].
      destruct (IH (i + Z.abs page)) as (rest & out & ->).
      { cbn [List.length] in Hlen. lia. }
      now eexists _, _.
    + eexists _, _. apply raw_pages_past_end. lia.
Qed.

(** ** Calls of [load_data] in the session loop (C3) *)

Lemma loads_app (out1 out2 : list event) :
  loads (out1 ++ out2) = (loads out1 + loads out2)%nat.
Proof. unfold loads. now rewrite filter_app, length_app. Qed.

Lemma loads_Out (lines : list string) : loads (map Out lines) = 0%nat.
Proof. induction lines as [| l lines IH]; [reflexivity | exact IH]. Qed.

Lemma loads_bind {A B : Type} (m : io A) (k : A -> io B) inputs :
  (forall a, silent (k a)) ->
  loads (events_of (bind m k inputs)) = loads (events_of (m inputs)).
Proof.
  intros Hk. unfold bind. destruct (m inputs) as [a rest out | out | e out];
    [| reflexivity | reflexivity].
  rewrite events_of_emit, loads_app, (Hk a rest). cbn [events_of]. apply Nat.add_0_r.
Qed.

Lemma silent_bind {A B : Type} (m : io A) (k : A -> io B) :
  silent m -> (forall a, silent (k a)) -> silent (bind m k).
Proof. intros Hm Hk inputs. rewrite loads_bind by exact Hk. apply Hm. Qed.

Lemma silent_ret {A : Type} (a : A) : silent (ret a).
Proof. intros inputs. reflexivity. Qed.

Lemma silent_print (text : string) : silent (print text).
Proof. intros inputs. reflexivity. Qed.

Lemma silent_raise {A : Type} (e : exc) : silent (@raise A e).
Proof. intros inputs. reflexivity. Qed.

Lemma silent_prompt : silent prompt.
Proof. intros [| e rest]; reflexivity. Qed.

Lemma silent_elapsed (timing_off_flag : bool) : silent (elapsed timing_off_flag).
Proof. intros inputs. now destruct timing_off_flag. Qed.

Lemma silent_print_lines (lines : list string) : silent (print_lines lines).
Proof. intros inputs. apply loads_Out. Qed.

Lemma loads_cons_Out (text : string) (out : list event) :
  loads (Out text :: out) = loads out.
Proof. reflexivity. Qed.

Lemma loads_map_Out {A : Type} (f : A -> string) (l : list A) :
  loads (map (fun x => Out (f x)) l) = 0%nat.
Proof. induction l as [| x l IH]; [reflexivity | exact IH]. Qed.

Lemma loads_no_match_report selection option_list :
  loads (no_match_report selection option_list) = 0%nat.
Proof. unfold no_match_report. rewrite loads_cons_Out. apply loads_map_Out. Qed.

Lemma loads_ambiguous_report selection matched :
  loads (ambiguous_report selection matched) = 0%nat.
Proof.
  unfold ambiguous_report. rewrite loads_cons_Out, loads_app, loads_map_Out.
  reflexivity.
Qed.

Lemma silent_unique_selection (option_list : list string) :
  silent (unique_selection option_list).
Proof.
  intros inputs. induction inputs as [| e rest IH]; [reflexivity |].
  cbn [unique_selection].
  destruct (match_start_string option_list (clean_input e)) as [| x [| y more]];
    [| reflexivity |]; rewrite events_of_emit, loads_app, IH, Nat.add_0_r.
  - apply loads_no_match_report.
  - apply loads_ambiguous_report.
Qed.

Lemma silent_raw_pages page df n i : silent (raw_pages page df n i).
Proof.
  intros inputs. revert i. induction inputs as [| e rest IH]; intros i.
  - cbn [raw_pages]. now destruct (i <? n).
  - cbn [raw_pages]. destruct (i <? n); [| reflexivity].
    destruct (String.eqb _ _); [reflexivity |].
    rewrite events_of_emit, loads_app, IH. reflexivity.
Qed.

Lemma silent_display_most_common description column show_in_rows :
  silent (display_most_common description column show_in_rows).
Proof. intros inputs. now destruct show_in_rows. Qed.

Lemma silent_display_duration format_quotient description total_seconds :
  silent (display_duration format_quotient description total_seconds).
Proof. intros inputs. reflexivity. Qed.

Lemma silent_get_filters available_cities all_flag :
  silent (get_filters available_cities all_flag).
Proof.
  unfold get_filters.
  repeat first
    [ apply silent_bind; [| intros ?]
    | apply silent_unique_selection
    | apply silent_print
    | apply silent_ret
    | match goal with |- silent (if ?b then _ else _) => destruct b end ].
Qed.

(** A call of [load_data] is one call of [load_data]. *)
Lemma loads_load_data read_csv city month day inputs :
  loads (events_of (load_data read_csv city month day inputs)) = 1%nat.
Proof.
  unfold load_data. rewrite events_of_emit, loads_app.
  destruct (dict_get CITY_DATA city) as [file |]; [| reflexivity].
  destruct (read_csv file) as [f |]; [| reflexivity].
  now destruct (month_names _).
Qed.

(** The frame [load_data] returns does not depend on the pending input,
    which it leaves as it is. *)
Lemma load_data_returns read_csv city month day inputs frame rest out :
  load_data read_csv city month day inputs = Returned frame rest out ->
  rest = inputs
  /\ forall inputs', load_data read_csv city month day inputs' = Returned frame inputs' out.
Proof.
  unfold load_data.
  destruct (dict_get CITY_DATA city) as [file |]; [| discriminate].
  destruct (read_csv file) as [f |]; [| discriminate].
  destruct (month_names _) as [names |]; [| discriminate].
  cbn [emit]. intros H. injection H as <- <- <-. now split.
Qed.

Lemma bind_run {A B : Type} (m : io A) (k : A -> io B) inputs a rest out :
  m inputs = Returned a rest out -> bind m k inputs = emit out (k a rest).
Proof. intros H. unfold bind. now rewrite H. Qed.

Lemma silent_print_categories results_dict category_header result_header :
  silent (print_categories results_dict category_header result_header).
Proof.
  unfold print_categories.
  destruct (display_categories _ _ _); [apply silent_print_lines | apply silent_raise].
Qed.

Lemma silent_display_counts_shares format_quotient column title precision :
  silent (display_counts_shares format_quotient column title precision).
Proof.
  unfold display_counts_shares.
  apply silent_bind; [| intros ?]; apply silent_print_categories.
Qed.

Ltac prove_silent :=
  repeat first
    [ apply silent_display_counts_shares
    | apply silent_print_categories
    | apply silent_bind; [| intros ?]
    | apply silent_unique_selection
    | apply silent_raw_pages
    | apply silent_display_most_common
    | apply silent_display_duration
    | apply silent_print_lines
    | apply silent_elapsed
    | apply silent_prompt
    | apply silent_print
    | apply silent_ret
    | apply silent_raise
    | match goal with
      | |- silent (match ?x with _ => _ end) => destruct x
      end ].

Section SessionProperties.

Variable format_quotient : Q -> Z -> nat -> string.
Variable aggregate : aggregation -> list Q -> Q.
Variable read_csv : string -> option csv_file.
Variable file_list : list string.

Local Notation "'the_body'" :=
  (main_body format_quotient aggregate read_csv file_list).
Local Notation "'the_while'" :=
  (main_while format_quotient aggregate read_csv file_list).
Local Notation "'the_rest'" :=
  (after_load format_quotient aggregate).
Local Notation "'the_cities'" := (map fst (file_dict file_list)).

Lemma silent_time_stats df timing_off_flag month day :
  silent (time_stats df timing_off_flag month day).
Proof. unfold time_stats. prove_silent. Qed.

Lemma silent_station_stats df timing_off_flag :
  silent (station_stats df timing_off_flag).
Proof. unfold station_stats. prove_silent. Qed.

Lemma silent_trip_duration_stats df timing_off_flag :
  silent (trip_duration_stats format_quotient aggregate df timing_off_flag).
Proof. unfold trip_duration_stats. prove_silent. Qed.

Lemma silent_user_stats df timing_off_flag :
  silent (user_stats format_quotient df timing_off_flag).
Proof. unfold user_stats. prove_silent. Qed.


Lemma silent_after_load args city month day df :
  silent (the_rest args city month day df).
Proof.
  unfold after_load. cbv zeta.
  prove_silent;
    first [ apply silent_time_stats | apply silent_station_stats
          | apply silent_trip_duration_stats | apply silent_user_stats ].
Qed.

Lemma after_load_Again args city month day df inputs c loaded rest out :
  the_rest args city month day df inputs = Returned (Again c loaded) rest out ->
  c = city /\ loaded = df.
Proof.
  unfold after_load. cbv zeta. intros H. io_inv H.
  destruct a as [|]; [| apply ret_Returned in H as [H _]; discriminate].
  io_inv H.
  match type of H with
  | (if ?b then _ else _) _ = _ => destruct b
  end; apply ret_Returned in H as [H _]; [discriminate |].
  injection H as -> ->. now split.
Qed.

Lemma main_body_after_filters args previous_city df inputs city month day rest out0 :
  get_filters the_cities (all args) inputs = Returned (city, month, day) rest out0 ->
  city <> "Quit" -> month <> "Quit" -> day <> "Quit" ->
  the_body args previous_city df inputs
  = emit out0 (bind (load_step read_csv args previous_city df city month day)
                    (the_rest args city month day) rest).
Proof.
  intros Hfilters Hc Hm Hd. unfold main_body.
  rewrite (bind_run _ _ _ _ _ _ Hfilters).
  apply String.eqb_neq in Hc, Hm, Hd.
  rewrite (String.eqb_sym "Quit" city), (String.eqb_sym "Quit" month),
    (String.eqb_sym "Quit" day), Hc, Hm, Hd.
  reflexivity.
Qed.

Lemma loads_load_step args previous_city df city month day inputs :
  loads (events_of (load_step read_csv args previous_city df city month day inputs))
  = if city_eq city previous_city && all args then 0%nat else 1%nat.
Proof.
  unfold load_step. destruct (city_eq city previous_city && all args); cbn [negb].
  - now destruct df.
  - apply loads_load_data.
Qed.

Lemma loads_main_body args previous_city df inputs city month day rest out0 :
  get_filters the_cities (all args) inputs = Returned (city, month, day) rest out0 ->
  city <> "Quit" -> month <> "Quit" -> day <> "Quit" ->
  loads (events_of (the_body args previous_city df inputs))
  = if city_eq city previous_city && all args then 0%nat else 1%nat.
Proof.
  intros Hfilters Hc Hm Hd.
  rewrite (main_body_after_filters _ _ _ _ _ _ _ _ _ Hfilters Hc Hm Hd).
  rewrite events_of_emit, loads_app.
  pose proof (silent_get_filters the_cities (all args) inputs) as Hsilent.
  rewrite Hfilters in Hsilent. cbn [events_of] in Hsilent. rewrite Hsilent.
  rewrite loads_bind by (intros a; apply silent_after_load).
  apply loads_load_step.
Qed.

(** C3: in a pass of the session loop that goes beyond the filters,
    load_data is called once, unless the city selected is the city of the
    pass before and the all flag is set, in which case it is not called.
    The first pass calls it, and a pass after a restart runs with the city
    of the pass before as the previous city: it reloads unless the same
    city is selected again and the all flag is set. *)
Theorem reload_rule (args : Args) (previous_city : previous) (df : option DataFrame)
    (inputs rest : list input_event) (city month day : string) (out0 : list event) :
  get_filters the_cities (all args) inputs = Returned (city, month, day) rest out0 ->
  city <> "Quit" -> month <> "Quit" -> day <> "Quit" ->
  loads (events_of (the_body args previous_city df inputs))
  = (if city_eq city previous_city && all args then 0%nat else 1%nat)
  /\ loads (events_of (the_body args (Tuple1 "No previous city") df inputs)) = 1%nat
  /\ (forall c loaded rest' out,
        the_body args previous_city df inputs = Returned (Again c loaded) rest' out ->
        c = city
        /\ (forall fuel,
              the_while (S fuel) args previous_city df inputs
              = emit out (the_while fuel args (Str city) (Some loaded) rest'))
        /\ (forall city2 month2 day2 rest2 out2,
              get_filters the_cities (all args) rest'
              = Returned (city2, month2, day2) rest2 out2 ->
              city2 <> "Quit" -> month2 <> "Quit" -> day2 <> "Quit" ->
              loads (events_of (the_body args (Str city) (Some loaded) rest'))
              = if String.eqb city2 city && all args then 0%nat else 1%nat)).
Proof.
  intros Hfilters Hc Hm Hd.
  split; [now apply (loads_main_body _ _ _ _ _ _ _ _ _ Hfilters) |].
  split; [now rewrite (loads_main_body _ _ _ _ _ _ _ _ _ Hfilters) |].
  intros c loaded rest' out Hpass.
  assert (Hcity : c = city).
  { rewrite (main_body_after_filters _ _ _ _ _ _ _ _ _ Hfilters Hc Hm Hd) in Hpass.
    apply emit_Returned in Hpass as [out1 [Hpass _]].
    apply bind_Returned in Hpass as (frame & r1 & o1 & o2 & _ & Hrest & _).
    now apply after_load_Again in Hrest. }
  subst c. split; [reflexivity | split].
  - intros fuel. cbn [main_while]. now rewrite (bind_run _ _ _ _ _ _ Hpass).
  - intros city2 month2 day2 rest2 out2 Hfilters2 Hc2 Hm2 Hd2.
    now rewrite (loads_main_body _ _ _ _ _ _ _ _ _ Hfilters2).
Qed.

Lemma get_filters_all_flag_returns available_cities inputs city month day rest out :
  get_filters available_cities true inputs = Returned (city, month, day) rest out ->
  city = "Quit" \/ (month = "All" /\ day = "All").
Proof.
  unfold get_filters. intros H. io_inv H.
  match type of H with
  | (if String.eqb ?c _ then _ else _) _ = _ => destruct (String.eqb c "Quit") eqn:E
  end; apply ret_Returned in H as [H _]; injection H as -> -> ->.
  - left. now apply String.eqb_eq.
  - right. now split.
Qed.

(** The frame at hand stays the frame of the previous city over a restart:
    keeping it gives what a call of [load_data] would give. *)
Lemma frame_at_hand_preserved args previous_city df inputs c loaded rest out :
  frame_at_hand read_csv args previous_city df ->
  the_body args previous_city df inputs = Returned (Again c loaded) rest out ->
  frame_at_hand read_csv args (Str c) (Some loaded).
Proof.
  intros Hinv Hpass Hall. unfold main_body in Hpass.
  apply bind_Returned in Hpass as ([[city month] day] & r0 & o0 & o1 & Hfilters & Hpass & _).
  destruct (String.eqb "Quit" city || String.eqb "Quit" month || String.eqb "Quit" day)
    eqn:Equit.
  { io_inv Hpass. destruct Hpass as [Hpass _]. discriminate. }
  apply bind_Returned in Hpass as (frame & r1 & o2 & o3 & Hload & Hrest & _).
  apply after_load_Again in Hrest as [-> ->].
  rewrite Hall in Hfilters.
  apply get_filters_all_flag_returns in Hfilters as [-> | [-> ->]].
  { cbn in Equit. discriminate. }
  unfold load_step in Hload. rewrite Hall, andb_true_r in Hload.
  destruct (city_eq city previous_city) eqn:Esame; cbn [negb] in Hload.
  - destruct previous_city as [t | c']; [discriminate |].
    cbn [city_eq] in Esame. apply String.eqb_eq in Esame. subst c'.
    destruct (Hinv Hall) as (kept & out' & -> & Hkept).
    apply ret_Returned in Hload as [-> _].
    now exists kept, out'.
  - apply load_data_returns in Hload as [_ Hload].
    now exists frame, o2.
Qed.

End SessionProperties.

Lemma reload_rule_witness :
  loads (events_of (sample_main_body true (Str "Chicago") (Some sample_frame)
                      [Line "chi"; Line "r"; Line "q"; Line "n"])) = 0%nat
  /\ loads (events_of (sample_main_body true (Str "Chicago") (Some sample_frame)
                         [Line "w"; Line "r"; Line "q"; Line "n"])) = 1%nat.
Proof.
  split.
  - apply (reload_rule sample_format sample_aggregate sample_read_csv
             sample_files (sample_args true) (Str "Chicago") (Some sample_frame)
             [Line "chi"; Line "r"; Line "q"; Line "n"]
             [Line "r"; Line "q"; Line "n"] "Chicago" "All" "All"
             [Out "You selected:  Chicago"]);
      [reflexivity | discriminate | discriminate | discriminate].
  - reflexivity.
Defined.

(** Scenario D: the same city twice without filters is loaded once; another
    city on the restart is loaded; with filters the same city is loaded
    again. *)
Example scenario_D_same_city :
  loads (events_of (sample_main_loop true
                      [Line "c"; Line "s"; Line "y"; Line "c"; Line "s"; Line "n"]))
  = 1%nat.
Proof. vm_compute. reflexivity. Qed.

Example scenario_D_other_city :
  loads (events_of (sample_main_loop true
                      [Line "c"; Line "s"; Line "y"; Line "w"; Line "s"; Line "n"]))
  = 2%nat.
Proof. vm_compute. reflexivity. Qed.

Example scenario_D_with_filters :
  loads (events_of (sample_main_loop false
                      [Line "c"; Line "all"; Line "all"; Line "s"; Line "y";
                       Line "c"; Line "all"; Line "all"; Line "s"; Line "n"]))
  = 2%nat.
Proof. vm_compute. reflexivity. Qed.

(** The raw view inside a session: after an interrupt at the first page
    boundary the second page is shown, and the session goes on to the
    question of the restart. *)
Example session_interrupt_in_raw_view :
  filter (fun e => match e with OutRows _ => true | _ => false end)
    (events_of (sample_main_loop true
                  [Line "c"; Line "r"; KeyboardInterrupt; Line "n"]))
  = [OutRows (py_slice (df_rows sample_frame) 0 2);
     OutRows (py_slice (df_rows sample_frame) 2 4)].
Proof. vm_compute. reflexivity. Qed.

(** ** The bound on the passes of the session loop *)

Lemma reading_monotone {A : Type} (m : io A) : reading m -> monotone m.
Proof. intros H inputs a rest out Hrun. apply Nat.lt_le_incl. eapply H, Hrun. Qed.

Lemma monotone_bind {A B : Type} (m : io A) (k : A -> io B) :
  monotone m -> (forall a, monotone (k a)) -> monotone (bind m k).
Proof.
  intros Hm Hk inputs b rest out H.
  apply bind_Returned in H as (a & r1 & o1 & o2 & H1 & H2 & _).
  etransitivity; [eapply Hk, H2 | eapply Hm, H1].
Qed.

Lemma reading_bind {A B : Type} (m : io A) (k : A -> io B) :
  reading m -> (forall a, monotone (k a)) -> reading (bind m k).
Proof.
  intros Hm Hk inputs b rest out H.
  apply bind_Returned in H as (a & r1 & o1 & o2 & H1 & H2 & _).
  eapply Nat.le_lt_trans; [eapply Hk, H2 | eapply Hm, H1].
Qed.

Lemma monotone_ret {A : Type} (a : A) : monotone (ret a).
Proof. intros inputs b rest out H. apply ret_Returned in H as (_ & -> & _). lia. Qed.

Lemma monotone_print (text : string) : monotone (print text).
Proof. intros inputs b rest out H. apply print_Returned in H as [-> _]. lia. Qed.

Lemma monotone_raise {A : Type} (e : exc) : monotone (@raise A e).
Proof. intros inputs b rest out H. discriminate. Qed.

Lemma monotone_elapsed (timing_off_flag : bool) : monotone (elapsed timing_off_flag).
Proof. intros inputs b rest out H. injection H as _ <- _. lia. Qed.

Lemma monotone_print_lines (lines : list string) : monotone (print_lines lines).
Proof. intros inputs b rest out H. injection H as _ <- _. lia. Qed.

Lemma reading_prompt : reading prompt.
Proof.
  intros [| e inputs] a rest out H; [discriminate |].
  injection H as _ <- _. cbn. lia.
Qed.

Lemma reading_unique_selection (option_list : list string) :
  reading (unique_selection option_list).
Proof.
  intros inputs. induction inputs as [| e inputs IH]; intros a rest out H;
    [discriminate |].
  cbn [unique_selection] in H.
  destruct (match_start_string option_list (clean_input e)) as [| x [| y more]].
  - apply emit_Returned in H as [out2 [H _]]. apply IH in H. cbn. lia.
  - injection H as _ <- _. cbn. lia.
  - apply emit_Returned in H as [out2 [H _]]. apply IH in H. cbn. lia.
Qed.

Lemma monotone_raw_pages page df n i : monotone (raw_pages page df n i).
Proof.
  intros inputs. revert i. induction inputs as [| e inputs IH]; intros i a rest out H.
  - cbn [raw_pages] in H. destruct (i <? n); [discriminate |].
    injection H as _ <- _. lia.
  - cbn [raw_pages] in H. destruct (i <? n).
    + destruct (String.eqb _ _).
      * injection H as _ <- _. cbn. lia.
      * apply emit_Returned in H as [out2 [H _]]. apply IH in H. cbn. lia.
    + injection H as _ <- _. lia.
Qed.

Lemma monotone_display_most_common description column show_in_rows :
  monotone (display_most_common description column show_in_rows).
Proof.
  unfold display_most_common. destruct show_in_rows;
    repeat first [apply monotone_bind; [| intros ?] | apply monotone_print].
Qed.

Lemma monotone_display_duration format_quotient description total_seconds :
  monotone (display_duration format_quotient description total_seconds).
Proof. apply monotone_print. Qed.

Lemma monotone_load_data read_csv city month day :
  monotone (load_data read_csv city month day).
Proof.
  intros inputs a rest out H. apply load_data_returns in H as [-> _]. lia.
Qed.

Lemma monotone_print_categories results_dict category_header result_header :
  monotone (print_categories results_dict category_header result_header).
Proof.
  unfold print_categories.
  destruct (display_categories _ _ _); [apply monotone_print_lines | apply monotone_raise].
Qed.

Lemma monotone_display_counts_shares format_quotient column title precision :
  monotone (display_counts_shares format_quotient column title precision).
Proof.
  unfold display_counts_shares.
  apply monotone_bind; [| intros ?]; apply monotone_print_categories.
Qed.

Ltac prove_monotone :=
  repeat first
    [ apply monotone_display_counts_shares
    | apply monotone_print_categories
    | apply monotone_bind; [| intros ?]
    | apply reading_monotone, reading_unique_selection
    | apply reading_monotone, reading_prompt
    | apply monotone_raw_pages
    | apply monotone_display_most_common
    | apply monotone_display_duration
    | apply monotone_load_data
    | apply monotone_print_lines
    | apply monotone_elapsed
    | apply monotone_print
    | apply monotone_ret
    | apply monotone_raise
    | match goal with
      | |- monotone (match ?x with _ => _ end) => destruct x
      end ].

Lemma reading_get_filters available_cities all_flag :
  reading (get_filters available_cities all_flag).
Proof.
  unfold get_filters. apply reading_bind; [apply reading_unique_selection |].
  intros city. prove_monotone.
Qed.

Section SessionBound.

Variable format_quotient : Q -> Z -> nat -> string.
Variable aggregate : aggregation -> list Q -> Q.
Variable read_csv : string -> option csv_file.
Variable file_list : list string.

Lemma monotone_after_load args city month day df :
  monotone (after_load format_quotient aggregate
              args city month day df).
Proof.
  unfold after_load, time_stats, station_stats, trip_duration_stats, user_stats.
  cbv zeta. prove_monotone.
Qed.

(** A pass of the session loop reads at least one answer. *)
Lemma reading_main_body args previous_city df :
  reading (main_body format_quotient aggregate read_csv
             file_list args previous_city df).
Proof.
  unfold main_body. apply reading_bind; [apply reading_get_filters |].
  intros [[city month] day]. unfold load_step.
  prove_monotone; apply monotone_after_load.
Qed.

(** The session loop never runs out of passes: with more passes allowed
    than there are answers pending, it does what it does with any larger
    allowance. *)
Lemma main_while_fuel args (fuel1 fuel2 : nat) :
  forall previous_city df inputs,
    (List.length inputs < fuel1)%nat -> (List.length inputs < fuel2)%nat ->
    main_while format_quotient aggregate read_csv file_list
      fuel1 args previous_city df inputs
    = main_while format_quotient aggregate read_csv file_list
        fuel2 args previous_city df inputs.
Proof.
  revert fuel2. induction fuel1 as [| fuel1 IH]; intros fuel2 previous_city df inputs H1 H2;
    [lia |].
  destruct fuel2 as [| fuel2]; [lia |].
  cbn [main_while]. unfold bind.
  destruct (main_body _ _ _ _ args previous_city df inputs) as [c rest out | |] eqn:Hpass;
    [| reflexivity | reflexivity].
  destruct c as [| city loaded]; [reflexivity |].
  apply reading_main_body in Hpass.
  f_equal. apply IH; lia.
Qed.

End SessionBound.

(** * Further properties of the code *)

(** ** The prefix resolver *)

Lemma lower_take (n : nat) (s : string) :
  PyStr.lower (PyStr.take n s) = PyStr.take n (PyStr.lower s).
Proof.
  unfold PyStr.take. revert n. induction s as [| c s IH]; intros [| n]; cbn;
    try reflexivity.
  now rewrite IH.
Qed.

Lemma eqb_take_prefix (c y : string) :
  String.eqb c (PyStr.take (String.length c) y) = String.prefix c y.
Proof.
  destruct (String.prefix c y) eqn:E.
  - apply prefix_correct in E. unfold PyStr.take. rewrite E. apply String.eqb_refl.
  - apply String.eqb_neq. intros H.
    assert (Hp : String.prefix c y = true) by (apply prefix_correct; now symmetry).
    congruence.
Qed.

Lemma match_start_string_as_filter (list_to_search : list string) (substring : string) :
  match_start_string list_to_search substring
  = filter (fun item => String.prefix (clean_substring substring) (PyStr.lower item))
           list_to_search.
Proof.
  unfold match_start_string, clean_substring. apply filter_ext. intros item.
  now rewrite lower_take, eqb_take_prefix.
Qed.

Lemma In_match_start_string (list_to_search : list string) (substring item : string) :
  In item (match_start_string list_to_search substring)
  <-> In item list_to_search
      /\ String.prefix (clean_substring substring) (PyStr.lower item) = true.
Proof. rewrite match_start_string_as_filter, filter_In. reflexivity. Qed.

Lemma match_start_string_clean (list_to_search : list string) (s t : string) :
  clean_substring s = clean_substring t ->
  match_start_string list_to_search s = match_start_string list_to_search t.
Proof.
  intros H. unfold match_start_string. unfold clean_substring in H. now rewrite H.
Qed.

(** X1: match_start_string returns, in the order of the list, exactly the
    options whose lower-case form has the trimmed lower-case input as a
    prefix; each one is an entry of the list in its own spelling. *)
Theorem match_start_string_prefix (list_to_search : list string) (substring : string) :
  match_start_string list_to_search substring
  = filter (fun item => String.prefix (clean_substring substring) (PyStr.lower item))
           list_to_search
  /\ forall item,
       In item (match_start_string list_to_search substring)
       <-> In item list_to_search
           /\ String.prefix (clean_substring substring) (PyStr.lower item) = true.
Proof.
  split; [apply match_start_string_as_filter | intros item; apply In_match_start_string].
Qed.

Lemma is_space_lower_char (c : ascii) :
  PyStr.is_space (PyStr.lower_char c) = PyStr.is_space c.
Proof. destruct c as [[] [] [] [] [] [] [] []]; reflexivity. Qed.

Lemma lower_char_idempotent (c : ascii) :
  PyStr.lower_char (PyStr.lower_char c) = PyStr.lower_char c.
Proof. destruct c as [[] [] [] [] [] [] [] []]; reflexivity. Qed.

Lemma lower_idempotent (s : string) : PyStr.lower (PyStr.lower s) = PyStr.lower s.
Proof.
  induction s as [| c s IH]; cbn; [reflexivity |].
  now rewrite lower_char_idempotent, IH.
Qed.

Lemma lstrip_lower (s : string) :
  PyStr.lstrip (PyStr.lower s) = PyStr.lower (PyStr.lstrip s).
Proof.
  unfold PyStr.lstrip. induction s as [| c s IH]; cbn; [reflexivity |].
  rewrite is_space_lower_char. now destruct (PyStr.is_space c).
Qed.

Lemma rstrip_lower (s : string) :
  PyStr.rstrip (PyStr.lower s) = PyStr.lower (PyStr.rstrip s).
Proof.
  unfold PyStr.rstrip. induction s as [| c s IH]; cbn; [reflexivity |].
  rewrite IH, is_space_lower_char.
  destruct (PyStr.rstrip_by PyStr.is_space s); cbn; [| reflexivity].
  now destruct (PyStr.is_space c).
Qed.

Lemma lstrip_by_spaces_app (p : ascii -> bool) (w s : string) :
  all_chars p w = true -> PyStr.lstrip_by p (w ++ s) = PyStr.lstrip_by p s.
Proof.
  induction w as [| c w IH]; cbn; [reflexivity |].
  intros H. apply andb_true_iff in H as [Hc Hw]. rewrite Hc. now apply IH.
Qed.

Lemma rstrip_by_app_spaces (p : ascii -> bool) (s w : string) :
  all_chars p w = true -> PyStr.rstrip_by p (s ++ w) = PyStr.rstrip_by p s.
Proof.
  intros Hw. induction s as [| c s IH]; cbn [append PyStr.rstrip_by].
  - now apply rstrip_by_all.
  - now rewrite IH.
Qed.

Lemma strip_app_spaces (p : ascii -> bool) (s w : string) :
  all_chars p w = true ->
  PyStr.rstrip_by p (PyStr.lstrip_by p (s ++ w)) = PyStr.rstrip_by p (PyStr.lstrip_by p s).
Proof.
  intros Hw. induction s as [| c s IH]; cbn [append PyStr.lstrip_by].
  - rewrite <- (append_empty_r w), lstrip_by_spaces_app by exact Hw. reflexivity.
  - destruct (p c); [exact IH |].
    change (String c (s ++ w)) with (String c s ++ w).
    now apply rstrip_by_app_spaces.
Qed.

Lemma clean_substring_lower (s : string) :
  clean_substring (PyStr.lower s) = clean_substring s.
Proof.
  unfold clean_substring. now rewrite lstrip_lower, rstrip_lower, lower_idempotent.
Qed.

(** X2: the matches do not depend on the case of the input nor on
    whitespace around it. *)
Theorem match_start_string_normalises (list_to_search : list string)
    (before substring after : string) :
  all_chars PyStr.is_space before = true ->
  all_chars PyStr.is_space after = true ->
  match_start_string list_to_search (before ++ substring ++ after)
  = match_start_string list_to_search substring
  /\ match_start_string list_to_search (PyStr.lower substring)
     = match_start_string list_to_search substring.
Proof.
  intros Hb Ha. split.
  - apply match_start_string_clean.
    unfold clean_substring, PyStr.lstrip, PyStr.rstrip.
    rewrite lstrip_by_spaces_app by exact Hb.
    now rewrite strip_app_spaces by exact Ha.
  - apply match_start_string_clean, clean_substring_lower.
Qed.

Lemma match_start_string_normalises_witness :
  match_start_string ["Chicago"; "Washington"] ("  " ++ "WASH" ++ " ")
  = match_start_string ["Chicago"; "Washington"] "WASH"
  /\ match_start_string ["Chicago"; "Washington"] (PyStr.lower "WASH")
     = match_start_string ["Chicago"; "Washington"] "WASH".
Proof.
  apply (match_start_string_normalises ["Chicago"; "Washington"] "  " "WASH" " ");
    reflexivity.
Defined.

Lemma prefix_refl (s : string) : String.prefix s s = true.
Proof.
  induction s as [| c s IH]; cbn; [reflexivity |].
  destruct (ascii_dec c c) as [_ | Hne]; [exact IH | now elim Hne].
Qed.

Lemma prefix_rstrip_by (p : ascii -> bool) (s : string) :
  String.prefix (PyStr.rstrip_by p s) s = true.
Proof.
  induction s as [| c s IH]; cbn [PyStr.rstrip_by]; [reflexivity |].
  destruct (PyStr.rstrip_by p s) as [| d r] eqn:E.
  - destruct (p c); cbn; [reflexivity |].
    destruct (ascii_dec c c) as [_ | Hne]; [now destruct s | now elim Hne].
  - cbn [String.prefix]. destruct (ascii_dec c c) as [_ | Hne]; [exact IH | now elim Hne].
Qed.

Lemma prefix_lower (a b : string) :
  String.prefix a b = true -> String.prefix (PyStr.lower a) (PyStr.lower b) = true.
Proof.
  revert b. induction a as [| c a IH]; intros b H; [now destruct b |].
  destruct b as [| d b]; [discriminate |].
  cbn in H. cbn [PyStr.lower String.prefix].
  destruct (ascii_dec c d) as [-> | Hne]; [| discriminate].
  destruct (ascii_dec (PyStr.lower_char d) (PyStr.lower_char d)) as [_ | Hne];
    [now apply IH | now elim Hne].
Qed.

(** X3: an option that does not start with whitespace is always among the
    matches of its own name typed in full, in any case. *)
Theorem full_name_matches (list_to_search : list string) (item : string) :
  In item list_to_search ->
  PyStr.lstrip item = item ->
  In item (match_start_string list_to_search item)
  /\ In item (match_start_string list_to_search (PyStr.lower item)).
Proof.
  intros Hin Hstart.
  assert (H : In item (match_start_string list_to_search item)).
  { apply In_match_start_string. split; [exact Hin |].
    unfold clean_substring. rewrite Hstart. apply prefix_lower.
    apply prefix_rstrip_by. }
  split; [exact H |].
  now rewrite (match_start_string_clean _ _ _ (clean_substring_lower item)).
Qed.

Lemma full_name_matches_witness :
  In "New York City" (match_start_string ["Chicago"; "New York City"] "New York City")
  /\ In "New York City"
       (match_start_string ["Chicago"; "New York City"] (PyStr.lower "New York City")).
Proof.
  apply (full_name_matches ["Chicago"; "New York City"] "New York City").
  - right. left. reflexivity.
  - reflexivity.
Defined.

(** ** The selection loop *)

Lemma unique_selection_skips option_list e rest :
  resolves option_list e = false ->
  exists report,
    unique_selection option_list (e :: rest)
    = emit report (unique_selection option_list rest).
Proof.
  unfold resolves. intros H. cbn [unique_selection].
  destruct (match_start_string option_list (clean_input e)) as [| x [| y more]];
    [| discriminate |]; eexists; reflexivity.
Qed.

Lemma unique_selection_starved option_list inputs :
  forallb (fun e => negb (resolves option_list e)) inputs = true ->
  exists out, unique_selection option_list inputs = Blocked out.
Proof.
  induction inputs as [| e inputs IH]; intros H; [now exists [] |].
  cbn [forallb] in H. apply andb_true_iff in H as [He Hrest].
  apply negb_true_iff in He.
  destruct (unique_selection_skips option_list e inputs He) as [report ->].
  destruct (IH Hrest) as [out ->]. now eexists.
Qed.

Lemma unique_selection_reaches option_list before e rest x :
  forallb (fun e => negb (resolves option_list e)) before = true ->
  match_start_string option_list (clean_input e) = [x] ->
  exists out,
    unique_selection option_list (before ++ e :: rest)
    = Returned (matched_to_string [x]) rest out.
Proof.
  intros Hbefore Hx. induction before as [| b before IH].
  - exists []. now apply unique_selection_one_match.
  - cbn [forallb] in Hbefore. apply andb_true_iff in Hbefore as [Hb Hbefore].
    apply negb_true_iff in Hb. cbn [app].
    destruct (unique_selection_skips option_list b (before ++ e :: rest) Hb)
      as [report ->].
    destruct (IH Hbefore) as [out ->]. now eexists.
Qed.

Lemma unique_selection_returned option_list inputs a rest out :
  unique_selection option_list inputs = Returned a rest out ->
  exists before e x,
    inputs = (before ++ e :: rest)%list
    /\ forallb (fun e => negb (resolves option_list e)) before = true
    /\ match_start_string option_list (clean_input e) = [x]
    /\ a = matched_to_string [x].
Proof.
  revert out. induction inputs as [| e inputs IH]; intros out H; [discriminate |].
  cbn [unique_selection] in H.
  destruct (match_start_string option_list (clean_input e)) as [| x [| y more]] eqn:E.
  - apply emit_Returned in H as [out2 [H _]].
    destruct (IH _ H) as (before & e' & x & -> & Hbefore & Hx & Ha).
    exists (e :: before), e', x. cbn [forallb]. unfold resolves at 1. rewrite E.
    now repeat split.
  - injection H as <- <- _. exists [], e, x. now repeat split.
  - apply emit_Returned in H as [out2 [H _]].
    destruct (IH _ H) as (before & e' & x' & -> & Hbefore & Hx & Ha).
    exists (e :: before), e', x'. cbn [forallb]. unfold resolves at 1. rewrite E.
    now repeat split.
Qed.

(** X4: unique_selection returns at the first answer that exactly one
    option matches, with the conversion of that option, and leaves the
    answers after it; answers with no match or several matches are skipped,
    and while no answer resolves it keeps asking. *)
Theorem unique_selection_first_resolving (option_list : list string)
    (inputs : list input_event) :
  (forallb (fun e => negb (resolves option_list e)) inputs = true ->
   exists out, unique_selection option_list inputs = Blocked out)
  /\ (forall e rest x,
        forallb (fun e => negb (resolves option_list e)) inputs = true ->
        match_start_string option_list (clean_input e) = [x] ->
        exists out,
          unique_selection option_list (inputs ++ e :: rest)
          = Returned (matched_to_string [x]) rest out)
  /\ (forall a rest out,
        unique_selection option_list inputs = Returned a rest out ->
        exists before e x,
          inputs = (before ++ e :: rest)%list
          /\ forallb (fun e => negb (resolves option_list e)) before = true
          /\ match_start_string option_list (clean_input e) = [x]
          /\ a = matched_to_string [x]).
Proof.
  split; [apply unique_selection_starved | split].
  - intros e rest x. apply unique_selection_reaches.
  - apply unique_selection_returned.
Qed.

Lemma unique_selection_first_resolving_witness :
  exists out,
    unique_selection ["March"; "May"; "Quit"]
      ([Line "x"; Line "ma"] ++ Line "mar" :: [Line "later"])
    = Returned (matched_to_string ["March"]) [Line "later"] out.
Proof.
  apply (proj1 (proj2 (unique_selection_first_resolving ["March"; "May"; "Quit"]
                         [Line "x"; Line "ma"]))); reflexivity.
Defined.

Lemma forallb_In_plain (option_list : list string) (x : string) :
  forallb plain option_list = true -> In x option_list -> plain x = true.
Proof. intros H Hin. rewrite forallb_forall in H. now apply H. Qed.

Lemma unique_selection_in_options option_list inputs a rest out :
  forallb plain option_list = true ->
  unique_selection option_list inputs = Returned a rest out ->
  In a option_list.
Proof.
  intros Hplain H.
  apply unique_selection_returned in H as (before & e & x & _ & _ & Hx & ->).
  assert (Hin : In x option_list).
  { apply (match_start_string_incl option_list (clean_input e)). rewrite Hx. now left. }
  now rewrite (matched_to_string_plain x (forallb_In_plain _ _ Hplain Hin)).
Qed.

(** X5: over a list of plain options (printable characters, no quote or
    backslash, no bracket at either end), whatever unique_selection returns
    is an option of the list, and it is matched by the answer before the
    remaining input. *)
Theorem unique_selection_returns_option (option_list : list string)
    (inputs rest : list input_event) (a : string) (out : list event) :
  forallb plain option_list = true ->
  unique_selection option_list inputs = Returned a rest out ->
  In a option_list
  /\ exists before e,
       inputs = (before ++ e :: rest)%list
       /\ match_start_string option_list (clean_input e) = [a].
Proof.
  intros Hplain H. split; [now apply (unique_selection_in_options _ _ _ _ _ Hplain H) |].
  apply unique_selection_returned in H as (before & e & x & -> & _ & Hx & ->).
  exists before, e. split; [reflexivity |].
  assert (Hin : In x option_list).
  { apply (match_start_string_incl option_list (clean_input e)). rewrite Hx. now left. }
  now rewrite (matched_to_string_plain x (forallb_In_plain _ _ Hplain Hin)).
Qed.

Lemma unique_selection_returns_option_witness :
  In "Washington" ["Chicago"; "Washington"; "Quit"]
  /\ exists before e,
       [Line "x"; Line "w"; Line "y"] = (before ++ e :: [Line "y"])%list
       /\ match_start_string ["Chicago"; "Washington"; "Quit"] (clean_input e)
          = ["Washington"].
Proof.
  apply (unique_selection_returns_option ["Chicago"; "Washington"; "Quit"]
           [Line "x"; Line "w"; Line "y"] [Line "y"] "Washington"
           (no_match_report "x" ["Chicago"; "Washington"; "Quit"]));
    reflexivity.
Defined.

(** ** The vocabulary of the filters *)

(** X6: when the cities offered are plain, get_filters returns a city that
    was offered or Quit, a month among January to June, All and Quit, and
    a day among the seven week days, All and Quit. *)
Theorem get_filters_vocabulary (available_cities : list string) (all_flag : bool)
    (inputs rest : list input_event) (city month day : string) (out : list event) :
  forallb plain available_cities = true ->
  get_filters available_cities all_flag inputs = Returned (city, month, day) rest out ->
  In city (available_cities ++ ["Quit"])
  /\ In month ["January"; "February"; "March"; "April"; "May"; "June"; "All"; "Quit"]
  /\ In day (WEEKDAYS ++ ["All"; "Quit"]).
Proof.
  intros Hplain H. unfold get_filters in H.
  apply bind_Returned in H as (c & r1 & o1 & o2 & Hcity & H & _).
  apply unique_selection_in_options in Hcity;
    [| rewrite forallb_app, Hplain; reflexivity].
  apply bind_Returned in H as (u & r2 & o3 & o4 & _ & H & _).
  destruct (String.eqb c "Quit").
  { apply ret_Returned in H as [H _]. injection H as -> -> ->.
    split; [exact Hcity | split; cbn; tauto]. }
  destruct all_flag.
  { apply ret_Returned in H as [H _]. injection H as -> -> ->.
    split; [exact Hcity | split; cbn; tauto]. }
  apply bind_Returned in H as (m & r3 & o5 & o6 & Hmonth & H & _).
  apply unique_selection_in_options in Hmonth; [| reflexivity].
  apply bind_Returned in H as (u' & r4 & o7 & o8 & _ & H & _).
  destruct (String.eqb m "Quit").
  { apply ret_Returned in H as [H _]. injection H as -> -> ->.
    split; [exact Hcity | split; [exact Hmonth | cbn; tauto]]. }
  apply bind_Returned in H as (d & r5 & o9 & o10 & Hday & H & _).
  apply unique_selection_in_options in Hday; [| reflexivity].
  apply bind_Returned in H as (u'' & r6 & o11 & o12 & _ & H & _).
  apply ret_Returned in H as [H _]. injection H as -> -> ->.
  split; [exact Hcity | split; [exact Hmonth | exact Hday]].
Qed.

Lemma get_filters_vocabulary_witness :
  In "Washington" (["Chicago"; "Washington"] ++ ["Quit"])
  /\ In "March" ["January"; "February"; "March"; "April"; "May"; "June"; "All"; "Quit"]
  /\ In "All" (WEEKDAYS ++ ["All"; "Quit"]).
Proof.
  apply (get_filters_vocabulary ["Chicago"; "Washington"] false
           [Line "w"; Line "mar"; Line "all"] [] "Washington" "March" "All"
           [Out "You selected:  Washington"; Out "You selected:  March";
            Out "You selected:  All"]);
    reflexivity.
Defined.

(** ** Interrupts and one-letter answers *)

Lemma match_start_string_app (l1 l2 : list string) (s : string) :
  match_start_string (l1 ++ l2) s
  = (match_start_string l1 s ++ match_start_string l2 s)%list.
Proof. unfold match_start_string. apply filter_app. Qed.

Lemma file_dict_incl (file_list : list string) (entry : string * string) :
  In entry (file_dict file_list) -> In entry CITY_DATA.
Proof. unfold file_dict. intros H. now apply filter_In in H. Qed.

Lemma no_city_matches_quit (file_list : list string) :
  match_start_string (map fst (file_dict file_list)) "Quit" = [].
Proof.
  unfold match_start_string.
  assert (Hnone : forall c, In c (map fst (file_dict file_list)) ->
             String.eqb (clean_substring "Quit")
               (PyStr.lower (PyStr.take (String.length (clean_substring "Quit")) c))
             = false).
  { intros c Hc. apply in_map_iff in Hc as [[c' f] [<- Hc]].
    apply file_dict_incl in Hc.
    cbn in Hc. destruct Hc as [Hc | [Hc | [Hc | [Hc | [Hc | []]]]]];
      injection Hc as <- <-; reflexivity. }
  induction (map fst (file_dict file_list)) as [| c l IH]; [reflexivity |].
  cbn [filter]. fold (clean_substring "Quit").
  rewrite (Hnone c (or_introl eq_refl)). apply IH.
  intros c' Hc'. apply Hnone. now right.
Qed.

Lemma city_prompt_interrupt (file_list : list string) (rest : list input_event) :
  unique_selection (map fst (file_dict file_list) ++ ["Quit"]) (KeyboardInterrupt :: rest)
  = Returned "Quit" rest [].
Proof.
  apply (unique_selection_one_match _ KeyboardInterrupt rest "Quit").
  cbn [clean_input]. rewrite match_start_string_app, no_city_matches_quit.
  reflexivity.
Qed.

(** X7: an interrupt at any selection prompt of the session is taken as
    the option Quit at once, without another question: at the prompt of the
    city whatever files are present, and at the prompts of the month, the
    day and the view. *)
Theorem interrupt_selects_quit (file_list : list string) (rest : list input_event) :
  unique_selection (map fst (file_dict file_list) ++ ["Quit"]) (KeyboardInterrupt :: rest)
  = Returned "Quit" rest []
  /\ unique_selection (py_slice MONTHS 1 13 ++ ["All"; "Quit"]) (KeyboardInterrupt :: rest)
     = Returned "Quit" rest []
  /\ unique_selection (WEEKDAYS ++ ["All"; "Quit"]) (KeyboardInterrupt :: rest)
     = Returned "Quit" rest []
  /\ unique_selection ["Raw Data"; "Statistics"; "Quit"] (KeyboardInterrupt :: rest)
     = Returned "Quit" rest [].
Proof.
  split; [apply city_prompt_interrupt | repeat split; reflexivity].
Qed.

Lemma welcome_run (args : Args) (inputs : list input_event) :
  welcome args inputs = Returned tt inputs (events_of (welcome args [])).
Proof. unfold welcome. destruct (timeoff args), (all args); reflexivity. Qed.

(** X8: when a supported file is present, an interrupt at the first prompt
    ends the session: the welcome block, the selection of Quit, the
    acknowledgement and the sign-off are printed, nothing is loaded and the
    remaining input is not read. *)
Theorem session_ends_on_first_interrupt
    (format_quotient : Q -> Z -> nat -> string)
    (aggregate : aggregation -> list Q -> Q)
    (read_csv : string -> option csv_file) (file_list : list string)
    (args : Args) (rest : list input_event) :
  file_dict file_list <> [] ->
  main_loop format_quotient aggregate read_csv file_list args
    (KeyboardInterrupt :: rest)
  = Returned tt rest
      (events_of (welcome args [])
       ++ [Out "You selected:  Quit";
           Out "You requested to quit. The program has ended.";
           Out SIGNOFF]).
Proof.
  intros Hfiles.
  assert (Hfilters : get_filters (map fst (file_dict file_list)) (all args)
                       (KeyboardInterrupt :: rest)
                     = Returned ("Quit", "Quit", "Quit") rest
                         [Out "You selected:  Quit"]).
  { unfold get_filters.
    rewrite (bind_run _ _ _ _ _ _ (city_prompt_interrupt file_list rest)).
    reflexivity. }
  assert (Hbody : main_body format_quotient aggregate read_csv
                    file_list args (Tuple1 "No previous city") None
                    (KeyboardInterrupt :: rest)
                  = Returned Break rest
                      [Out "You selected:  Quit";
                       Out "You requested to quit. The program has ended."]).
  { unfold main_body. rewrite (bind_run _ _ _ _ _ _ Hfilters). reflexivity. }
  assert (Hwhile : forall fuel,
             main_while format_quotient aggregate read_csv
               file_list (S fuel) args (Tuple1 "No previous city") None
               (KeyboardInterrupt :: rest)
             = Returned tt rest
                 [Out "You selected:  Quit";
                  Out "You requested to quit. The program has ended."]).
  { intros fuel. cbn [main_while]. rewrite (bind_run _ _ _ _ _ _ Hbody). reflexivity. }
  unfold main_loop.
  rewrite (bind_run _ _ _ _ _ _ (welcome_run args _)).
  destruct (file_dict file_list) as [| entry entries] eqn:Edict; [contradiction |].
  cbn [List.length Nat.eqb negb].
  rewrite (bind_run _ _ _ _ _ _ (Hwhile _)).
  reflexivity.
Qed.

Lemma session_ends_on_first_interrupt_witness :
  sample_main_loop true [KeyboardInterrupt; Line "c"]
  = Returned tt [Line "c"]
      (events_of (welcome (sample_args true) [])
       ++ [Out "You selected:  Quit";
           Out "You requested to quit. The program has ended.";
           Out SIGNOFF]).
Proof.
  apply (session_ends_on_first_interrupt sample_format sample_aggregate
           sample_read_csv sample_files (sample_args true) [Line "c"]).
  discriminate.
Defined.

Lemma lower_char_is (c : ascii) (l : ascii) :
  PyStr.lower_char c = l ->
  (97 <=? PyStr.code l)%N && (PyStr.code l <=? 122)%N = true ->
  c = l \/ c = ascii_of_N (PyStr.code l - 32).
Proof.
  destruct c as [[] [] [] [] [] [] [] []]; intros <-; cbn; intros H;
    first [discriminate H | now left | now right].
Qed.

Lemma lower_one_letter (s : string) (l : ascii) :
  (97 <=? PyStr.code l)%N && (PyStr.code l <=? 122)%N = true ->
  PyStr.lower s = String l EmptyString ->
  s = String l EmptyString \/ s = String (ascii_of_N (PyStr.code l - 32)) EmptyString.
Proof.
  intros Hl H. destruct s as [| c [| d s]]; try discriminate.
  cbn in H. injection H as H.
  destruct (lower_char_is c l H Hl) as [-> | ->]; [now left | now right].
Qed.

(** X9: the raw view is left for the answers q and Q alone, and the
    session restarts for the answers y and Y alone; nothing is trimmed, so
    an interrupt, the word quit or a padded letter count as any other
    answer. *)
Theorem one_letter_answers (e : input_event) (restart : string) :
  (answers_q e = true <-> e = Line "q" \/ e = Line "Q")
  /\ (String.eqb (PyStr.lower restart) "y" = true <-> restart = "y" \/ restart = "Y")
  /\ answers_q KeyboardInterrupt = false
  /\ answers_q (Line "quit") = false
  /\ answers_q (Line " q") = false.
Proof.
  split; [| split; [| repeat split; reflexivity]].
  - unfold answers_q. split.
    + intros H. apply String.eqb_eq in H. destruct e as [text |]; [| discriminate].
      cbn [clean_input] in H.
      destruct (lower_one_letter text "q" eq_refl H) as [-> | ->]; [now left | now right].
    + intros [-> | ->]; reflexivity.
  - split.
    + intros H. apply String.eqb_eq in H.
      destruct (lower_one_letter restart "y" eq_refl H) as [-> | ->];
        [now left | now right].
    + intros [-> | ->]; reflexivity.
Qed.

(** ** The files offered and the loader *)

Lemma dict_get_CITY_DATA (city file : string) :
  In (city, file) CITY_DATA <-> dict_get CITY_DATA city = Some file.
Proof.
  split.
  - cbn. intros [H | [H | [H | [H | [H | []]]]]]; injection H as <- <-; reflexivity.
  - cbn [CITY_DATA dict_get].
    repeat match goal with
      | |- (if String.eqb ?a ?b then _ else _) = _ -> _ =>
          destruct (String.eqb_spec a b) as [-> | _];
          [intros H; injection H as <-; cbn; tauto |]
      end.
    discriminate.
Qed.

Lemma existsb_eqb_In (x : string) (l : list string) :
  existsb (String.eqb x) l = true <-> In x l.
Proof.
  rewrite existsb_exists. split.
  - intros [y [Hy E]]. apply String.eqb_eq in E. now subst.
  - intros H. exists x. split; [exact H | apply String.eqb_refl].
Qed.

Lemma offered_iff (file_list : list string) (city : string) :
  In city (map fst (file_dict file_list))
  <-> exists file, dict_get CITY_DATA city = Some file /\ In file file_list.
Proof.
  unfold file_dict. rewrite in_map_iff. split.
  - intros [[c f] [Hc H]]. cbn in Hc. subst c.
    apply filter_In in H as [Hin Hfile].
    exists f. split; [now apply dict_get_CITY_DATA | now apply existsb_eqb_In].
  - intros [file [Hget Hfile]]. exists (city, file). split; [reflexivity |].
    apply filter_In. split; [now apply dict_get_CITY_DATA | now apply existsb_eqb_In].
Qed.

Lemma offered_plain (file_list : list string) :
  forallb plain (map fst (file_dict file_list)) = true.
Proof.
  apply forallb_forall. intros c Hc.
  apply in_map_iff in Hc as [[c' f] [<- Hc]]. apply file_dict_incl in Hc.
  cbn in Hc. destruct Hc as [Hc | [Hc | [Hc | [Hc | [Hc | []]]]]];
    injection Hc as <- <-; reflexivity.
Qed.

Lemma get_filters_city_in available_cities all_flag inputs city month day rest out :
  forallb plain available_cities = true ->
  get_filters available_cities all_flag inputs = Returned (city, month, day) rest out ->
  In city (available_cities ++ ["Quit"]).
Proof.
  intros Hplain H. unfold get_filters in H.
  apply bind_Returned in H as (c & r1 & o1 & o2 & Hcity & H & _).
  apply unique_selection_in_options in Hcity;
    [| rewrite forallb_app, Hplain; reflexivity].
  apply bind_Returned in H as (u & r2 & o3 & o4 & _ & H & _).
  assert (Hc : c = city); [| now subst c].
  destruct (String.eqb c "Quit");
    [apply ret_Returned in H as [H _]; now injection H |].
  destruct all_flag; [apply ret_Returned in H as [H _]; now injection H |].
  apply bind_Returned in H as (m & r3 & o5 & o6 & _ & H & _).
  apply bind_Returned in H as (u' & r4 & o7 & o8 & _ & H & _).
  destruct (String.eqb m "Quit");
    [apply ret_Returned in H as [H _]; now injection H |].
  apply bind_Returned in H as (d & r5 & o9 & o10 & _ & H & _).
  apply bind_Returned in H as (u'' & r6 & o11 & o12 & _ & H & _).
  apply ret_Returned in H as [H _]. now injection H.
Qed.

(** X10: a city is offered exactly when it is a key of CITY_DATA whose
    file is among the files found; the order of CITY_DATA is kept and no
    city is offered twice. *)
Theorem offered_cities (file_list : list string) (city : string) :
  (In city (map fst (file_dict file_list))
   <-> exists file, dict_get CITY_DATA city = Some file /\ In file file_list)
  /\ NoDup (map fst (file_dict file_list))
  /\ exists keep, map fst (file_dict file_list) = filter keep (map fst CITY_DATA).
Proof.
  split; [apply offered_iff | split].
  - unfold file_dict.
    assert (Hnodup : NoDup (map fst CITY_DATA)).
    { cbn. repeat constructor; cbn; intuition discriminate. }
    revert Hnodup. generalize CITY_DATA as d.
    induction d as [| [c f] d IH]; intros Hd; [constructor |].
    cbn [map] in Hd. inversion Hd as [| ? ? Hnotin Hd']; subst.
    cbn [filter]. destruct (existsb (String.eqb f) file_list); [| now apply IH].
    cbn [map fst]. constructor; [| now apply IH].
    intros Hin. apply Hnotin. apply in_map_iff in Hin as [[c' f'] [Hc Hin]].
    apply filter_In in Hin as [Hin _]. apply in_map_iff. now exists (c', f').
  - exists (fun c => match dict_get CITY_DATA c with
                     | Some f => existsb (String.eqb f) file_list
                     | None => false
                     end).
    unfold file_dict. cbn.
    repeat match goal with
      | |- context [existsb ?p file_list] => destruct (existsb p file_list)
      end; reflexivity.
Qed.

(** X11: a city that get_filters returns from the cities offered, other
    than Quit, has a file in CITY_DATA that is among the files found: the
    session never asks load_data for an unknown city. *)
Theorem selected_city_has_file (file_list : list string) (all_flag : bool)
    (inputs rest : list input_event) (city month day : string) (out : list event) :
  get_filters (map fst (file_dict file_list)) all_flag inputs
  = Returned (city, month, day) rest out ->
  city <> "Quit" ->
  exists file, dict_get CITY_DATA city = Some file /\ In file file_list.
Proof.
  intros H Hq.
  apply get_filters_city_in in H; [| apply offered_plain].
  apply in_app_or in H as [H | [H | []]]; [now apply offered_iff | congruence].
Qed.

Lemma selected_city_has_file_witness :
  exists file, dict_get CITY_DATA "Washington" = Some file /\ In file sample_files.
Proof.
  apply (selected_city_has_file sample_files true [Line "w"] [] "Washington" "All" "All"
           [Out "You selected:  Washington"]).
  - reflexivity.
  - discriminate.
Defined.

Lemma month_names_Forall2 (months : list Z) (names : list string) :
  month_names months = Some names ->
  Forall2 (fun m name => py_index MONTHS m = Some name) months names.
Proof.
  revert names. induction months as [| m months IH]; intros names H.
  - injection H as <-. constructor.
  - cbn [month_names] in H.
    destruct (py_index MONTHS m) as [name |] eqn:Em; [| discriminate].
    destruct (month_names months) as [names' |]; [| discriminate].
    injection H as <-. constructor; [exact Em | now apply IH].
Qed.

Lemma month_names_high (months : list Z) :
  Exists (fun m => 7 <= m) months -> month_names months = None.
Proof.
  induction 1 as [m months Hm | m months _ IH]; cbn [month_names].
  - now rewrite py_index_MONTHS_high.
  - rewrite IH. now destruct (py_index MONTHS m).
Qed.

Lemma filter_twice {A : Type} (f g : A -> bool) (l : list A) :
  filter g (filter f l) = filter (fun x => f x && g x) l.
Proof.
  induction l as [| x l IH]; [reflexivity |].
  cbn [filter]. destruct (f x); cbn [andb filter]; now rewrite IH.
Qed.

Lemma filter_unless {A : Type} (skip : bool) (f : A -> bool) (l : list A) :
  (if negb skip then filter f l else l) = filter (fun x => skip || f x) l.
Proof.
  destruct skip; cbn [negb orb].
  - symmetry. apply forallb_filter_id. now apply forallb_forall.
  - reflexivity.
Qed.

(** The rows before the filters, for a file and the names of its months. *)
Lemma load_data_inv read_csv city month day inputs frame rest out :
  load_data read_csv city month day inputs = Returned frame rest out ->
  exists file f names,
    dict_get CITY_DATA city = Some file
    /\ read_csv file = Some f
    /\ month_names (map (fun t => ts_month (Start_Time t)) (csv_rows f)) = Some names
    /\ df_rows frame
       = filter (row_matches month day)
           (map (fun '(t, name) => derive_row t name) (combine (csv_rows f) names))
    /\ df_has_gender frame = csv_has_gender f
    /\ df_has_birth_year frame = csv_has_birth_year f.
Proof.
  unfold load_data.
  destruct (dict_get CITY_DATA city) as [file |]; [| discriminate].
  destruct (read_csv file) as [f |] eqn:Eread; [| discriminate].
  destruct (month_names _) as [names |] eqn:Enames; [| discriminate].
  cbn [emit]. intros H. injection H as <- _ _.
  exists file, f, names.
  split; [reflexivity | split; [exact Eread | split; [exact Enames |]]].
  cbn [df_rows df_has_gender df_has_birth_year].
  split; [| split; reflexivity].
  rewrite !filter_unless, filter_twice. reflexivity.
Qed.

Lemma combine_derived (rows : list trip) (names : list string) (t : trip) (name : string) :
  Forall2 (fun m n => py_index MONTHS m = Some n)
    (map (fun t => ts_month (Start_Time t)) rows) names ->
  In (t, name) (combine rows names) ->
  py_index MONTHS (ts_month (Start_Time t)) = Some name.
Proof.
  revert names. induction rows as [| t0 rows IH]; intros names HF Hin; [contradiction |].
  cbn [map] in HF. inversion HF as [| m n ms ns Hhead Htail]; subst.
  cbn [combine] in Hin. destruct Hin as [Hin | Hin].
  - now injection Hin as <- <-.
  - now apply (IH ns).
Qed.

Lemma map_row_trip_combine (rows : list trip) (names : list string) :
  List.length names = List.length rows ->
  map row_trip (map (fun '(t, name) => derive_row t name) (combine rows names)) = rows.
Proof.
  revert names. induction rows as [| t rows IH]; intros [| n names] H;
    try discriminate; [reflexivity |].
  cbn [combine map derive_row row_trip]. f_equal. apply IH. now injection H.
Qed.

(** X12: every row of the frame load_data returns passes the filters asked
    for, and its derived columns agree with the trip it comes from: the
    month name is the entry of MONTHS at the month number, the day name and
    the hour are those of the start time, and the path joins the two
    stations with " => ". *)
Theorem load_data_rows_sound (read_csv : string -> option csv_file) (city month day : string)
    (inputs rest : list input_event) (frame : DataFrame) (out : list event) (r : row) :
  load_data read_csv city month day inputs = Returned frame rest out ->
  In r (df_rows frame) ->
  (month = "All" \/ Month r = month)
  /\ (day = "All" \/ Day_of_Week r = day)
  /\ py_index MONTHS (ts_month (Start_Time (row_trip r))) = Some (Month r)
  /\ Day_of_Week r = ts_weekday_name (Start_Time (row_trip r))
  /\ Hour r = ts_hour (Start_Time (row_trip r))
  /\ Path r = Start_Station (row_trip r) ++ " => " ++ End_Station (row_trip r).
Proof.
  intros H Hr.
  apply load_data_inv in H as (file & f & names & _ & _ & Hnames & Hrows & _).
  rewrite Hrows in Hr. apply filter_In in Hr as [Hr Hmatch].
  unfold row_matches in Hmatch. apply andb_true_iff in Hmatch as [Hm Hd].
  apply orb_true_iff in Hm, Hd. rewrite !String.eqb_eq in Hm, Hd.
  split; [exact Hm | split; [exact Hd |]].
  apply in_map_iff in Hr as [[t name] [<- Hin]].
  apply month_names_Forall2 in Hnames.
  split; [exact (combine_derived _ _ _ _ Hnames Hin) | repeat split].
Qed.

Lemma load_data_rows_sound_witness :
  ("January" = "All" \/ Month (derive_row (sample_trip 1 "A" "C") "January") = "January")
  /\ ("All" = "All" \/ Day_of_Week (derive_row (sample_trip 1 "A" "C") "January") = "All")
  /\ py_index MONTHS
       (ts_month (Start_Time (row_trip (derive_row (sample_trip 1 "A" "C") "January"))))
     = Some (Month (derive_row (sample_trip 1 "A" "C") "January"))
  /\ Day_of_Week (derive_row (sample_trip 1 "A" "C") "January")
     = ts_weekday_name (Start_Time (row_trip (derive_row (sample_trip 1 "A" "C") "January")))
  /\ Hour (derive_row (sample_trip 1 "A" "C") "January")
     = ts_hour (Start_Time (row_trip (derive_row (sample_trip 1 "A" "C") "January")))
  /\ Path (derive_row (sample_trip 1 "A" "C") "January")
     = Start_Station (row_trip (derive_row (sample_trip 1 "A" "C") "January"))
       ++ " => " ++ End_Station (row_trip (derive_row (sample_trip 1 "A" "C") "January")).
Proof.
  apply (load_data_rows_sound sample_read_csv "Chicago" "January" "All" [] []
           {| df_rows := [derive_row (sample_trip 1 "A" "B") "January";
                          derive_row (sample_trip 1 "A" "C") "January"];
              df_has_gender := false; df_has_birth_year := false |}
           [CallLoadData "Chicago" "January" "All";
            Out (nl ++ "Loading data for city = Chicago, month = January, day = All...")]).
  - reflexivity.
  - right. left. reflexivity.
Defined.

(** X13: the filters only select.  When load_data returns a frame, the
    load of the same city without filters returns one too; the filtered
    frame holds exactly its rows that pass the filters, in the same order,
    and the unfiltered frame holds the trips of the file, all of them and
    in the order of the file. *)
Theorem load_data_filters_select (read_csv : string -> option csv_file)
    (city month day : string) (inputs rest : list input_event)
    (frame : DataFrame) (out : list event) :
  load_data read_csv city month day inputs = Returned frame rest out ->
  rest = inputs
  /\ exists frame0 out0 file f,
       load_data read_csv city "All" "All" inputs = Returned frame0 inputs out0
       /\ df_rows frame = filter (row_matches month day) (df_rows frame0)
       /\ dict_get CITY_DATA city = Some file
       /\ read_csv file = Some f
       /\ map row_trip (df_rows frame0) = csv_rows f
       /\ df_has_gender frame = csv_has_gender f
       /\ df_has_birth_year frame = csv_has_birth_year f.
Proof.
  intros H. split; [now apply load_data_returns in H |].
  apply load_data_inv in H as (file & f & names & Hfile & Hread & Hnames & Hrows & Hg & Hb).
  eexists _, _, file, f. split.
  - unfold load_data. rewrite Hfile, Hread, Hnames. reflexivity.
  - cbn [df_rows negb String.eqb Ascii.eqb Bool.eqb]. split; [exact Hrows |].
    split; [exact Hfile | split; [exact Hread | split; [| split; assumption]]].
    apply map_row_trip_combine.
    apply month_names_Forall2, Forall2_length in Hnames.
    now rewrite length_map in Hnames.
Qed.

Lemma load_data_filters_select_witness :
  exists frame0 out0 file f,
    load_data sample_read_csv "Chicago" "All" "All" [] = Returned frame0 [] out0
    /\ [derive_row (sample_trip 2 "B" "C") "February"]
       = filter (row_matches "February" "Monday") (df_rows frame0)
    /\ dict_get CITY_DATA "Chicago" = Some file
    /\ sample_read_csv file = Some f
    /\ map row_trip (df_rows frame0) = csv_rows f
    /\ false = csv_has_gender f
    /\ false = csv_has_birth_year f.
Proof.
  apply (load_data_filters_select sample_read_csv "Chicago" "February" "Monday" [] []
           {| df_rows := [derive_row (sample_trip 2 "B" "C") "February"];
              df_has_gender := false; df_has_birth_year := false |}
           [CallLoadData "Chicago" "February" "Monday";
            Out (nl ++ "Loading data for city = Chicago, month = February, day = Monday...")]).
  reflexivity.
Defined.

(** X14: load_data raises KeyError for a city that is not a key of
    CITY_DATA; for a known city it raises the error of pd.read_csv when the
    file cannot be read; for a file that is read it raises IndexError as
    soon as one trip starts in July or later, whatever the filters, and it
    returns a frame when every trip starts in January to June. *)
Theorem load_data_failures (read_csv : string -> option csv_file)
    (city month day : string) (inputs : list input_event) :
  (dict_get CITY_DATA city = None ->
   exists out, load_data read_csv city month day inputs = Raised KeyError out)
  /\ (forall file,
        dict_get CITY_DATA city = Some file ->
        read_csv file = None ->
        exists out, load_data read_csv city month day inputs = Raised ReadError out)
  /\ (forall file f,
        dict_get CITY_DATA city = Some file ->
        read_csv file = Some f ->
        Exists (fun t => 7 <= ts_month (Start_Time t)) (csv_rows f) ->
        exists out, load_data read_csv city month day inputs = Raised IndexError out)
  /\ (forall file f,
        dict_get CITY_DATA city = Some file ->
        read_csv file = Some f ->
        Forall (fun t => 1 <= ts_month (Start_Time t) <= 6) (csv_rows f) ->
        exists frame out,
          load_data read_csv city month day inputs = Returned frame inputs out).
Proof.
  unfold load_data. split; [| split; [| split]].
  - intros ->. eexists. reflexivity.
  - intros file -> ->. eexists. reflexivity.
  - intros file f -> -> Hhigh.
    rewrite month_names_high; [eexists; reflexivity |].
    now apply Exists_map.
  - intros file f -> -> Hlow.
    destruct (month_names_low (map (fun t => ts_month (Start_Time t)) (csv_rows f)))
      as [names [-> _]]; [now apply Forall_map | eexists _, _; reflexivity].
Qed.

Lemma load_data_failures_witness :
  (exists out, load_data sample_read_csv "Boston" "All" "All" [] = Raised KeyError out)
  /\ (exists out, load_data (fun _ => None) "Chicago" "All" "All" []
                  = Raised ReadError out)
  /\ (exists out, load_data july_read_csv "Chicago" "January" "All" []
                  = Raised IndexError out)
  /\ (exists frame out, load_data sample_read_csv "Chicago" "June" "All" []
                        = Returned frame [] out).
Proof.
  split; [| split; [| split]].
  - apply (proj1 (load_data_failures sample_read_csv "Boston" "All" "All" [])).
    reflexivity.
  - apply (proj1 (proj2 (load_data_failures (fun _ => None) "Chicago" "All" "All" []))
             "chicago.csv"); reflexivity.
  - apply (proj1 (proj2 (proj2 (load_data_failures july_read_csv "Chicago" "January"
                                  "All" [])))
             "chicago.csv" (mkCsv [sample_trip 7 "A" "B"] false false));
      [reflexivity | reflexivity |].
    left. cbn. lia.
  - apply (proj2 (proj2 (proj2 (load_data_failures sample_read_csv "Chicago" "June"
                                  "All" [])))
             "chicago.csv"
             (mkCsv [sample_trip 1 "A" "B"; sample_trip 1 "A" "C"; sample_trip 2 "B" "C"]
                    false false));
      [reflexivity | reflexivity |].
    repeat constructor; cbn; lia.
Defined.

(** ** The month vocabulary in the loader (C1) *)

(** C1, amended: [MONTHS] has seven entries, the dummy and January to June.
    For a month number between 1 and 6 the lookup [MONTHS[int(m)]] is in
    bounds and gives a month name, not the dummy; for a month number
    between 7 and 12 the index is out of range and the lookup raises
    IndexError.  Accordingly load_data, for a file that is read, returns a
    frame whose month column holds the entry of MONTHS at the month number
    of each row when every trip starts in months 1 to 6, and raises
    IndexError when a trip starts in months 7 to 12. *)
Theorem months_lookup_in_bounds :
  List.length MONTHS = 7%nat
  /\ (forall m, 1 <= m <= 12 ->
        ((exists name, py_index MONTHS m = Some name /\ name <> "Dummy") <-> m <= 6))
  /\ (forall months, Forall (fun m => 1 <= m <= 6) months ->
        exists names, month_names months = Some names
                      /\ List.length names = List.length months)
  /\ (forall m, 7 <= m <= 12 -> py_index MONTHS m = None)
  /\ (forall (read_csv : string -> option csv_file) city month day inputs file f,
        dict_get CITY_DATA city = Some file ->
        read_csv file = Some f ->
        (Forall (fun t => 1 <= ts_month (Start_Time t) <= 6) (csv_rows f) ->
         exists frame out,
           load_data read_csv city month day inputs = Returned frame inputs out
           /\ forall r, In r (df_rows frame) ->
                py_index MONTHS (ts_month (Start_Time (row_trip r))) = Some (Month r)
                /\ Month r <> "Dummy")
        /\ (Exists (fun t => 7 <= ts_month (Start_Time t) <= 12) (csv_rows f) ->
            exists out,
              load_data read_csv city month day inputs = Raised IndexError out)).
Proof.
  split; [reflexivity | split; [| split; [| split]]].
  - intros m Hm. split.
    + intros [name [Hname _]].
      destruct (Z_le_gt_dec m 6) as [Hle | Hgt]; [exact Hle |].
      rewrite py_index_MONTHS_high in Hname by lia. discriminate.
    + intros Hle. apply py_index_MONTHS_low. lia.
  - apply month_names_low.
  - intros m Hm. apply py_index_MONTHS_high. lia.
  - intros read_csv city month day inputs file f Hfile Hread. split.
    + intros Hlow.
      destruct (month_names_low (map (fun t => ts_month (Start_Time t)) (csv_rows f)))
        as [names [Hnames _]]; [now apply Forall_map |].
      assert (Hrun : exists frame out,
                 load_data read_csv city month day inputs = Returned frame inputs out).
      { unfold load_data. rewrite Hfile, Hread, Hnames. eexists _, _. reflexivity. }
      destruct Hrun as (frame & out & Hrun). exists frame, out.
      split; [exact Hrun |]. intros r Hr.
      apply load_data_inv in Hrun as (file' & f' & names' & Hfile' & Hread' & Hnames'
                                      & Hrows & _).
      rewrite Hfile in Hfile'. injection Hfile' as <-.
      rewrite Hread in Hread'. injection Hread' as <-.
      rewrite Hrows in Hr. apply filter_In in Hr as [Hr _].
      apply in_map_iff in Hr as [[t name] [<- Hin]].
      cbn [derive_row row_trip Month].
      assert (Hlookup : py_index MONTHS (ts_month (Start_Time t)) = Some name).
      { apply month_names_Forall2 in Hnames'.
        exact (combine_derived _ _ _ _ Hnames' Hin). }
      split; [exact Hlookup |].
      assert (Ht : 1 <= ts_month (Start_Time t) <= 6).
      { rewrite Forall_forall in Hlow. apply Hlow. now apply in_combine_l in Hin. }
      destruct (py_index_MONTHS_low _ Ht) as [name' [Hname' Hdummy]].
      congruence.
    + intros Hhigh. unfold load_data. rewrite Hfile, Hread.
      rewrite month_names_high; [eexists; reflexivity |].
      apply Exists_map. eapply Exists_impl; [| exact Hhigh].
      intros t Ht. cbv beta in Ht. lia.
Qed.

Lemma months_lookup_in_bounds_witness :
  ((exists name, py_index MONTHS 3 = Some name /\ name <> "Dummy") <-> 3 <= 6)
  /\ py_index MONTHS 9 = None
  /\ (exists frame out,
        load_data sample_read_csv "Chicago" "All" "All" [] = Returned frame [] out
        /\ forall r, In r (df_rows frame) ->
             py_index MONTHS (ts_month (Start_Time (row_trip r))) = Some (Month r)
             /\ Month r <> "Dummy")
  /\ (exists out,
        load_data july_read_csv "Chicago" "All" "All" [] = Raised IndexError out).
Proof.
  split; [| split; [| split]].
  - apply (proj1 (proj2 months_lookup_in_bounds) 3). lia.
  - apply (proj1 (proj2 (proj2 (proj2 months_lookup_in_bounds))) 9). lia.
  - apply (proj1 (proj2 (proj2 (proj2 (proj2 months_lookup_in_bounds)))
                    sample_read_csv "Chicago" "All" "All" [] "chicago.csv"
                    (mkCsv [sample_trip 1 "A" "B"; sample_trip 1 "A" "C";
                            sample_trip 2 "B" "C"] false false)
                    eq_refl eq_refl)).
    repeat constructor; cbn; lia.
  - apply (proj2 (proj2 (proj2 (proj2 (proj2 months_lookup_in_bounds)))
                    july_read_csv "Chicago" "All" "All" [] "chicago.csv"
                    (mkCsv [sample_trip 7 "A" "B"] false false)
                    eq_refl eq_refl)).
    left. cbn. lia.
Defined.

(** ** The pages of the raw view *)

Lemma firstn_add {A : Type} (a b : nat) (l : list A) :
  firstn (a + b) l = (firstn a l ++ firstn b (skipn a l))%list.
Proof.
  revert l. induction a as [| a IH]; intros l; [reflexivity |].
  destruct l as [| x l]; cbn [Nat.add firstn skipn app].
  - now rewrite firstn_nil.
  - now rewrite IH.
Qed.

Lemma skipn_add {A : Type} (a b : nat) (l : list A) :
  skipn a (skipn b l) = skipn (b + a) l.
Proof.
  revert l. induction b as [| b IH]; intros l; [reflexivity |].
  destruct l as [| x l]; cbn [Nat.add skipn]; [now rewrite skipn_nil | apply IH].
Qed.

Lemma rows_shown_single (rows : list row) : rows_shown [OutRows rows] = rows.
Proof. cbn. apply app_nil_r. Qed.

Lemma rows_shown_emit_page {A : Type} (rows : list row) (o : outcome A) :
  rows_shown (events_of (emit [OutRows rows] o))
  = (rows ++ rows_shown (events_of o))%list.
Proof. rewrite events_of_emit. reflexivity. Qed.

Lemma py_slice_page {A : Type} (l : list A) (i a : Z) :
  py_slice l i (i + a) = firstn (Z.to_nat a) (skipn (Z.to_nat i) l).
Proof. unfold py_slice. now replace (i + a - i) with a by lia. Qed.

Lemma raw_pages_prefix page df n inputs :
  forall i, 0 <= i ->
  exists k,
    rows_shown (events_of (raw_pages page df n i inputs))
    = firstn k (skipn (Z.to_nat i) (df_rows df)).
Proof.
  induction inputs as [| e inputs IH]; intros i Hi.
  - cbn [raw_pages]. destruct (i <? n).
    + exists (Z.to_nat (Z.abs page)). cbn [events_of].
      now rewrite rows_shown_single, py_slice_page.
    + now exists 0%nat.
  - destruct (Z_lt_ge_dec i n) as [Hlt | Hge].
    + rewrite raw_pages_step by exact Hlt. destruct (answers_q e).
      * exists (Z.to_nat (Z.abs page)). cbn [events_of].
        now rewrite rows_shown_single, py_slice_page.
      * rewrite rows_shown_emit_page, py_slice_page.
        destruct (IH (i + Z.abs page)) as [k ->]; [lia |].
        exists (Z.to_nat (Z.abs page) + k)%nat.
        rewrite firstn_add, skipn_add. do 3 f_equal. lia.
    + rewrite raw_pages_past_end by lia. now exists 0%nat.
Qed.

Lemma raw_pages_all_rows page df inputs :
  forall i u rest out, 0 <= i ->
  forallb (fun e => negb (answers_q e)) inputs = true ->
  raw_pages page df (Z.of_nat (List.length (df_rows df))) i inputs = Returned u rest out ->
  rows_shown out = skipn (Z.to_nat i) (df_rows df).
Proof.
  induction inputs as [| e inputs IH]; intros i u rest out Hi Hq H.
  - cbn [raw_pages] in H.
    destruct (i <? Z.of_nat (List.length (df_rows df))) eqn:E; [discriminate |].
    injection H as _ _ <-. apply Z.ltb_ge in E.
    symmetry. apply skipn_all2. lia.
  - cbn [forallb] in Hq. apply andb_true_iff in Hq as [He Hq].
    apply negb_true_iff in He.
    destruct (Z_lt_ge_dec i (Z.of_nat (List.length (df_rows df)))) as [Hlt | Hge].
    + rewrite raw_pages_step, He in H by exact Hlt.
      apply emit_Returned in H as [out2 [H ->]].
      apply IH in H; [| lia | exact Hq].
      cbn [rows_shown flat_map app]. fold (rows_shown out2).
      rewrite H, py_slice_page.
      replace (Z.to_nat (i + Z.abs page)) with (Z.to_nat i + Z.to_nat (Z.abs page))%nat
        by lia.
      rewrite <- skipn_add. apply firstn_skipn.
    + rewrite raw_pages_past_end in H by lia. injection H as _ _ <-.
      symmetry. apply skipn_all2. lia.
Qed.

(** X15: in the raw view the pages follow one another without gap or
    repetition: whatever the answers, the rows printed so far are the first
    rows of the frame, and when the view returns without an answer q they
    are all the rows of the frame, once each and in order. *)
Theorem raw_view_shows_rows_in_order (page : Z) (df : DataFrame)
    (inputs : list input_event) :
  (exists k,
     rows_shown (events_of (raw_pages page df (Z.of_nat (List.length (df_rows df)))
                              0 inputs))
     = firstn k (df_rows df))
  /\ (forall u rest out,
        forallb (fun e => negb (answers_q e)) inputs = true ->
        raw_pages page df (Z.of_nat (List.length (df_rows df))) 0 inputs
        = Returned u rest out ->
        rows_shown out = df_rows df).
Proof.
  split.
  - destruct (raw_pages_prefix page df (Z.of_nat (List.length (df_rows df))) inputs 0)
      as [k Hk]; [lia |]. now exists k.
  - intros u rest out Hq H.
    now rewrite (raw_pages_all_rows page df inputs 0 u rest out (Z.le_refl 0) Hq H).
Qed.

Lemma raw_view_shows_rows_in_order_witness :
  rows_shown [OutRows (py_slice (df_rows sample_frame) 0 2);
              OutRows (py_slice (df_rows sample_frame) 2 4)]
  = df_rows sample_frame.
Proof.
  apply (proj2 (raw_view_shows_rows_in_order (-2) sample_frame
                  [KeyboardInterrupt; Line "y"]) tt []); reflexivity.
Defined.

Lemma raw_pages_bound page df n inputs :
  page <> 0 ->
  forall i,
    (Z.to_nat ((n - i + Z.abs page - 1) / Z.abs page) <= List.length inputs)%nat ->
    exists rest out,
      raw_pages page df n i inputs = Returned tt rest out
      /\ (List.length inputs
          <= List.length rest + Z.to_nat ((n - i + Z.abs page - 1) / Z.abs page))%nat.
Proof.
  intros Hpage. induction inputs as [| e inputs IH]; intros i Hlen.
  - destruct (Z_lt_ge_dec i n) as [Hlt | Hge].
    + exfalso. cbn [List.length] in Hlen.
      assert (1 <= (n - i + Z.abs page - 1) / Z.abs page).
      { apply Z.div_le_lower_bound; lia. }
      lia.
    + exists [], []. split; [apply raw_pages_past_end; lia | cbn; lia].
  - destruct (Z_lt_ge_dec i n) as [Hlt | Hge].
    + assert (Hone : 1 <= (n - i + Z.abs page - 1) / Z.abs page).
      { apply Z.div_le_lower_bound; lia. }
      assert (Hnext : (n - (i + Z.abs page) + Z.abs page - 1) / Z.abs page
                      = (n - i + Z.abs page - 1) / Z.abs page - 1).
      { replace (n - i + Z.abs page - 1)
          with (n - (i + Z.abs page) + Z.abs page - 1 + 1 * Z.abs page) by lia.
        rewrite Z.div_add by lia. lia. }
      rewrite raw_pages_step by exact Hlt.
      destruct (answers_q e).
      * eexists _, _. split; [reflexivity |]. cbn [List.length]. lia.
      * destruct (IH (i + Z.abs page)) as (rest & out & -> & Hrest).
        { rewrite Hnext. cbn [List.length] in Hlen. lia. }
        eexists _, _. split; [reflexivity |].
        rewrite Hnext in Hrest. cbn [List.length]. lia.
    + eexists _, _. split; [apply raw_pages_past_end; lia | lia].
Qed.

(** X16: with a page size other than 0, positive or negative, the raw view
    over n rows returns once as many answers as there are pages of that
    size are there, whatever they are, and it reads no more answers than
    that. *)
Theorem raw_view_page_bound (page : Z) (df : DataFrame) (n : Z)
    (inputs : list input_event) :
  page <> 0 ->
  (page_count n page <= List.length inputs)%nat ->
  exists rest out,
    raw_pages page df n 0 inputs = Returned tt rest out
    /\ (List.length inputs <= List.length rest + page_count n page)%nat.
Proof.
  intros Hpage Hlen. unfold page_count in *.
  destruct (raw_pages_bound page df n inputs Hpage 0) as (rest & out & H & Hrest).
  - now rewrite Z.sub_0_r.
  - exists rest, out. split; [exact H |]. now rewrite Z.sub_0_r in Hrest.
Qed.

Lemma raw_view_page_bound_witness :
  exists rest out,
    raw_pages (-2) sample_frame 3 0 [Line "a"; Line "b"; Line "c"]
    = Returned tt rest out
    /\ (List.length [Line "a"; Line "b"; Line "c"]
        <= List.length rest + page_count 3 (-2))%nat.
Proof.
  apply (raw_view_page_bound (-2) sample_frame 3 [Line "a"; Line "b"; Line "c"]).
  - discriminate.
  - vm_compute. lia.
Defined.

(** ** The unit of the exact duration *)

Lemma top_unit_index_cases (days hours minutes seconds : Z) :
  top_unit_index [days; hours; minutes; seconds]
  = if 0 <? days then 0%nat else if 0 <? hours then 1%nat
    else if 0 <? minutes then 2%nat else 3%nat.
Proof.
  unfold top_unit_index, enumerate. cbn [List.length seq combine map fold_right].
  now destruct (0 <? days), (0 <? hours), (0 <? minutes), (0 <? seconds).
Qed.

(** X17: for a duration that is not negative, the unit of the exact value
    display_duration prints goes by the rounded number of seconds: seconds
    below one minute, minutes below one hour, hours below one day, and days
    from one day on. *)
Theorem duration_top_unit (total_seconds : Q) :
  (0 <= total_seconds)%Q ->
  let top := top_unit_index (duration_list total_seconds) in
  (nth top duration_unit_in_seconds 1, nth top duration_names EmptyString)
  = if py_round total_seconds <? 60 then (1, "seconds")
    else if py_round total_seconds <? 3600 then (60, "minutes")
    else if py_round total_seconds <? 86400 then (3600, "hours")
    else (86400, "days").
Proof.
  intros Hpos. pose proof (py_round_nonneg total_seconds Hpos) as Hr.
  cbv zeta. rewrite duration_list_shape. cbv zeta.
  revert Hr. generalize (py_round total_seconds). intros r Hr.
  rewrite top_unit_index_cases.
  destruct (Z.ltb_spec r 60) as [H1 | H1].
  { replace (0 <? r / 60 / 60 / 24) with false
      by (symmetry; apply Z.ltb_ge; Z.div_mod_to_equations; lia).
    replace (0 <? (r / 60 / 60) mod 24) with false
      by (symmetry; apply Z.ltb_ge; Z.div_mod_to_equations; lia).
    replace (0 <? (r / 60) mod 60) with false
      by (symmetry; apply Z.ltb_ge; Z.div_mod_to_equations; lia).
    reflexivity. }
  destruct (Z.ltb_spec r 3600) as [H2 | H2].
  { replace (0 <? r / 60 / 60 / 24) with false
      by (symmetry; apply Z.ltb_ge; Z.div_mod_to_equations; lia).
    replace (0 <? (r / 60 / 60) mod 24) with false
      by (symmetry; apply Z.ltb_ge; Z.div_mod_to_equations; lia).
    replace (0 <? (r / 60) mod 60) with true
      by (symmetry; apply Z.ltb_lt; Z.div_mod_to_equations; lia).
    reflexivity. }
  destruct (Z.ltb_spec r 86400) as [H3 | H3].
  { replace (0 <? r / 60 / 60 / 24) with false
      by (symmetry; apply Z.ltb_ge; Z.div_mod_to_equations; lia).
    replace (0 <? (r / 60 / 60) mod 24) with true
      by (symmetry; apply Z.ltb_lt; Z.div_mod_to_equations; lia).
    reflexivity. }
  replace (0 <? r / 60 / 60 / 24) with true
    by (symmetry; apply Z.ltb_lt; Z.div_mod_to_equations; lia).
  reflexivity.
Qed.

Lemma duration_top_unit_witness :
  let top := top_unit_index (duration_list 3599) in
  (nth top duration_unit_in_seconds 1, nth top duration_names EmptyString)
  = if py_round 3599 <? 60 then (1, "seconds")
    else if py_round 3599 <? 3600 then (60, "minutes")
    else if py_round 3599 <? 86400 then (3600, "hours")
    else (86400, "days").
Proof.
  apply (duration_top_unit 3599). discriminate.
Defined.

(** ** The modal values, their order and the single winner *)

Lemma cell_leb_total (a b : cell) : cell_leb a b = false -> cell_leb b a = true.
Proof.
  destruct a as [m | s], b as [n | t]; cbn; intros H; try reflexivity;
    try discriminate.
  - apply Z.leb_le. apply Z.leb_gt in H. lia.
  - destruct (String.leb_total s t) as [Hst | Hts]; [congruence | exact Hts].
Qed.

Lemma insert_sorted_HdRel (v w : cell) (l : list cell) :
  cell_leb w v = true ->
  Sorted.HdRel (fun a b => cell_leb a b = true) w l ->
  Sorted.HdRel (fun a b => cell_leb a b = true) w (insert_sorted v l).
Proof.
  intros Hwv Hl. destruct l as [| x l]; cbn [insert_sorted].
  - now constructor.
  - destruct (cell_leb v x); constructor; [exact Hwv | now inversion Hl].
Qed.

Lemma insert_sorted_Sorted (v : cell) (l : list cell) :
  Sorted.Sorted (fun a b => cell_leb a b = true) l ->
  Sorted.Sorted (fun a b => cell_leb a b = true) (insert_sorted v l).
Proof.
  induction 1 as [| x l Hl IH Hhd]; cbn [insert_sorted].
  - repeat constructor.
  - destruct (cell_leb v x) eqn:E.
    + constructor; [now constructor | now constructor].
    + constructor; [exact IH |].
      apply insert_sorted_HdRel; [now apply cell_leb_total | exact Hhd].
Qed.

Lemma sort_cells_Sorted (l : list cell) :
  Sorted.Sorted (fun a b => cell_leb a b = true) (sort_cells l).
Proof.
  induction l as [| x l IH]; [constructor |].
  cbn [sort_cells fold_right]. now apply insert_sorted_Sorted.
Qed.

Lemma insert_sorted_NoDup (v : cell) (l : list cell) :
  ~ In v l -> NoDup l -> NoDup (insert_sorted v l).
Proof.
  intros Hv Hl. induction Hl as [| x l Hx Hl IH]; cbn [insert_sorted].
  - repeat constructor. intros [].
  - destruct (cell_leb v x).
    + constructor; [exact Hv | now constructor].
    + constructor.
      * rewrite In_insert_sorted. intros [-> | Hin]; [apply Hv; now left | contradiction].
      * apply IH. intros Hin. apply Hv. now right.
Qed.

Lemma sort_cells_NoDup (l : list cell) : NoDup l -> NoDup (sort_cells l).
Proof.
  induction 1 as [| x l Hx Hl IH]; [constructor |].
  cbn [sort_cells fold_right]. fold (sort_cells l).
  apply insert_sorted_NoDup; [now rewrite In_sort_cells | exact IH].
Qed.

Lemma distinct_NoDup (col : list cell) : NoDup (distinct col).
Proof.
  induction col as [| v col IH]; cbn [distinct]; constructor.
  - intros Hin. apply filter_In in Hin as [_ Hne].
    now rewrite cell_eqb_refl in Hne.
  - now apply NoDup_filter.
Qed.

Lemma mode_NoDup (col : list cell) : NoDup (mode col).
Proof. unfold mode. apply sort_cells_NoDup, NoDup_filter, distinct_NoDup. Qed.

(** X18: the values display_most_common reports are in ascending order,
    none is reported twice, each has the maximal frequency of the column,
    and for a column that is not empty there is at least one. *)
Theorem mode_sorted_distinct (column : list cell) :
  Sorted.Sorted (fun a b => cell_leb a b = true) (mode column)
  /\ NoDup (mode column)
  /\ (forall v, In v (mode column) ->
        In v column /\ frequency v column = max_frequency column)
  /\ (column <> [] -> mode column <> []).
Proof.
  split; [apply sort_cells_Sorted | split; [apply mode_NoDup | split]].
  - intros v Hv. now apply mode_spec.
  - apply mode_nonempty.
Qed.

Lemma mode_sorted_distinct_witness :
  mode [CInt 17; CInt 8; CInt 17; CInt 8; CInt 9] <> [].
Proof.
  apply (proj2 (proj2 (proj2 (mode_sorted_distinct
                                [CInt 17; CInt 8; CInt 17; CInt 8; CInt 9])))).
  discriminate.
Defined.

Lemma NoDup_singleton {A : Type} (l : list A) (v : A) :
  NoDup l -> (forall x, In x l <-> x = v) -> l = [v].
Proof.
  intros Hnd Hl. destruct l as [| x l].
  - exfalso. now apply (proj2 (Hl v) eq_refl).
  - assert (Hx : x = v) by (apply Hl; now left). subst x.
    destruct l as [| y l]; [reflexivity |].
    assert (Hy : y = v) by (apply Hl; right; now left). subst y.
    inversion Hnd as [| ? ? Hnotin _]. exfalso. apply Hnotin. now left.
Qed.

(** X19: a value that occurs more often than every other value of the
    column is the only one reported. *)
Theorem mode_single_winner (column : list cell) (v : cell) :
  In v column ->
  (forall w, In w column -> w <> v -> (frequency w column < frequency v column)%nat) ->
  mode column = [v].
Proof.
  intros Hin Hwins.
  assert (Hmax : frequency v column = max_frequency column).
  { destruct (max_attained column column) as [w [Hw Hfw]].
    { intros ->. contradiction. }
    fold (max_frequency column) in Hfw.
    destruct (cell_eqb w v) eqn:E; [apply cell_eqb_eq in E; now subst |].
    assert (Hne : w <> v).
    { intros ->. now rewrite cell_eqb_refl in E. }
    pose proof (Hwins w Hw Hne). pose proof (frequency_le_max v column Hin). lia. }
  apply NoDup_singleton; [apply mode_NoDup |].
  intros x. rewrite mode_spec. split.
  - intros [Hx Hfx].
    destruct (cell_eqb x v) eqn:E; [now apply cell_eqb_eq in E |].
    assert (Hne : x <> v).
    { intros ->. now rewrite cell_eqb_refl in E. }
    pose proof (Hwins x Hx Hne). lia.
  - intros ->. now split.
Qed.

Lemma mode_single_winner_witness :
  mode (col_Month sample_frame) = [CStr "January"].
Proof.
  apply (mode_single_winner (col_Month sample_frame) (CStr "January")).
  - left. reflexivity.
  - intros w [<- | [<- | [<- | []]]] Hne; cbn; try lia; now elim Hne.
Defined.

(** ** The user statistics *)

Lemma bind_print {B : Type} (text : string) (k : unit -> io B) inputs :
  bind (print text) k inputs = emit [Out text] (k tt inputs).
Proof. reflexivity. Qed.

Lemma bind_elapsed {B : Type} (timing_off_flag : bool) (k : unit -> io B) inputs :
  bind (elapsed timing_off_flag) k inputs
  = emit (if timing_off_flag then [] else [OutElapsed]) (k tt inputs).
Proof. reflexivity. Qed.

Lemma bind_raised {A B : Type} (m : io A) (k : A -> io B) inputs e out :
  m inputs = Raised e out -> bind m k inputs = Raised e out.
Proof. intros H. unfold bind. now rewrite H. Qed.

Lemma display_categories_none results_dict category_header result_header :
  display_categories results_dict category_header result_header = None
  <-> results_dict = [].
Proof.
  unfold display_categories.
  destruct results_dict as [| [c r] d]; cbn [map py_max]; split;
    intros H; try reflexivity; discriminate.
Qed.

Lemma print_categories_empty category_header result_header inputs :
  print_categories [] category_header result_header inputs = Raised ValueError [].
Proof. reflexivity. Qed.

Lemma print_categories_run results_dict category_header result_header inputs :
  results_dict <> [] ->
  exists lines,
    print_categories results_dict category_header result_header inputs
    = Returned tt inputs (map Out lines).
Proof.
  intros Hne. unfold print_categories.
  destruct (display_categories results_dict category_header result_header)
    as [lines |] eqn:E.
  - now exists lines.
  - apply display_categories_none in E. contradiction.
Qed.

Lemma insert_by_count_not_nil x sorted : insert_by_count x sorted <> [].
Proof. destruct sorted as [| y l]; cbn; [| destruct (snd y <=? snd x)%nat]; discriminate. Qed.

Lemma value_counts_nil (col : list (option string)) :
  value_counts col = [] <-> present col = [].
Proof.
  unfold value_counts. destruct (present col) as [| s l]; [now split |].
  split; [| discriminate]. cbn [distinct_strings map fold_right].
  intros H. now apply insert_by_count_not_nil in H.
Qed.

Lemma display_counts_shares_empty format_quotient column title precision inputs :
  present column = [] ->
  display_counts_shares format_quotient column title precision inputs
  = Raised ValueError [].
Proof.
  intros H. unfold display_counts_shares.
  rewrite (proj2 (value_counts_nil column) H). reflexivity.
Qed.

Lemma display_counts_shares_run format_quotient column title precision inputs :
  present column <> [] ->
  exists lines,
    display_counts_shares format_quotient column title precision inputs
    = Returned tt inputs (map Out lines).
Proof.
  intros H. unfold display_counts_shares.
  assert (Hcounts : value_counts column <> []).
  { intros E. now apply value_counts_nil in E. }
  destruct (value_counts column) as [| kv counts]; [contradiction |].
  destruct (print_categories_run
              (map (fun '(k, v) => (k, CInt (Z.of_nat v))) (kv :: counts))
              title "Count" inputs) as [lines1 H1]; [discriminate |].
  rewrite (bind_run _ _ _ _ _ _ H1).
  match goal with
  | |- context [print_categories ?d title "Share(%)" inputs] =>
      destruct (print_categories_run d title "Share(%)" inputs) as [lines2 H2];
      [destruct kv; discriminate |]
  end.
  rewrite H2. exists (lines1 ++ lines2)%list. cbn [emit]. now rewrite map_app.
Qed.

Lemma present_user_types (rows : list row) :
  present (map (fun r => Some (User_Type (row_trip r))) rows) = [] <-> rows = [].
Proof. destruct rows; cbn; split; intros H; try reflexivity; discriminate. Qed.

Section UserStats.

Variable format_quotient : Q -> Z -> nat -> string.
Variable df : DataFrame.
Variable timing_off_flag : bool.
Variable inputs : list input_event.

Local Notation "'genders'" := (map (fun r => Gender (row_trip r)) (df_rows df)).
Local Notation "'run'" := (user_stats format_quotient df timing_off_flag inputs).

Lemma user_stats_no_rows :
  df_rows df = [] -> exists out, run = Raised ValueError out.
Proof.
  intros Hrows. unfold user_stats. rewrite bind_print.
  rewrite (bind_raised _ _ _ _ _
             (display_counts_shares_empty format_quotient _ "Subscriber Type" 4 inputs
                (proj2 (present_user_types (df_rows df)) Hrows))).
  eexists. reflexivity.
Qed.

Lemma user_stats_no_gender :
  df_rows df <> [] -> df_has_gender df = true -> present genders = [] ->
  exists out, run = Raised ValueError out.
Proof.
  intros Hrows Hcol Hnone. unfold user_stats. rewrite bind_print.
  destruct (display_counts_shares_run format_quotient
              (map (fun r => Some (User_Type (row_trip r))) (df_rows df))
              "Subscriber Type" 4 inputs) as [lines1 H1].
  { intros E. now apply present_user_types in E. }
  rewrite (bind_run _ _ _ _ _ _ H1), Hcol.
  rewrite (bind_raised _ _ _ _ _
             (display_counts_shares_empty format_quotient genders "Gender" 2 inputs
                Hnone)).
  eexists. reflexivity.
Qed.

Lemma user_stats_no_year :
  df_rows df <> [] ->
  df_has_gender df = false \/ present genders <> [] ->
  df_has_birth_year df = true -> birth_years df = [] ->
  exists out, run = Raised KeyError out.
Proof.
  intros Hrows Hgender Hcol Hyears. unfold user_stats. rewrite bind_print.
  destruct (display_counts_shares_run format_quotient
              (map (fun r => Some (User_Type (row_trip r))) (df_rows df))
              "Subscriber Type" 4 inputs) as [lines1 H1].
  { intros E. now apply present_user_types in E. }
  rewrite (bind_run _ _ _ _ _ _ H1), Hcol, Hyears.
  destruct (df_has_gender df).
  - destruct Hgender as [Hgender | Hgender]; [discriminate |].
    destruct (display_counts_shares_run format_quotient genders "Gender" 2 inputs Hgender)
      as [lines2 H2].
    rewrite (bind_run _ _ _ _ _ _ H2). eexists. reflexivity.
  - eexists. reflexivity.
Qed.

Lemma user_stats_returns :
  df_rows df <> [] ->
  df_has_gender df = false \/ present genders <> [] ->
  df_has_birth_year df = false \/ birth_years df <> [] ->
  exists out,
    run = Returned tt inputs out
    /\ (df_has_gender df = false ->
        In (Out "No data about gender for this city.") out)
    /\ (df_has_birth_year df = false ->
        In (Out "No data about birth year for this city.") out)
    /\ (forall y ys,
          df_has_birth_year df = true -> birth_years df = y :: ys ->
          In (Out ("Earliest year of birth:  " ++ PyStr.str_int (list_min ys y))) out
          /\ In (Out ("Latest year of birth:    " ++ PyStr.str_int (list_max ys y))) out
          /\ In (Out ("The most common year(s): "
                      ++ PyStr.join ", "
                           (map str_cell (mode (map CInt (birth_years df)))))) out).
Proof.
  intros Hrows Hgender Hyears. unfold user_stats. rewrite bind_print.
  destruct (display_counts_shares_run format_quotient
              (map (fun r => Some (User_Type (row_trip r))) (df_rows df))
              "Subscriber Type" 4 inputs) as [lines1 H1].
  { intros E. now apply present_user_types in E. }
  rewrite (bind_run _ _ _ _ _ _ H1).
  assert (Hg : exists lines2,
             (if df_has_gender df
              then display_counts_shares format_quotient genders "Gender" 2
              else print "No data about gender for this city.") inputs
             = Returned tt inputs (map Out lines2)
             /\ (df_has_gender df = false ->
                 In "No data about gender for this city." lines2)).
  { destruct (df_has_gender df).
    - destruct Hgender as [Hgender | Hgender]; [discriminate |].
      destruct (display_counts_shares_run format_quotient genders "Gender" 2 inputs
                  Hgender) as [lines2 H2].
      exists lines2. split; [exact H2 | discriminate].
    - exists ["No data about gender for this city."]. split; [reflexivity |].
      intros _. now left. }
  destruct Hg as (lines2 & H2 & Hmsg).
  rewrite (bind_run _ _ _ _ _ _ H2).
  destruct (df_has_birth_year df).
  - destruct Hyears as [Hyears | Hyears]; [discriminate |].
    destruct (birth_years df) as [| y ys] eqn:Ey; [now elim Hyears |].
    unfold display_most_common, bind, print, elapsed, ret.
    cbn [emit]. eexists. split; [reflexivity |].
    split; [| split; [discriminate |]].
    + intros Hcol. rewrite !in_app_iff. right. right. left.
      apply in_map. now apply Hmsg.
    + intros y' ys' _ E. injection E as <- <-.
      repeat first [rewrite in_app_iff | progress cbn [In app]]. tauto.
  - unfold bind, print, elapsed, ret. cbn [emit]. eexists.
    split; [reflexivity |].
    split; [| split; [| discriminate]].
    + intros Hcol. rewrite !in_app_iff. right. right. left.
      apply in_map. now apply Hmsg.
    + intros _. repeat first [rewrite in_app_iff | progress cbn [In app]]. tauto.
Qed.

End UserStats.

(** ** A directory without supported files *)

Lemma file_dict_empty (file_list : list string) :
  (forall file, In file file_list -> ~ In file (map snd CITY_DATA)) ->
  file_dict file_list = [].
Proof.
  intros Hnone. unfold file_dict.
  assert (Hall : forall entry, In entry CITY_DATA ->
             (fun '(_, city_file) => existsb (String.eqb city_file) file_list) entry
             = false).
  { intros [c f] Hin. destruct (existsb (String.eqb f) file_list) eqn:E; [| reflexivity].
    apply existsb_eqb_In in E. exfalso. apply (Hnone f E).
    apply in_map_iff. now exists (c, f). }
  clear Hnone. revert Hall. generalize CITY_DATA as d.
  induction d as [| entry entries IH]; intros Hall; [reflexivity |].
  cbn [filter]. rewrite (Hall entry (or_introl eq_refl)).
  apply IH. intros e He. apply Hall. now right.
Qed.

(** X22: when none of the files found is a file of CITY_DATA, main_loop
    asks nothing: after the welcome block it reports that no data files
    were found, signs off and returns with the input unread. *)
Theorem session_without_files
    (format_quotient : Q -> Z -> nat -> string)
    (aggregate : aggregation -> list Q -> Q)
    (read_csv : string -> option csv_file) (file_list : list string)
    (args : Args) (inputs : list input_event) :
  (forall file, In file file_list -> ~ In file (map snd CITY_DATA)) ->
  main_loop format_quotient aggregate read_csv file_list args inputs
  = Returned tt inputs
      (events_of (welcome args [])
       ++ [Out "No data files were found in the working directory. Please check!";
           Out SIGNOFF]).
Proof.
  intros Hnone. unfold main_loop.
  rewrite (bind_run _ _ _ _ _ _ (welcome_run args _)).
  rewrite (file_dict_empty file_list Hnone). reflexivity.
Qed.

Lemma session_without_files_witness :
  main_loop sample_format sample_aggregate sample_read_csv
    ["notes.csv"] (sample_args false) [Line "c"]
  = Returned tt [Line "c"]
      (events_of (welcome (sample_args false) [])
       ++ [Out "No data files were found in the working directory. Please check!";
           Out SIGNOFF]).
Proof.
  apply (session_without_files sample_format sample_aggregate
           sample_read_csv ["notes.csv"] (sample_args false) [Line "c"]).
  intros file [<- | []] Hin. cbn in Hin.
  repeat (destruct Hin as [Hin | Hin]; [discriminate Hin |]). exact Hin.
Defined.

(** ** The columns of display_categories *)








Example display_categories_counts :
  display_categories [("Subscriber", CInt 120); ("Customer", CInt 7)]
    "Subscriber Type" "Count"
  = Some ["Subscriber Type     Count";
          "-------------------------";
          "Subscriber            120";
          "Customer                7";
          EmptyString].
Proof. reflexivity. Qed.

(** ** The frame kept over restarts *)

(** X24: the frame the session keeps is always the frame of the previous
    city: this holds before the first pass and after every pass that
    restarts; and whenever a pass skips the call of load_data, the frame it
    goes on with is the very frame that call would have returned for the
    city, month and day selected. *)
Theorem kept_frame_is_fresh
    (format_quotient : Q -> Z -> nat -> string)
    (aggregate : aggregation -> list Q -> Q)
    (read_csv : string -> option csv_file) (file_list : list string)
    (args : Args) (previous_city : previous) (df : option DataFrame)
    (inputs : list input_event) :
  frame_at_hand read_csv args previous_city df ->
  frame_at_hand read_csv args (Tuple1 "No previous city") None
  /\ (forall c loaded rest out,
        main_body format_quotient aggregate read_csv file_list
          args previous_city df inputs = Returned (Again c loaded) rest out ->
        frame_at_hand read_csv args (Str c) (Some loaded))
  /\ (forall city month day rest out,
        get_filters (map fst (file_dict file_list)) (all args) inputs
        = Returned (city, month, day) rest out ->
        city <> "Quit" ->
        city_eq city previous_city && all args = true ->
        exists kept out',
          load_step read_csv args previous_city df city month day rest
          = Returned kept rest []
          /\ load_data read_csv city month day rest = Returned kept rest out').
Proof.
  intros Hinv. split; [exact I | split].
  - intros c loaded rest out Hpass.
    exact (frame_at_hand_preserved format_quotient aggregate
             read_csv file_list args previous_city df inputs c loaded rest out
             Hinv Hpass).
  - intros city month day rest out Hfilters Hcity Hskip.
    apply andb_true_iff in Hskip as [Hsame Hall].
    rewrite Hall in Hfilters.
    apply get_filters_all_flag_returns in Hfilters as [-> | [-> ->]];
      [now elim Hcity |].
    destruct previous_city as [t | c]; [discriminate |].
    cbn [city_eq] in Hsame. apply String.eqb_eq in Hsame. subst c.
    destruct (Hinv Hall) as (kept & out' & -> & Hkept).
    exists kept, out'. split; [| apply Hkept].
    unfold load_step. cbn [city_eq]. now rewrite String.eqb_refl, Hall.
Qed.

Lemma kept_frame_is_fresh_witness :
  exists kept out',
    load_step sample_read_csv (sample_args true) (Str "Chicago") (Some sample_frame)
      "Chicago" "All" "All" [Line "s"]
    = Returned kept [Line "s"] []
    /\ load_data sample_read_csv "Chicago" "All" "All" [Line "s"]
       = Returned kept [Line "s"] out'.
Proof.
  apply (proj2 (proj2 (kept_frame_is_fresh sample_format sample_aggregate
                         sample_read_csv sample_files (sample_args true)
                         (Str "Chicago") (Some sample_frame) [Line "chi"; Line "s"]
                         (fun _ => ex_intro _ sample_frame
                                     (ex_intro _ _ (conj eq_refl (fun _ => eq_refl))))))
           "Chicago" "All" "All" [Line "s"] [Out "You selected:  Chicago"]).
  - reflexivity.
  - discriminate.
  - reflexivity.
Defined.

(** ** The errors and the report of the user statistics *)

Section UserStatsOutcome.

Variable format_quotient : Q -> Z -> nat -> string.
Variable df : DataFrame.
Variable timing_off_flag : bool.
Variable inputs : list input_event.

Local Notation "'genders'" := (map (fun r => Gender (row_trip r)) (df_rows df)).
Local Notation "'run'" := (user_stats format_quotient df timing_off_flag inputs).

(** The four ways user_stats can go. *)
Lemma user_stats_outcome :
  (df_rows df = [] /\ exists out, run = Raised ValueError out)
  \/ (df_rows df <> [] /\ (df_has_gender df = true /\ present genders = [])
      /\ exists out, run = Raised ValueError out)
  \/ (df_rows df <> [] /\ (df_has_gender df = false \/ present genders <> [])
      /\ (df_has_birth_year df = true /\ birth_years df = [])
      /\ exists out, run = Raised KeyError out)
  \/ (df_rows df <> [] /\ (df_has_gender df = false \/ present genders <> [])
      /\ (df_has_birth_year df = false \/ birth_years df <> [])
      /\ exists out,
           run = Returned tt inputs out
           /\ (df_has_gender df = false ->
               In (Out "No data about gender for this city.") out)
           /\ (df_has_birth_year df = false ->
               In (Out "No data about birth year for this city.") out)
           /\ (forall y ys,
                 df_has_birth_year df = true -> birth_years df = y :: ys ->
                 In (Out ("Earliest year of birth:  "
                          ++ PyStr.str_int (list_min ys y))) out
                 /\ In (Out ("Latest year of birth:    "
                             ++ PyStr.str_int (list_max ys y))) out
                 /\ In (Out ("The most common year(s): "
                             ++ PyStr.join ", "
                                  (map str_cell (mode (map CInt (birth_years df))))))
                      out)).
Proof.
  assert (Hrows : df_rows df = [] \/ df_rows df <> []).
  { destruct (df_rows df); [now left | right; discriminate]. }
  assert (Hg : (df_has_gender df = true /\ present genders = [])
               \/ (df_has_gender df = false \/ present genders <> [])).
  { destruct (df_has_gender df); [| right; now left].
    destruct (present genders); [left; now split | right; right; discriminate]. }
  assert (Hy : (df_has_birth_year df = true /\ birth_years df = [])
               \/ (df_has_birth_year df = false \/ birth_years df <> [])).
  { destruct (df_has_birth_year df); [| right; now left].
    destruct (birth_years df); [left; now split | right; right; discriminate]. }
  destruct Hrows as [Hrows | Hrows].
  { left. split; [exact Hrows | now apply user_stats_no_rows]. }
  destruct Hg as [[Hcol Hnone] | Hg].
  { right. left. split; [exact Hrows | split; [now split |]].
    now apply user_stats_no_gender. }
  destruct Hy as [[Hcol Hnone] | Hy].
  { right. right. left. repeat (split; [assumption || now split |]).
    now apply user_stats_no_year. }
  right. right. right. repeat (split; [assumption |]).
  now apply user_stats_returns.
Qed.

End UserStatsOutcome.

(** X20: user_stats raises exactly when the frame has no row, or has a
    gender column without any value in it, or has a birth year column
    without any year in it.  In the first two cases the error is the
    ValueError of display_categories on an empty dictionary, in the last
    one the KeyError of the empty frame of years.  Otherwise it returns and
    leaves the input as it is, and a frame without the gender or birth year
    column is reported as such, not as an error. *)
Theorem user_stats_raises_iff (format_quotient : Q -> Z -> nat -> string)
    (df : DataFrame) (timing_off_flag : bool) (inputs : list input_event) :
  ((exists e out,
      user_stats format_quotient df timing_off_flag inputs = Raised e out)
   <-> df_rows df = []
       \/ (df_has_gender df = true
           /\ present (map (fun r => Gender (row_trip r)) (df_rows df)) = [])
       \/ (df_has_birth_year df = true /\ birth_years df = []))
  /\ (forall e out,
        user_stats format_quotient df timing_off_flag inputs = Raised e out ->
        (df_rows df = []
         \/ (df_has_gender df = true
             /\ present (map (fun r => Gender (row_trip r)) (df_rows df)) = []) ->
         e = ValueError)
        /\ (df_rows df <> [] ->
            df_has_gender df = false
            \/ present (map (fun r => Gender (row_trip r)) (df_rows df)) <> [] ->
            e = KeyError))
  /\ (df_rows df <> [] ->
      df_has_gender df = false
      \/ present (map (fun r => Gender (row_trip r)) (df_rows df)) <> [] ->
      df_has_birth_year df = false \/ birth_years df <> [] ->
      exists out,
        user_stats format_quotient df timing_off_flag inputs = Returned tt inputs out
        /\ (df_has_gender df = false ->
            In (Out "No data about gender for this city.") out)
        /\ (df_has_birth_year df = false ->
            In (Out "No data about birth year for this city.") out)).
Proof.
  pose proof (user_stats_outcome format_quotient df timing_off_flag inputs) as Hcases.
  split; [split | split].
  - intros (e & out & H).
    destruct Hcases as [[Hr _] | [(_ & Hg & _) | [(_ & _ & Hy & _) | (_ & _ & _ & Hret)]]];
      [now left | right; now left | right; now right |].
    destruct Hret as (out' & H' & _). rewrite H' in H. discriminate.
  - intros Hbad.
    destruct Hcases as [[_ [out H]] | [(_ & _ & out & H) | [(_ & _ & _ & out & H)
                       | (Hr & Hg & Hy & _)]]];
      try (eexists _, _; exact H).
    exfalso. destruct Hbad as [Hbad | [[Hc Hn] | [Hc Hn]]].
    + contradiction.
    + destruct Hg as [Hg | Hg]; [congruence | contradiction].
    + destruct Hy as [Hy | Hy]; [congruence | contradiction].
  - intros e out H. split.
    + intros Hbad.
      destruct Hcases as [[_ [out' H']] | [(_ & _ & out' & H')
                         | [(Hr & Hg & _ & _) | (Hr & Hg & _ & _)]]];
        try (rewrite H' in H; now injection H as <- _).
      * exfalso. destruct Hbad as [Hbad | [Hc Hn]]; [contradiction |].
        destruct Hg as [Hg | Hg]; [congruence | contradiction].
      * exfalso. destruct Hbad as [Hbad | [Hc Hn]]; [contradiction |].
        destruct Hg as [Hg | Hg]; [congruence | contradiction].
    + intros Hr Hg.
      destruct Hcases as [[Hr' _] | [(_ & [Hc Hn] & _) | [(_ & _ & _ & out' & H')
                         | (_ & _ & _ & out' & H' & _)]]].
      * contradiction.
      * destruct Hg as [Hg | Hg]; [congruence | contradiction].
      * rewrite H' in H. now injection H as <- _.
      * rewrite H' in H. discriminate.
  - intros Hr Hg Hy.
    destruct (user_stats_returns format_quotient df timing_off_flag inputs Hr Hg Hy)
      as (out & H & Hgender & Hyear & _).
    now exists out.
Qed.

Lemma user_stats_raises_iff_witness :
  exists e out, user_stats sample_format sample_frame_no_gender true [] = Raised e out.
Proof.
  apply (proj2 (proj1 (user_stats_raises_iff sample_format sample_frame_no_gender
                         true []))).
  right. left. split; reflexivity.
Defined.

Example user_stats_no_gender_value :
  exists out,
    user_stats sample_format sample_frame_no_gender true [] = Raised ValueError out.
Proof. eexists. reflexivity. Qed.

Lemma list_min_spec (ys : list Z) (y : Z) :
  In (list_min ys y) (y :: ys) /\ forall z, In z (y :: ys) -> list_min ys y <= z.
Proof.
  unfold list_min. induction ys as [| x ys [IHin IHle]]; cbn [fold_right].
  - split; [now left | intros z [<- | []]; lia].
  - split.
    + destruct (Z.min_spec x (fold_right Z.min y ys)) as [[_ ->] | [_ ->]].
      * right. now left.
      * destruct IHin as [<- | Hin]; [now left | right; now right].
    + intros z [<- | [<- | Hz]].
      * pose proof (IHle y (or_introl eq_refl)). lia.
      * lia.
      * pose proof (IHle z (or_intror Hz)). lia.
Qed.

Lemma list_max_spec (ys : list Z) (y : Z) :
  In (list_max ys y) (y :: ys) /\ forall z, In z (y :: ys) -> z <= list_max ys y.
Proof.
  unfold list_max. induction ys as [| x ys [IHin IHle]]; cbn [fold_right].
  - split; [now left | intros z [<- | []]; lia].
  - split.
    + destruct (Z.max_spec x (fold_right Z.max y ys)) as [[_ ->] | [_ ->]].
      * destruct IHin as [<- | Hin]; [now left | right; now right].
      * right. now left.
    + intros z [<- | [<- | Hz]].
      * pose proof (IHle y (or_introl eq_refl)). lia.
      * lia.
      * pose proof (IHle z (or_intror Hz)). lia.
Qed.

(** X21: when user_stats returns for a frame with a birth year column, it
    has printed the earliest year, the latest year and the most common
    years of that column (missing values removed, the others converted to
    integers); the earliest and the latest are years of the column, every
    year of the column lies between them, and so does every year printed
    as most common. *)
Theorem birth_year_report_bounds (format_quotient : Q -> Z -> nat -> string)
    (df : DataFrame) (timing_off_flag : bool) (inputs rest : list input_event)
    (u : unit) (out : list event) :
  user_stats format_quotient df timing_off_flag inputs = Returned u rest out ->
  df_has_birth_year df = true ->
  exists earliest latest,
    In (Out ("Earliest year of birth:  " ++ PyStr.str_int earliest)) out
    /\ In (Out ("Latest year of birth:    " ++ PyStr.str_int latest)) out
    /\ In (Out ("The most common year(s): "
                ++ PyStr.join ", " (map str_cell (mode (map CInt (birth_years df))))))
         out
    /\ In earliest (birth_years df)
    /\ In latest (birth_years df)
    /\ (forall z, In z (birth_years df) -> earliest <= z <= latest)
    /\ (forall v, In v (mode (map CInt (birth_years df))) ->
          exists z, v = CInt z /\ earliest <= z <= latest).
Proof.
  intros H Hcol.
  destruct (user_stats_outcome format_quotient df timing_off_flag inputs)
    as [[_ [out' H']] | [(_ & _ & out' & H') | [(_ & _ & _ & out' & H')
       | (_ & _ & Hy & out' & H' & _ & _ & Hlines)]]];
    try (rewrite H' in H; discriminate).
  rewrite H' in H. injection H as _ _ <-.
  destruct Hy as [Hy | Hy]; [congruence |].
  destruct (birth_years df) as [| y ys] eqn:Ey; [now elim Hy |].
  destruct (Hlines y ys Hcol eq_refl) as (Hlo & Hhi & Hcommon).
  destruct (list_min_spec ys y) as [Hmin_in Hmin], (list_max_spec ys y) as [Hmax_in Hmax].
  exists (list_min ys y), (list_max ys y).
  repeat (split; [assumption |]). split.
  - intros z Hz. split; [now apply Hmin | now apply Hmax].
  - intros v Hv. apply mode_spec in Hv as [Hv _].
    apply in_map_iff in Hv as [z [<- Hz]]. exists z.
    split; [reflexivity | split; [now apply Hmin | now apply Hmax]].
Qed.

Example sample_birth_years : birth_years sample_frame_years = [1992; 1985; 1992; 2001].
Proof. reflexivity. Qed.

Lemma birth_year_report_bounds_witness :
  exists earliest latest,
    In (Out ("Earliest year of birth:  " ++ PyStr.str_int earliest))
      (events_of (user_stats sample_format sample_frame_years true []))
    /\ In (Out ("Latest year of birth:    " ++ PyStr.str_int latest))
         (events_of (user_stats sample_format sample_frame_years true []))
    /\ In (Out ("The most common year(s): "
                ++ PyStr.join ", "
                     (map str_cell (mode (map CInt (birth_years sample_frame_years))))))
         (events_of (user_stats sample_format sample_frame_years true []))
    /\ In earliest (birth_years sample_frame_years)
    /\ In latest (birth_years sample_frame_years)
    /\ (forall z, In z (birth_years sample_frame_years) -> earliest <= z <= latest)
    /\ (forall v, In v (mode (map CInt (birth_years sample_frame_years))) ->
          exists z, v = CInt z /\ earliest <= z <= latest).
Proof.
  apply (birth_year_report_bounds sample_format sample_frame_years true [] [] tt
           (events_of (user_stats sample_format sample_frame_years true []))).
  - reflexivity.
  - reflexivity.
Defined.

Example sample_birth_year_lines :
  In (Out "Earliest year of birth:  1985")
    (events_of (user_stats sample_format sample_frame_years true []))
  /\ In (Out "Latest year of birth:    2001")
       (events_of (user_stats sample_format sample_frame_years true []))
  /\ In (Out "The most common year(s): 1992")
       (events_of (user_stats sample_format sample_frame_years true [])).
Proof. vm_compute. tauto. Qed.
